(** * CORD-19 metadata explorer: normalization, derivation, aggregation

    A shallow embedding of [scripts/explore.py] and [scripts/app.py].

    Modelling scope.
    - A Python [str] is a [string] whose characters are the code points
      0..255 (the Latin-1 block); [str.lower], [str.isspace] and the
      regular-expression class [\w] are written out for that block.
    - A table read from CSV holds text cells or nulls; the dtype inference
      of the CSV reader is not modelled.  Derived columns hold timestamps
      or integers.
    - The date parser and the regular-expression search of the dataframe
      library, and the seeded generator of the numeric library, are
      interfaces ([Pandas], [Numpy]) the definitions are parameterized by. *)

From Stdlib Require Import String Ascii List ZArith NArith Arith Lia Bool.
From Stdlib Require Import Permutation Sorted.
Import ListNotations.

Local Open Scope string_scope.
Local Open Scope list_scope.

(* ------------------------------------------------------------------ *)
(** ** Characters *)

Module Char.

Definition code (c : ascii) : N := N_of_ascii c.

Definition between (lo hi : N) (c : ascii) : bool :=
  (lo <=? code c)%N && (code c <=? hi)%N.

Definition is_digit (c : ascii) : bool := between 48 57 c.
Definition is_upper (c : ascii) : bool := between 65 90 c.
Definition is_lower (c : ascii) : bool := between 97 122 c.

(** [str.isspace] on one code point below 256. *)
Definition isspace (c : ascii) : bool :=
  between 9 13 c || between 28 32 c || (code c =? 133)%N || (code c =? 160)%N.

(** Upper-case letters of the block: A-Z and the accented capitals
    192..222 without the multiplication sign 215. *)
Definition has_lower (c : ascii) : bool :=
  is_upper c || (between 192 222 c && negb (code c =? 215)%N).

(** [str.lower] on one code point below 256. *)
Definition lower (c : ascii) : ascii :=
  if has_lower c then ascii_of_N (code c + 32) else c.

(** [str.isalnum] on one code point below 256. *)
Definition isalnum (c : ascii) : bool :=
  is_digit c || is_upper c || is_lower c
  || (code c =? 170)%N || (code c =? 178)%N || (code c =? 179)%N
  || (code c =? 181)%N || (code c =? 185)%N || (code c =? 186)%N
  || between 188 190 c
  || between 192 214 c || between 216 246 c || between 248 255 c.

(** The class [\w] of a [str] pattern. *)
Definition is_word (c : ascii) : bool := isalnum c || Ascii.eqb c "_".

(** What the spec calls alphanumeric in a column name: 0-9, a-z, A-Z. *)
Definition is_ascii_alnum (c : ascii) : bool :=
  is_digit c || is_upper c || is_lower c.

(** The characters of a canonical column name. *)
Definition is_canonical (c : ascii) : bool :=
  is_digit c || is_lower c || Ascii.eqb c "_".

End Char.

(* ------------------------------------------------------------------ *)
(** ** Strings *)

Module Str.

Fixpoint map (f : ascii -> ascii) (s : string) : string :=
  match s with
  | EmptyString => EmptyString
  | String c s' => String (f c) (map f s')
  end.

Fixpoint filter (p : ascii -> bool) (s : string) : string :=
  match s with
  | EmptyString => EmptyString
  | String c s' => if p c then String c (filter p s') else filter p s'
  end.

Fixpoint all (p : ascii -> bool) (s : string) : bool :=
  match s with
  | EmptyString => true
  | String c s' => p c && all p s'
  end.

Definition is_empty (s : string) : bool :=
  match s with EmptyString => true | _ => false end.

(** [str.lower()] *)
Definition lower (s : string) : string := map Char.lower s.

(** [str.lstrip()], [str.rstrip()], [str.strip()] *)
Fixpoint lstrip (s : string) : string :=
  match s with
  | EmptyString => EmptyString
  | String c s' => if Char.isspace c then lstrip s' else s
  end.

Fixpoint rstrip (s : string) : string :=
  match s with
  | EmptyString => EmptyString
  | String c s' =>
      match rstrip s' with
      | EmptyString => if Char.isspace c then EmptyString else String c EmptyString
      | r => String c r
      end
  end.

Definition strip (s : string) : string := rstrip (lstrip s).

(** [sep.join(parts)] *)
Fixpoint join (sep : string) (parts : list string) : string :=
  match parts with
  | [] => EmptyString
  | [p] => p
  | p :: rest => p ++ sep ++ join sep rest
  end.

Definition emit (acc : string) : list string :=
  if is_empty acc then [] else [acc].

(** The maximal runs of characters satisfying [p], left to right; [acc]
    is the run being read. *)
Fixpoint runs (p : ascii -> bool) (acc : string) (s : string) : list string :=
  match s with
  | EmptyString => emit acc
  | String c s' =>
      if p c then runs p (acc ++ String c EmptyString) s'
      else emit acc ++ runs p EmptyString s'
  end.

(** [str.split()] with no separator: the runs of non-whitespace. *)
Definition split (s : string) : list string :=
  runs (fun c => negb (Char.isspace c)) EmptyString s.

(** First and last character, when there is one. *)
Definition first (s : string) : option ascii :=
  match s with EmptyString => None | String c _ => Some c end.

Fixpoint last (s : string) : option ascii :=
  match s with
  | EmptyString => None
  | String c EmptyString => Some c
  | String _ s' => last s'
  end.

End Str.

(* ------------------------------------------------------------------ *)
(** ** Regular expressions used by the scripts

    Every pattern of the two scripts is a single character class (the two
    substitutions of the column normalizer) or a run of one class between
    word boundaries (the title tokenizer). *)

Module Re.

Inductive item :=
| Chr (c : ascii)
| Rng (lo hi : ascii).

Record class := { negated : bool; items : list item }.

Definition item_matches (c : ascii) (it : item) : bool :=
  match it with
  | Chr a => Ascii.eqb a c
  | Rng lo hi => Char.between (Char.code lo) (Char.code hi) c
  end.

Definition matches (cls : class) (c : ascii) : bool :=
  xorb (negated cls) (existsb (item_matches c) (items cls)).

(** [re.sub(cls, repl, s)]: every character of the class is replaced. *)
Fixpoint sub (cls : class) (repl : string) (s : string) : string :=
  match s with
  | EmptyString => EmptyString
  | String c s' =>
      (if matches cls c then repl else String c EmptyString) ++ sub cls repl s'
  end.

(** [re.findall(r"\b\w+\b", s)]: a match starts where a word character
    follows a non-word character and, being greedy, extends to the end of
    the run, where the closing boundary holds. *)
Definition findall_words (s : string) : list string :=
  Str.runs Char.is_word EmptyString s.

End Re.

(* ------------------------------------------------------------------ *)
(** ** Column Normalizer ([normalize_columns], and the same chain in
    [load_df]) *)

(** [[ \/\-#]] *)
Definition separators : Re.class :=
  {| Re.negated := false;
     Re.items := [Re.Chr " "; Re.Chr "/"; Re.Chr "-"; Re.Chr "#"] |}.

(** [[^0-9a-zA-Z_]] *)
Definition not_name_char : Re.class :=
  {| Re.negated := true;
     Re.items := [Re.Rng "0" "9"; Re.Rng "a" "z"; Re.Rng "A" "Z"; Re.Chr "_"] |}.

(** [.str.strip().str.lower().str.replace(.., "_").str.replace(.., "")]
    on one header. *)
Definition normalize_name (s : string) : string :=
  Re.sub not_name_char ""
    (Re.sub separators "_"
       (Str.lower (Str.strip s))).

(** The transform as the specification words it. *)
Definition is_separator (c : ascii) : bool :=
  Ascii.eqb c " " || Ascii.eqb c "/" || Ascii.eqb c "-" || Ascii.eqb c "#".

Definition spec_normalize (s : string) : string :=
  Str.filter (fun c => Char.is_ascii_alnum c || Ascii.eqb c "_")
    (Str.map (fun c => if is_separator c then "_"%char else c)
       (Str.map Char.lower (Str.strip s))).

(** The same transform worded one character at a time, with the alphabets
    written out: a capital letter becomes its small letter, a space,
    slash, hyphen or [#] becomes an underscore, a small letter, a digit or
    an underscore stays, and any other character is deleted. *)
Definition capital_letters : string := "ABCDEFGHIJKLMNOPQRSTUVWXYZ".
Definition small_letters : string := "abcdefghijklmnopqrstuvwxyz".
Definition digit_characters : string := "0123456789".

Fixpoint position (c : ascii) (s : string) : option nat :=
  match s with
  | EmptyString => None
  | String x s' => if Ascii.eqb x c then Some 0 else option_map S (position c s')
  end.

Definition occurs (c : ascii) (s : string) : bool :=
  match position c s with Some _ => true | None => false end.

Definition worded_char (c : ascii) : string :=
  match position c capital_letters with
  | Some i =>
      match String.get i small_letters with
      | Some l => String l EmptyString
      | None => EmptyString
      end
  | None =>
      if occurs c " /-#" then "_"
      else if occurs c small_letters || occurs c digit_characters || occurs c "_"
           then String c EmptyString
           else EmptyString
  end.

Fixpoint worded_normalize (core : string) : string :=
  match core with
  | EmptyString => EmptyString
  | String c rest => (worded_char c ++ worded_normalize rest)%string
  end.

(** The code points below 256 that [str.strip] removes: tab to carriage
    return, the four separators 28-31, the space, NEL and the no-break
    space. *)
Definition whitespace_codes : list N := [9; 10; 11; 12; 13; 28; 29; 30; 31; 32; 133; 160]%N.

(** [s] with whitespace before and after it removed is [core]: [s] is
    [core] between two runs of whitespace, and [core] neither starts nor
    ends with whitespace. *)
Definition stripped_to (s core : string) : Prop :=
  (exists a b, s = (a ++ core ++ b)%string
               /\ Str.all Char.isspace a = true
               /\ Str.all Char.isspace b = true)
  /\ (forall c, Str.first core = Some c \/ Str.last core = Some c ->
                Char.isspace c = false).

(* ------------------------------------------------------------------ *)
(** ** Exceptions and the two effect layers

    [result] is a computation that may raise; [M] adds the lines the batch
    script prints. *)

Inductive exn :=
| AttributeError
| KeyError
| ValueError
| TypeError
| IndexError
| ReError
(** not a Python exception: an operation met a column outside the text
    data model (a numeric or datetime column where text is expected, a
    sub-frame used as a row mask) *)
| NotModelled.

Inductive result (A : Type) :=
| Ok (a : A)
| Raise (e : exn).

Arguments Ok {A} a.
Arguments Raise {A} e.

Definition rbind {A B} (m : result A) (f : A -> result B) : result B :=
  match m with
  | Ok a => f a
  | Raise e => Raise e
  end.

Definition rmap {A B} (f : A -> B) (m : result A) : result B :=
  rbind m (fun a => Ok (f a)).

Fixpoint rmapM {A B} (f : A -> result B) (xs : list A) : result (list B) :=
  match xs with
  | [] => Ok []
  | x :: xs' =>
      rbind (f x) (fun y => rbind (rmapM f xs') (fun ys => Ok (y :: ys)))
  end.

Definition M (A : Type) : Type := (list string * result A)%type.

Definition ret {A} (a : A) : M A := ([], Ok a).

Definition bind {A B} (m : M A) (f : A -> M B) : M B :=
  match snd m with
  | Ok a => (fst m ++ fst (f a), snd (f a))
  | Raise e => (fst m, Raise e)
  end.

Definition print (line : string) : M unit := ([line], Ok tt).

Definition lift {A} (r : result A) : M A := ([], r).

Declare Scope frame_scope.
Delimit Scope frame_scope with frame.

Notation "x <- m ;; k" := (bind m (fun x => k))
  (at level 61, m at next level, right associativity) : frame_scope.
Notation "m ;; k" := (bind m (fun _ => k))
  (at level 61, right associativity) : frame_scope.
Notation "x <~ m ;; k" := (rbind m (fun x => k))
  (at level 61, m at next level, right associativity) : frame_scope.

(* ------------------------------------------------------------------ *)
(** ** Data frames *)

Record Timestamp := { ts_year : Z; ts_month : Z; ts_day : Z }.

(** A column: object dtype holding text, [datetime64], or numeric. A
    missing value (NaN, NaT, NA) is [None]. *)
Inductive Series :=
| Text (xs : list (option string))
| Dates (xs : list (option Timestamp))
| Ints (xs : list (option Z)).

(** Labels are kept in a list: the frame accepts repeated labels. *)
Record DataFrame := { nrows : nat; columns : list (string * Series) }.

Definition labels (df : DataFrame) : list string := List.map fst (columns df).

(** [key in df.columns] *)
Definition has_column (df : DataFrame) (key : string) : bool :=
  existsb (String.eqb key) (labels df).

Definition named (key : string) (c : string * Series) : bool :=
  String.eqb key (fst c).

(** All the columns carrying a label, left to right. *)
Definition columns_named (df : DataFrame) (key : string) : list Series :=
  List.map snd (List.filter (named key) (columns df)).

(** What [df[key]] evaluates to: nothing (the access raises [KeyError],
    [df.get] returns its default), a series, or a sub-frame when the label
    is repeated. *)
Inductive lookup :=
| Missing
| One (s : Series)
| Many (ss : list Series).

Definition getitem (df : DataFrame) (key : string) : lookup :=
  match columns_named df key with
  | [] => Missing
  | [s] => One s
  | ss => Many ss
  end.

(** [df[key] = series] (or a scalar already broadcast to a series): every
    column carrying the label is overwritten; a new label is appended. *)
Definition setitem (df : DataFrame) (key : string) (s : Series) : DataFrame :=
  if has_column df key then
    {| nrows := nrows df;
       columns := List.map (fun c => if named key c then (fst c, s) else c)
                    (columns df) |}
  else
    {| nrows := nrows df; columns := columns df ++ [(key, s)] |}.

(** [df[key] = frame] for a repeated label: the columns of the value
    replace the labelled columns position by position. *)
Fixpoint assign_columns (key : string) (vals : list Series)
    (cols : list (string * Series)) : list (string * Series) :=
  match cols with
  | [] => []
  | c :: cols' =>
      if named key c then
        match vals with
        | v :: vals' => (fst c, v) :: assign_columns key vals' cols'
        | [] => c :: assign_columns key [] cols'
        end
      else c :: assign_columns key vals cols'
  end.

Definition setitem_frame (df : DataFrame) (key : string) (vals : list Series)
    : DataFrame :=
  {| nrows := nrows df; columns := assign_columns key vals (columns df) |}.

Definition series_length (s : Series) : nat :=
  match s with
  | Text xs => length xs
  | Dates xs => length xs
  | Ints xs => length xs
  end.

(** Every column has one cell per row. *)
Definition well_formed (df : DataFrame) : Prop :=
  Forall (fun c => series_length (snd c) = nrows df) (columns df).

(** A table as read from CSV text: text columns only. *)
Definition is_text (s : Series) : bool :=
  match s with Text _ => true | _ => false end.

Definition text_table (df : DataFrame) : Prop :=
  Forall (fun c => is_text (snd c) = true) (columns df).

(** [series.notna()] and [.any()] *)
Definition present {A} (x : option A) : bool :=
  match x with Some _ => true | None => false end.

Definition notna (s : Series) : list bool :=
  match s with
  | Text xs => List.map present xs
  | Dates xs => List.map present xs
  | Ints xs => List.map present xs
  end.

Definition any (bs : list bool) : bool := existsb (fun b => b) bs.

Definition no_nulls (s : Series) : bool := forallb (fun b => b) (notna s).

(** Cells, to read a frame by rows. *)
Inductive cell :=
| NA
| CStr (s : string)
| CTime (t : Timestamp)
| CInt (z : Z).

Definition cell_of {A} (inj : A -> cell) (x : option A) : cell :=
  match x with Some a => inj a | None => NA end.

Definition cells (s : Series) : list cell :=
  match s with
  | Text xs => List.map (cell_of CStr) xs
  | Dates xs => List.map (cell_of CTime) xs
  | Ints xs => List.map (cell_of CInt) xs
  end.

Definition row (df : DataFrame) (i : nat) : list cell :=
  List.map (fun c => nth i (cells (snd c)) NA) (columns df).

Definition rows (df : DataFrame) : list (list cell) :=
  List.map (row df) (seq 0 (nrows df)).

(** [normalize_columns(df)]: [df.columns = new_cols] relabels the columns
    in place, position by position. *)
Definition normalize_columns (df : DataFrame) : DataFrame :=
  {| nrows := nrows df;
     columns := List.map (fun c => (normalize_name (fst c), snd c)) (columns df) |}.

(* ------------------------------------------------------------------ *)
(** ** Library interfaces *)

(** The two library routines whose tables are not reproduced here: the
    date parser behind [pd.to_datetime] and the case-insensitive regular
    expression search behind [str.contains] ([None]: the pattern does not
    compile). *)
Class Pandas := {
  parse_datetime : string -> option Timestamp;
  search_ignorecase : string -> option (string -> bool)
}.

(** [numpy.random]: generator states, seeding, and [permutation(n)], which
    returns the positions [0..n-1] in some order. *)
Class Numpy := {
  rng : Type;
  seed : Z -> rng;
  permutation : rng -> nat -> list nat;
  permutation_perm : forall g n, Permutation (permutation g n) (seq 0 n)
}.

Local Open Scope frame_scope.

(* ------------------------------------------------------------------ *)
(** ** Field Deriver *)

Section FieldDeriver.

Context `{Pandas}.

(** The [errors] argument of [pd.to_datetime]. *)
Inductive errors_mode := ErrorsRaise | ErrorsCoerce.

Definition to_datetime_cell (mode : errors_mode) (x : option string)
    : result (option Timestamp) :=
  match x with
  | None => Ok None
  | Some s =>
      match parse_datetime s with
      | Some t => Ok (Some t)
      | None =>
          match mode with
          | ErrorsCoerce => Ok None
          | ErrorsRaise => Raise ValueError
          end
      end
  end.

(** What [errors="coerce"] makes of a cell. *)
Definition coerce_cell (x : option string) : option Timestamp :=
  match x with
  | None => None
  | Some s => parse_datetime s
  end.

(** A number is read as nanoseconds since 1970-01-01. The date of a day
    count is that of the proleptic Gregorian calendar, reckoned in eras of
    400 years starting on 1 March. *)
Definition ns_per_day : Z := 86400000000000.

Definition civil_from_days (days : Z) : Timestamp :=
  let z := (days + 719468)%Z in
  let era := (z / 146097)%Z in
  let doe := (z - era * 146097)%Z in
  let yoe := ((doe - doe / 1460 + doe / 36524 - doe / 146096) / 365)%Z in
  let doy := (doe - (365 * yoe + yoe / 4 - yoe / 100))%Z in
  let mp := ((5 * doy + 2) / 153)%Z in
  let d := (doy - (153 * mp + 2) / 5 + 1)%Z in
  let m := (if mp <? 10 then mp + 3 else mp - 9)%Z in
  {| ts_year := (yoe + era * 400 + (if m <=? 2 then 1 else 0))%Z;
     ts_month := m;
     ts_day := d |}.

(** The nanosecond counts a timestamp can hold: the 64-bit integers
    without the least one, which stands for NaT. *)
Definition in_bounds (n : Z) : bool :=
  ((- 2 ^ 63 <? n) && (n <? 2 ^ 63))%Z.

Definition from_epoch (mode : errors_mode) (x : option Z)
    : result (option Timestamp) :=
  match x with
  | None => Ok None
  | Some n =>
      if in_bounds n then Ok (Some (civil_from_days (n / ns_per_day)))
      else
        match mode with
        | ErrorsCoerce => Ok None
        | ErrorsRaise => Raise ValueError
        end
  end.


(** [pd.to_datetime(df[key], errors=mode)]. A sub-frame is assembled from
    columns named year, month and day, which a repeated label never has. *)
Definition to_datetime (mode : errors_mode) (l : lookup) : result Series :=
  match l with
  | Missing => Raise KeyError
  | One (Text xs) => rmap Dates (rmapM (to_datetime_cell mode) xs)
  | One (Dates xs) => Ok (Dates xs)
  | One (Ints xs) => rmap Dates (rmapM (from_epoch mode) xs)
  | Many _ => Raise ValueError
  end.

(** [df[key].dt.year] *)
Definition dt_year (l : lookup) : result Series :=
  match l with
  | Missing => Raise KeyError
  | One (Dates xs) => Ok (Ints (List.map (option_map ts_year) xs))
  | One _ => Raise AttributeError
  | Many _ => Raise AttributeError
  end.

(** Lines 86-90 of explore.py and 41-45 of app.py ([infer_datetime_format],
    which explore.py also passes, only chooses a faster parsing path). *)
Definition derive_year (df : DataFrame) : result DataFrame :=
  if has_column df "publish_time" then
    pt <~ to_datetime ErrorsCoerce (getitem df "publish_time") ;;
    let df := setitem df "publish_time" pt in
    y <~ dt_year (getitem df "publish_time") ;;
    Ok (setitem df "year" y)
  else
    Ok (setitem df "year" (Ints (repeat None (nrows df)))).

(** [series.fillna(v)] with a string [v]. *)
Definition fill (v : string) (x : option string) : option string :=
  match x with
  | None => Some v
  | Some s => Some s
  end.

Definition fillna (v : string) (s : Series) : result Series :=
  match s with
  | Text xs => Ok (Text (List.map (fill v) xs))
  | _ => if no_nulls s then Ok s else Raise NotModelled
  end.

(** [series.astype(str)] *)
Definition astype_str (s : Series) : result Series :=
  match s with
  | Text xs =>
      Ok (Text (List.map (fun x => match x with
                                   | Some t => Some t
                                   | None => Some "nan"
                                   end) xs))
  | _ => Raise NotModelled
  end.

(** Lines 93-101 of explore.py, for one of the two fields. *)
Definition fill_text (key : string) (df : DataFrame) : result DataFrame :=
  if has_column df key then
    match getitem df key with
    | Missing => Raise KeyError
    | One s => s' <~ fillna "" s ;; Ok (setitem df key s')
    | Many ss => ss' <~ rmapM (fillna "") ss ;; Ok (setitem_frame df key ss')
    end
  else
    Ok (setitem df key (Text (repeat (Some "") (nrows df)))).

(** [len(s.split())] *)
Definition word_count (s : string) : Z := Z.of_nat (length (Str.split s)).

(** [df[key].str.split().str.len()] *)
Definition str_split_len (l : lookup) : result Series :=
  match l with
  | Missing => Raise KeyError
  | One (Text xs) => Ok (Ints (List.map (option_map word_count) xs))
  | One _ => Raise AttributeError
  | Many _ => Raise AttributeError
  end.

Definition derive_word_count (src dst : string) (df : DataFrame)
    : result DataFrame :=
  c <~ str_split_len (getitem df src) ;;
  Ok (setitem df dst c).

(** The names explore.py expects, and its report on them. *)
Definition expected : list string :=
  ["sha"; "source_x"; "title"; "doi"; "pmcid"; "pubmed_id"; "license";
   "abstract"; "publish_time"; "authors"; "journal";
   "microsoft_academic_paper_id"; "who_covidence"; "has_full_text"].

Definition repr_names (l : list string) : string :=
  ("[" ++ Str.join ", " (List.map (fun s => "'" ++ s ++ "'") l) ++ "]")%string.

Definition report_expected (df : DataFrame) : M unit :=
  match List.filter (has_column df) expected with
  | [] =>
      print "Warning: none of the expected columns found. I'll continue with whatever columns are present."
  | found => print ("Using columns: " ++ repr_names found)%string
  end.

(** explore.py [main], lines 57-105: from the frame as read to the frame
    that is written as metadata_cleaned.csv. *)
Definition clean (df : DataFrame) : M DataFrame :=
  let df := normalize_columns df in
  report_expected df ;;
  df <- lift (derive_year df) ;;
  df <- lift (fill_text "abstract" df) ;;
  df <- lift (fill_text "title" df) ;;
  df <- lift (derive_word_count "abstract" "abstract_word_count" df) ;;
  df <- lift (derive_word_count "title" "title_word_count" df) ;;
  ret df.

(** app.py line 46 (and 47-50): [df[key] = df.get(key, "").fillna("").astype(str)].
    With the label absent [df.get] hands back the default, a [str], which
    has no [fillna]. *)
Definition fill_text_field (key : string) (df : DataFrame) : result DataFrame :=
  match getitem df key with
  | Missing => Raise AttributeError
  | One s =>
      s1 <~ fillna "" s ;;
      s2 <~ astype_str s1 ;;
      Ok (setitem df key s2)
  | Many ss =>
      ss1 <~ rmapM (fillna "") ss ;;
      ss2 <~ rmapM astype_str ss1 ;;
      Ok (setitem_frame df key ss2)
  end.

(** app.py [load_df], lines 33-52, from the frame as read. *)
Definition load_df (df : DataFrame) : result DataFrame :=
  let df := normalize_columns df in
  df <~ derive_year df ;;
  df <~ fill_text_field "title" df ;;
  df <~ fill_text_field "abstract" df ;;
  df <~ fill_text_field "authors" df ;;
  df <~ fill_text_field "journal" df ;;
  df <~ fill_text_field "source_x" df ;;
  derive_word_count "abstract" "abstract_word_count" df.

End FieldDeriver.

(* ------------------------------------------------------------------ *)
(** ** Sampler *)

Section Sampler.

Context `{Numpy}.

(** Positional selection; a position past the end raises. *)
Definition take_cells {A} (idx : list nat) (xs : list A) : result (list A) :=
  rmapM (fun i => match nth_error xs i with
                  | Some x => Ok x
                  | None => Raise IndexError
                  end) idx.

Definition take_series (idx : list nat) (s : Series) : result Series :=
  match s with
  | Text xs => rmap Text (take_cells idx xs)
  | Dates xs => rmap Dates (take_cells idx xs)
  | Ints xs => rmap Ints (take_cells idx xs)
  end.

(** [df.take(idx)] *)
Definition take (df : DataFrame) (idx : list nat) : result DataFrame :=
  cols <~ rmapM (fun c => s <~ take_series idx (snd c) ;; Ok (fst c, s))
            (columns df) ;;
  Ok {| nrows := length idx; columns := cols |}.

(** The cells [take] returns when every position is in range. *)
Definition reindex (idx : list nat) (s : Series) : Series :=
  match s with
  | Text xs => Text (List.map (fun i => nth i xs None) idx)
  | Dates xs => Dates (List.map (fun i => nth i xs None) idx)
  | Ints xs => Ints (List.map (fun i => nth i xs None) idx)
  end.

(** The generator a [random_state] argument stands for: a fresh one for an
    integer seed, the ambient one of the process for [None]. *)
Definition random_state (rs : option Z) (ambient : rng) : rng :=
  match rs with
  | Some s => seed s
  | None => ambient
  end.

(** [df.sample(n=n, random_state=rs)], without replacement. *)
Definition sample (df : DataFrame) (n : nat) (rs : option Z) (ambient : rng)
    : result DataFrame :=
  if (nrows df <? n)%nat then Raise ValueError
  else take df (firstn n (permutation (random_state rs ambient) (nrows df))).

(** explore.py lines 113-118; [None] when no sample is drawn. *)
Definition sample_step (sample_size : Z) (df : DataFrame) (ambient : rng)
    : option (result DataFrame) :=
  if negb (sample_size =? 0)%Z && (sample_size >? 0)%Z then
    let n := Z.min sample_size (Z.of_nat (nrows df)) in
    Some (sample df (Z.to_nat n) (Some 42%Z) ambient)
  else None.

End Sampler.

(* ------------------------------------------------------------------ *)
(** ** Aggregator: the title word table *)

Definition stopwords : list string :=
  ["the"; "and"; "of"; "in"; "to"; "a"; "for"; "on"; "with"; "by"; "an";
   "is"; "from"; "that"; "are"; "as"; "at"; "be"; "this"; "we"; "our"; "or";
   "using"; "use"; "study"; "studies"; "paper"; "research"; "covid";
   "covid19"; "coronavirus"; "sars"; "sarscov2"; "2019"; "2019ncov"; "novel"].

(** [w in stopwords] *)
Definition is_stopword (w : string) : bool := existsb (String.eqb w) stopwords.

(** [w not in stopwords and len(w) > 2] *)
Definition keep (w : string) : bool :=
  negb (is_stopword w) && (2 <? String.length w)%nat.

(** [Counter(words)]: a dict in insertion order; a word seen again has its
    count raised in place. *)
Fixpoint counter_add (w : string) (d : list (string * nat)) : list (string * nat) :=
  match d with
  | [] => [(w, 1)]
  | (k, n) :: d' =>
      if String.eqb k w then (k, S n) :: d' else (k, n) :: counter_add w d'
  end.

Definition Counter (ws : list string) : list (string * nat) :=
  fold_left (fun d w => counter_add w d) ws [].

(** [sorted(items, key=itemgetter(1), reverse=True)]: stable, so an item
    goes in front of the items it ties with that came after it. *)
Fixpoint insert_desc (x : string * nat) (l : list (string * nat))
    : list (string * nat) :=
  match l with
  | [] => [x]
  | y :: l' => if (snd x <? snd y)%nat then y :: insert_desc x l' else x :: l
  end.

Definition sorted_desc (items : list (string * nat)) : list (string * nat) :=
  fold_right insert_desc [] items.

(** [counter.most_common(n)], that is [heapq.nlargest(n, items, key=count)],
    which returns what [sorted(items, key=count, reverse=True)[:n]] does. *)
Definition most_common (n : nat) (d : list (string * nat)) : list (string * nat) :=
  firstn n (sorted_desc d).

(** explore.py lines 172 and 182-226, from the title strings. *)
Definition title_tokens (titles : list string) : list string :=
  let all_titles := Str.join " " titles in
  let text := Str.lower all_titles in
  let words := Re.findall_words text in
  List.filter keep words.

Definition top_title_words (titles : list string) : list (string * nat) :=
  most_common 200 (Counter (title_tokens titles)).

(** [df["title"].dropna().astype(str).values] *)
Definition dropna {A} (xs : list (option A)) : list A :=
  flat_map (fun x => match x with Some a => [a] | None => [] end) xs.

Definition title_strings (l : lookup) : result (list string) :=
  match l with
  | Missing => Raise KeyError
  | One (Text xs) => Ok (dropna xs)
  | One _ => Raise NotModelled
  | Many _ => Raise TypeError
  end.

(** The word table as the specification words it. *)
Definition spec_tokens (titles : list string) : list string :=
  List.filter
    (fun w => negb ((String.length w <=? 2)%nat || is_stopword w))
    (Re.findall_words (Str.join " " (List.map Str.lower titles))).

Fixpoint occurrences (w : string) (ws : list string) : nat :=
  match ws with
  | [] => 0
  | x :: ws' => (if String.eqb x w then 1 else 0) + occurrences w ws'
  end.

(** Position of the first occurrence ([length ws] when there is none). *)
Fixpoint first_index (w : string) (ws : list string) : nat :=
  match ws with
  | [] => 0
  | x :: ws' => if String.eqb x w then 0 else S (first_index w ws')
  end.

(** The distinct words, in the order they are first met. *)
Fixpoint distinct (ws : list string) : list string :=
  match ws with
  | [] => []
  | x :: ws' => x :: List.filter (fun y => negb (String.eqb x y)) (distinct ws')
  end.

Definition tally (ws : list string) : list (string * nat) :=
  List.map (fun w => (w, occurrences w ws)) (distinct ws).

(** The state of a counter part-way through its input: its keys, the
    words not among them, and an entry raised by its occurrences in the
    words still to come. *)
Definition keys (d : list (string * nat)) : list string := List.map fst d.

Definition unseen (d : list (string * nat)) (w : string) : bool :=
  negb (existsb (String.eqb w) (keys d)).

Definition bump (ws : list string) (kn : string * nat) : string * nat :=
  (fst kn, snd kn + occurrences (fst kn) ws).

(** More frequent first; among equally frequent items, as [before] says. *)
Definition ranked (before : string * nat -> string * nat -> Prop)
    (a b : string * nat) : Prop :=
  snd b < snd a \/ (snd a = snd b /\ before a b).

(** [a] ranks before [b]: more frequent, or as frequent and met first. *)
Definition ranks_before (ws : list string) (a b : string * nat) : Prop :=
  ranked (fun a b => first_index (fst a) ws < first_index (fst b) ws) a b.

(* ------------------------------------------------------------------ *)
(** ** The title tokens as the specification words them *)

(** Lower-casing, as a table: each capital letter below 256 (A-Z and the
    accented capitals) with its small letter. *)
Definition case_pairs : list (N * N) :=
  [
   (65, 97); (66, 98); (67, 99); (68, 100); (69, 101); (70, 102); (71,
   103); (72, 104); (73, 105); (74, 106); (75, 107); (76, 108); (77,
   109); (78, 110); (79, 111); (80, 112); (81, 113); (82, 114); (83,
   115); (84, 116); (85, 117); (86, 118); (87, 119); (88, 120); (89,
   121); (90, 122); (192, 224); (193, 225); (194, 226); (195, 227);
   (196, 228); (197, 229); (198, 230); (199, 231); (200, 232); (201,
   233); (202, 234); (203, 235); (204, 236); (205, 237); (206, 238);
   (207, 239); (208, 240); (209, 241); (210, 242); (211, 243); (212,
   244); (213, 245); (214, 246); (216, 248); (217, 249); (218, 250);
   (219, 251); (220, 252); (221, 253); (222, 254)
  ]%N.

Definition worded_lower (c : ascii) : ascii :=
  match List.find (fun p => N.eqb (fst p) (Char.code c)) case_pairs with
  | Some p => ascii_of_N (snd p)
  | None => c
  end.

(** The code points below 256 that [\w] matches: the digits, the letters,
    the underscore, and the letters and numerals above 127. *)
Definition word_codes : list N :=
  [
   48; 49; 50; 51; 52; 53; 54; 55; 56; 57; 65; 66; 67; 68; 69; 70; 71;
   72; 73; 74; 75; 76; 77; 78; 79; 80; 81; 82; 83; 84; 85; 86; 87; 88;
   89; 90; 95; 97; 98; 99; 100; 101; 102; 103; 104; 105; 106; 107; 108;
   109; 110; 111; 112; 113; 114; 115; 116; 117; 118; 119; 120; 121; 122;
   170; 178; 179; 181; 185; 186; 188; 189; 190; 192; 193; 194; 195; 196;
   197; 198; 199; 200; 201; 202; 203; 204; 205; 206; 207; 208; 209; 210;
   211; 212; 213; 214; 216; 217; 218; 219; 220; 221; 222; 223; 224; 225;
   226; 227; 228; 229; 230; 231; 232; 233; 234; 235; 236; 237; 238; 239;
   240; 241; 242; 243; 244; 245; 246; 248; 249; 250; 251; 252; 253; 254;
   255
  ]%N.

(** [ws] are the words of [s]: maximal runs of word characters, left to
    right. A word starts [s] or follows a character that is not a word
    character, and it ends [s] or is followed by such a character. *)
Inductive words_of : string -> list string -> Prop :=
| words_none : words_of EmptyString []
| words_skip c s ws :
    Char.is_word c = false -> words_of s ws -> words_of (String c s) ws
| words_last w :
    w <> EmptyString -> Str.all Char.is_word w = true -> words_of w [w]
| words_next w c s ws :
    w <> EmptyString -> Str.all Char.is_word w = true ->
    Char.is_word c = false -> words_of s ws ->
    words_of (w ++ String c s) (w :: ws).

(* ------------------------------------------------------------------ *)
(** ** Word counts as the specification words them *)

(** The number of places where a whitespace-delimited token starts;
    [after_space] tells whether the previous character was whitespace (or
    there was none). *)
Fixpoint token_starts (after_space : bool) (s : string) : nat :=
  match s with
  | EmptyString => 0
  | String c s' =>
      (if after_space && negb (Char.isspace c) then 1 else 0)
      + token_starts (Char.isspace c) s'
  end.

Definition whitespace_tokens (s : string) : Z := Z.of_nat (token_starts true s).

(* ------------------------------------------------------------------ *)
(** ** Interactive viewer: the sidebar filters of app.py *)

Section Viewer.

Context `{Pandas}.

(** [if df["year"].notna().any()]: the truth value of the sub-frame a
    repeated label gives is ambiguous. *)
Definition year_any (l : lookup) : result bool :=
  match l with
  | Missing => Raise KeyError
  | One s => Ok (any (notna s))
  | Many _ => Raise ValueError
  end.

(** [int(df["year"].dropna().min())] and [.max()], with their defaults. *)
Definition year_extreme (pick : Z -> Z -> Z) (default : Z) (l : lookup)
    : result Z :=
  b <~ year_any l ;;
  if b then
    match l with
    | One (Ints ys) =>
        match dropna ys with
        | y :: ys' => Ok (fold_left pick ys' y)
        | [] => Raise ValueError
        end
    | _ => Raise NotModelled
    end
  else Ok default.

(** Lines 64-77: the range is fixed when one year is present, and set by
    the slider otherwise. *)
Definition year_range (df : DataFrame) (slider : Z * Z) : result (Z * Z) :=
  min_year <~ year_extreme Z.min 2018%Z (getitem df "year") ;;
  max_year <~ year_extreme Z.max 2023%Z (getitem df "year") ;;
  Ok (if (min_year =? max_year)%Z then (min_year, max_year) else slider).

(** The slider opens on the whole range. *)
Definition default_range (df : DataFrame) : result (Z * Z) :=
  min_year <~ year_extreme Z.min 2018%Z (getitem df "year") ;;
  max_year <~ year_extreme Z.max 2023%Z (getitem df "year") ;;
  Ok (min_year, max_year).

(** [series >= v] and [series <= v] with an integer [v]: a missing value
    compares false, text does not compare with a number. *)
Definition compare_scalar (cmp : Z -> Z -> bool) (l : lookup) (v : Z)
    : result (list bool) :=
  match l with
  | Missing => Raise KeyError
  | One (Ints ys) =>
      Ok (List.map (fun y => match y with
                             | Some z => cmp z v
                             | None => false
                             end) ys)
  | One (Text xs) =>
      rmapM (fun x => match x with
                      | Some _ => Raise TypeError
                      | None => Ok false
                      end) xs
  | One (Dates _) => Raise TypeError
  | Many _ => Raise NotModelled
  end.

(** [a & b] on two masks *)
Definition mask_and (a b : list bool) : list bool :=
  List.map (fun p => fst p && snd p) (combine a b).

(** [frame[mask]]: the rows where the mask holds. *)
Fixpoint select {A} (mask : list bool) (xs : list A) : list A :=
  match mask, xs with
  | b :: mask', x :: xs' => if b then x :: select mask' xs' else select mask' xs'
  | _, _ => []
  end.

Definition select_series (mask : list bool) (s : Series) : Series :=
  match s with
  | Text xs => Text (select mask xs)
  | Dates xs => Dates (select mask xs)
  | Ints xs => Ints (select mask xs)
  end.

Definition select_rows (mask : list bool) (df : DataFrame) : DataFrame :=
  {| nrows := length (select mask (seq 0 (nrows df)));
     columns := List.map (fun c => (fst c, select_series mask (snd c))) (columns df) |}.

(** [frame["source_x"].fillna("Unknown") == selected] *)
Definition source_mask (l : lookup) (selected : string) : result (list bool) :=
  match l with
  | Missing => Raise KeyError
  | One (Text xs) =>
      Ok (List.map (fun x => match fill "Unknown" x with
                             | Some t => String.eqb t selected
                             | None => false
                             end) xs)
  | One _ => Raise NotModelled
  | Many _ => Raise NotModelled
  end.

(** [frame["title"].str.contains(query, case=False, na=False)] *)
Definition title_mask (l : lookup) (query : string) : result (list bool) :=
  match l with
  | Missing => Raise KeyError
  | One (Text xs) =>
      match search_ignorecase query with
      | None => Raise ReError
      | Some found =>
          Ok (List.map (fun x => match x with
                                 | Some t => found t
                                 | None => false
                                 end) xs)
      end
  | One _ => Raise AttributeError
  | Many _ => Raise AttributeError
  end.

Definition filter_years (df filtered : DataFrame) (range : Z * Z)
    : result DataFrame :=
  b <~ year_any (getitem df "year") ;;
  if b then
    ge <~ compare_scalar Z.geb (getitem filtered "year") (fst range) ;;
    le <~ compare_scalar Z.leb (getitem filtered "year") (snd range) ;;
    Ok (select_rows (mask_and ge le) filtered)
  else Ok filtered.

Definition filter_source (filtered : DataFrame) (selected : string)
    : result DataFrame :=
  if negb (String.eqb selected "All") then
    m <~ source_mask (getitem filtered "source_x") selected ;;
    Ok (select_rows m filtered)
  else Ok filtered.

Definition filter_title (filtered : DataFrame) (query : string)
    : result DataFrame :=
  if negb (Str.is_empty (Str.strip query)) then
    m <~ title_mask (getitem filtered "title") query ;;
    Ok (select_rows m filtered)
  else Ok filtered.

(** Lines 85-91: what the table, the charts and the CSV export show. *)
Definition apply_filters (df : DataFrame) (range : Z * Z)
    (selected_source title_query : string) : result DataFrame :=
  let filtered := df in
  filtered <~ filter_years df filtered range ;;
  filtered <~ filter_source filtered selected_source ;;
  filter_title filtered title_query.

End Viewer.

(** A year cell that is not null and lies in the selected range. *)
Definition year_within (range : Z * Z) (y : option Z) : Prop :=
  exists z, y = Some z /\ (fst range <= z <= snd range)%Z.

(** The year cells of a frame, when [year] names one numeric column. *)
Definition year_cells (df : DataFrame) : option (list (option Z)) :=
  match getitem df "year" with
  | One (Ints ys) => Some ys
  | _ => None
  end.

(** The frames whose year column is numeric with every cell in range. *)
Definition years_within (range : Z * Z) (df : DataFrame) : Prop :=
  exists ys, year_cells df = Some ys /\ Forall (year_within range) ys.

(* ------------------------------------------------------------------ *)
(** ** Reading a frame after the derivation *)

(** The label [key] is present and every column carrying it holds [s]. *)
Definition column_is (df : DataFrame) (key : string) (s : Series) : Prop :=
  columns_named df key <> [] /\ Forall (eq s) (columns_named df key).

(** A text column without nulls. *)
Definition filled (s : Series) : Prop :=
  exists ts : list string, s = Text (List.map Some ts).

(** How often a label occurs among the columns. *)
Definition at_most_once (df : DataFrame) (key : string) : Prop :=
  length (columns_named df key) <= 1.

Definition exactly_once (df : DataFrame) (key : string) : Prop :=
  length (columns_named df key) = 1.

(** How a text field of the frame [after] comes from the frame [before]:
    it is one text column without nulls; the all-empty column with one
    cell per row when [before] lacks the label, the input column with its
    nulls replaced by the empty string when [before] has it. *)
Definition filled_from (before after : DataFrame) (key : string) : Prop :=
  (exists ts : list string, getitem after key = One (Text (List.map Some ts)))
  /\ (has_column before key = false ->
      getitem after key = One (Text (repeat (Some "") (nrows before))))
  /\ (forall ys, getitem before key = One (Text ys) ->
      getitem after key = One (Text (List.map (fill "") ys))).

(** The same for a field the viewer fills, where the label is present. *)
Definition filled_in_place (before after : DataFrame) (key : string) : Prop :=
  columns_named after key <> []
  /\ Forall filled (columns_named after key)
  /\ (forall ys, getitem before key = One (Text ys) ->
      getitem after key = One (Text (List.map (fill "") ys))).

(** [s'] is the text column [s] with its nulls replaced by "". *)
Definition filled_copy (s s' : Series) : Prop :=
  exists ys, s = Text ys /\ s' = Text (List.map (fill "") ys).

Definition text_fields : list string :=
  ["title"; "abstract"; "authors"; "journal"; "source_x"].

(** The year of a [publish_time] cell as the specification words it: null
    for an absent or unparseable value, the calendar year otherwise. *)
Definition year_of_cell `{Pandas} (x : option string) : option Z :=
  match x with
  | None => None
  | Some s =>
      match parse_datetime s with
      | Some t => Some (ts_year t)
      | None => None
      end
  end.

Definition year_column `{Pandas} (df : DataFrame) : Series :=
  match columns_named df "publish_time" with
  | [Text xs] => Ints (List.map year_of_cell xs)
  | _ => Ints (repeat None (nrows df))
  end.

(* ------------------------------------------------------------------ *)
(** ** Instances of the library interfaces, for the examples

    Dates written YYYY-MM-DD; patterns without metacharacters, searched as
    substrings of the lower-cased text; a generator that rotates the
    positions by its seed. *)

Module Example.

Fixpoint digits (n : nat) (acc : Z) (s : string) : option (Z * string) :=
  match n with
  | O => Some (acc, s)
  | S n' =>
      match s with
      | String c s' =>
          if Char.is_digit c
          then digits n' (acc * 10 + (Z.of_N (Char.code c) - 48))%Z s'
          else None
      | EmptyString => None
      end
  end.

Definition parse_iso_date (s : string) : option Timestamp :=
  match digits 4 0%Z s with
  | Some (y, String "-" s1) =>
      match digits 2 0%Z s1 with
      | Some (m, String "-" s2) =>
          match digits 2 0%Z s2 with
          | Some (d, EmptyString) =>
              if ((1 <=? m) && (m <=? 12) && (1 <=? d) && (d <=? 31))%Z
              then Some {| ts_year := y; ts_month := m; ts_day := d |}
              else None
          | _ => None
          end
      | _ => None
      end
  | _ => None
  end.

Fixpoint contains (needle hay : string) : bool :=
  String.prefix needle hay
  || match hay with
     | EmptyString => false
     | String _ hay' => contains needle hay'
     end.

Definition search_literal (pattern : string) : option (string -> bool) :=
  if Str.all Char.is_word pattern
  then Some (fun text => contains (Str.lower pattern) (Str.lower text))
  else None.

#[export] Instance pandas : Pandas :=
  {| parse_datetime := parse_iso_date; search_ignorecase := search_literal |}.

Definition rotate (g : Z) (n : nat) : list nat :=
  let k := Z.to_nat (g mod Z.of_nat (S n)) in
  skipn k (seq 0 n) ++ firstn k (seq 0 n).

#[export] Instance numpy : Numpy :=
  {| rng := Z;
     seed := fun z => z;
     permutation := rotate;
     permutation_perm := fun g n =>
       Permutation_trans
         (Permutation_app_comm _ _)
         (eq_ind_r (fun l => Permutation l (seq 0 n)) (Permutation_refl _)
            (firstn_skipn (Z.to_nat (g mod Z.of_nat (S n))) (seq 0 n))) |}.

(** A two-row table with raw headers, one unparseable date, and a null in
    the title, abstract, authors and journal fields. *)
Definition papers : DataFrame :=
  {| nrows := 2;
     columns :=
       [("Title", Text [Some "COVID-19 vaccine trial results"; None]);
        ("Publish Time", Text [Some "2020-03-15"; Some "soon"]);
        ("Abstract", Text [Some "  two words "; None]);
        ("Authors", Text [Some "A. Author"; None]);
        ("Journal", Text [None; Some "The Lancet"]);
        ("Source X", Text [Some "PMC"; Some "WHO"])] |}.

(** A table without the journal, authors and source columns. *)
Definition titles_only : DataFrame :=
  {| nrows := 1; columns := [("title", Text [None])] |}.



(** Two raw headers that normalize to the same name. *)
Definition colliding : DataFrame :=
  {| nrows := 1;
     columns := [("Title", Text [Some "first"]); ("title ", Text [Some "last"])] |}.

End Example.

(* ------------------------------------------------------------------ *)
(** ** Aggregator: the year, journal and source tables *)

(** [Series.sort_values(ascending=False)] as [value_counts] uses it: the
    library promises the counts in descending order and nothing about the
    order of equal counts. *)
Class SortValues := {
  sort_values : forall K : Type, list (K * nat) -> list (K * nat);
  sort_values_perm : forall K l, Permutation (sort_values K l) l;
  sort_values_desc :
    forall K l, StronglySorted (fun a b => snd b <= snd a) (sort_values K l)
}.

Section ValueCounts.

Context {K : Type} (eqb : K -> K -> bool).

Fixpoint count_of (k : K) (xs : list K) : nat :=
  match xs with
  | [] => 0
  | x :: xs' => (if eqb x k then 1 else 0) + count_of k xs'
  end.

(** [Series.unique()]: the values in order of first appearance. *)
Fixpoint unique (xs : list K) : list K :=
  match xs with
  | [] => []
  | x :: xs' => x :: List.filter (fun y => negb (eqb x y)) (unique xs')
  end.

Definition counts (xs : list K) : list (K * nat) :=
  List.map (fun k => (k, count_of k xs)) (unique xs).

(** [Series.value_counts()] on values without nulls. *)
Definition value_counts `{SortValues} (xs : list K) : list (K * nat) :=
  sort_values K (counts xs).

End ValueCounts.

(** [Series.sort_index()] on integer keys. *)
Fixpoint insert_by_key (x : Z * nat) (l : list (Z * nat)) : list (Z * nat) :=
  match l with
  | [] => [x]
  | y :: l' => if (fst x <=? fst y)%Z then x :: l else y :: insert_by_key x l'
  end.

Definition sort_index (l : list (Z * nat)) : list (Z * nat) :=
  fold_right insert_by_key [] l.

Section Tables.

Context `{SortValues}.

(** [df["year"].dropna().astype(int).value_counts().sort_index()] *)
Definition year_table (l : lookup) : result (list (Z * nat)) :=
  match l with
  | Missing => Raise KeyError
  | One (Ints ys) => Ok (sort_index (value_counts Z.eqb (dropna ys)))
  | One _ => Raise NotModelled
  | Many _ => Raise NotModelled
  end.

(** explore.py lines 124-137 and app.py lines 100-108: the table behind
    the publications-by-year chart, [None] when the chart is skipped. *)
Definition publications_by_year (df : DataFrame)
    : result (option (list (Z * nat))) :=
  b <~ year_any (getitem df "year") ;;
  if b then rmap Some (year_table (getitem df "year")) else Ok None.

(** [df[key].fillna("Unknown").value_counts().head(n)] *)
Definition top_values (n : nat) (l : lookup) : result (list (string * nat)) :=
  match l with
  | Missing => Raise KeyError
  | One s =>
      s' <~ fillna "Unknown" s ;;
      match s' with
      | Text xs => Ok (firstn n (value_counts String.eqb (dropna xs)))
      | _ => Raise NotModelled
      end
  | Many _ => Raise NotModelled
  end.

(** explore.py lines 140-153 and 156-169, app.py lines 112-120: the table
    behind a top-values chart, [None] when the column is absent. *)
Definition top_chart (key : string) (n : nat) (df : DataFrame)
    : result (option (list (string * nat))) :=
  if has_column df key then rmap Some (top_values n (getitem df key))
  else Ok None.

Definition top_journals (df : DataFrame) := top_chart "journal" 15 df.

Definition top_sources (df : DataFrame) := top_chart "source_x" 15 df.

End Tables.

(** The non-null cells equal to [v] once nulls read as [dflt]. *)
Definition cells_reading (dflt v : string) (xs : list (option string)) : nat :=
  count_of String.eqb v (dropna (List.map (fill dflt) xs)).

(* ------------------------------------------------------------------ *)
(** ** Word cloud guard *)

(** explore.py line 173: [len(all_titles.strip()) > 0]; app.py line 125
    tests the same text against [""]. *)
Definition wordcloud_due (titles : list string) : bool :=
  let all_titles := Str.join " " titles in
  (0 <? String.length (Str.strip all_titles))%nat.

(* ------------------------------------------------------------------ *)
(** ** Interactive viewer: warnings, selector and table *)

(** app.py lines 57-58 *)
Definition required : list string :=
  ["title"; "abstract"; "publish_time"; "authors"; "journal"; "source_x"].

Definition missing (df : DataFrame) : list string :=
  List.filter (fun c => negb (has_column df c)) required.

(** app.py line 135 *)
Definition display_cols (df : DataFrame) : list string :=
  List.filter (has_column df)
    ["title"; "authors"; "journal"; "year"; "abstract_word_count"].

(** [sorted(names)]: by code point, one character after the other. *)
Fixpoint insert_name (x : string) (l : list string) : list string :=
  match l with
  | [] => [x]
  | y :: l' => if String.leb x y then x :: l else y :: insert_name x l'
  end.

Definition sorted_names (l : list string) : list string :=
  fold_right insert_name [] l.

(** app.py line 79: the options of the source selector. *)
Definition sources (df : DataFrame) : result (list string) :=
  if has_column df "source_x" then
    match getitem df "source_x" with
    | Missing => Raise KeyError
    | One s =>
        s' <~ fillna "Unknown" s ;;
        match s' with
        | Text xs => Ok ("All" :: sorted_names (unique String.eqb (dropna xs)))
        | _ => Raise NotModelled
        end
    | Many _ => Raise NotModelled
    end
  else Ok ["All"].

(** A source cell reads as the option [o] of the selector. *)
Definition reads_as (o : string) (x : option string) : bool :=
  match fill "Unknown" x with
  | Some t => String.eqb t o
  | None => false
  end.

(** A year cell passes the year filter of lines 86-87: the filter is
    skipped when no year is known, and a null never passes it. *)
Definition year_shown (ys : list (option Z)) (range : Z * Z) (y : option Z) : bool :=
  if any (List.map present ys) then
    match y with
    | Some z => Z.geb z (fst range) && Z.leb z (snd range)
    | None => false
    end
  else true.

(** The (year, source) pairs of the rows that pass the year filter and
    read as the source [o]. *)
Definition shown_rows (ys : list (option Z)) (xs : list (option string))
    (range : Z * Z) (o : string) : list (option Z * option string) :=
  List.filter (fun p => year_shown ys range (fst p) && reads_as o (snd p))
    (combine ys xs).

(** Each filter leaves the frame as it is or selects rows of it. *)
Inductive selects : DataFrame -> DataFrame -> Prop :=
| selects_all df : selects df df
| selects_some df df' mask : selects df df' -> selects df (select_rows mask df').

(** The label a frame gains when [key] is assigned to. *)
Definition add_label (ls : list string) (key : string) : list string :=
  if existsb (String.eqb key) ls then ls else ls ++ [key].

(* ------------------------------------------------------------------ *)
(** ** An instance of the sorting interface, for the examples: insertion
    by descending count, an item in front of the items it ties with. *)

Module ExampleTables.

Fixpoint place {K : Type} (x : K * nat) (l : list (K * nat)) : list (K * nat) :=
  match l with
  | [] => [x]
  | y :: l' => if (snd x <? snd y)%nat then y :: place x l' else x :: l
  end.

Definition by_count (K : Type) (l : list (K * nat)) : list (K * nat) :=
  fold_right place [] l.

#[export] Instance sorting : SortValues.
Proof.
  assert (P : forall K (x : K * nat) l, Permutation (place x l) (x :: l)).
  { intros K x l. induction l as [|y l IH]; simpl; [reflexivity|].
    destruct (snd x <? snd y)%nat; [|reflexivity].
    rewrite IH. apply perm_swap. }
  assert (Q : forall K (l : list (K * nat)), Permutation (by_count K l) l).
  { intros K l. induction l as [|x l IH]; simpl; [reflexivity|].
    rewrite P, IH. reflexivity. }
  refine {| sort_values := by_count; sort_values_perm := Q |}.
  intros K l. induction l as [|x l IH]; simpl; [constructor|].
  induction IH as [|y l' Hl' IH' Hy]; simpl; [repeat constructor|].
  destruct (snd x <? snd y)%nat eqn:E.
  - apply Nat.ltb_lt in E. constructor; [exact IH'|].
    apply (Permutation_Forall (Permutation_sym (P K x l'))).
    constructor; [simpl; lia | exact Hy].
  - apply Nat.ltb_ge in E. constructor; [constructor; assumption|].
    constructor; [exact E|].
    revert Hy. apply Forall_impl. intros z Hz. lia.
Defined.

(** A loaded table: three years, one of them missing, two sources. *)
Definition loaded : DataFrame :=
  {| nrows := 4;
     columns :=
       [("title", Text [Some "Masks"; Some "masks and Trials"; Some ""; Some "Trials"]);
        ("authors", Text [Some "A"; Some "B"; Some ""; Some "C"]);
        ("journal", Text [Some "BMJ"; Some ""; Some "BMJ"; Some "Unknown"]);
        ("source_x", Text [Some "PMC"; Some "WHO"; Some "PMC"; Some ""]);
        ("year", Ints [Some 2021%Z; Some 2019%Z; None; Some 2021%Z]);
        ("abstract_word_count", Ints [Some 0%Z; Some 3%Z; Some 0%Z; Some 1%Z])] |}.

(** A loaded frame in which the only row of one source has no year. *)
Definition undated : DataFrame :=
  {| nrows := 2;
     columns :=
       [("title", Text [Some "Masks"; Some "Trials"]);
        ("source_x", Text [Some "PMC"; Some "WHO"]);
        ("year", Ints [Some 2021%Z; None])] |}.

End ExampleTables.

(* ================================================================== *)
(** * Properties *)

(* ------------------------------------------------------------------ *)
(** ** Characters and strings *)

(** Case analysis over the 256 code points. *)
Ltac each_char c :=
  destruct c as [[] [] [] [] [] [] [] []]; vm_compute; intuition congruence.

Lemma matches_separators c : Re.matches separators c = is_separator c.
Proof. each_char c. Qed.

Lemma matches_not_name_char c :
  Re.matches not_name_char c = negb (Char.is_ascii_alnum c || Ascii.eqb c "_").
Proof. each_char c. Qed.

Lemma canonical_after_lower c :
  let c' := if is_separator (Char.lower c) then "_"%char else Char.lower c in
  Char.is_ascii_alnum c' || Ascii.eqb c' "_" = true ->
  Char.is_canonical c' = true.
Proof. each_char c. Qed.

Lemma canonical_fixed c :
  Char.is_canonical c = true ->
  Char.isspace c = false /\ Char.lower c = c /\ is_separator c = false
  /\ Char.is_ascii_alnum c || Ascii.eqb c "_" = true.
Proof. each_char c. Qed.

Lemma space_is_not_word : Char.is_word " " = false.
Proof. reflexivity. Qed.

Lemma lower_space c : Char.lower c = " "%char <-> c = " "%char.
Proof. each_char c. Qed.

Lemma sub_by_char cls r s :
  Re.sub cls (String r EmptyString) s
  = Str.map (fun c => if Re.matches cls c then r else c) s.
Proof.
  induction s as [|c s IH]; simpl; [reflexivity|].
  rewrite IH. destruct (Re.matches cls c); reflexivity.
Qed.

Lemma sub_delete cls s :
  Re.sub cls EmptyString s = Str.filter (fun c => negb (Re.matches cls c)) s.
Proof.
  induction s as [|c s IH]; simpl; [reflexivity|].
  rewrite IH. destruct (Re.matches cls c); reflexivity.
Qed.

Lemma map_ext f g s : (forall c, f c = g c) -> Str.map f s = Str.map g s.
Proof. intros E. induction s; simpl; congruence. Qed.

Lemma filter_ext p q s : (forall c, p c = q c) -> Str.filter p s = Str.filter q s.
Proof. intros E. induction s as [|c s IH]; simpl; [reflexivity|]. rewrite E, IH. reflexivity. Qed.

Lemma map_map f g s : Str.map g (Str.map f s) = Str.map (fun c => g (f c)) s.
Proof. induction s; simpl; congruence. Qed.

Lemma all_filter_map (p q : ascii -> bool) g s :
  (forall c, p (g c) = true -> q (g c) = true) ->
  Str.all q (Str.filter p (Str.map g s)) = true.
Proof.
  intros Hpq. induction s as [|c s IH]; simpl; [reflexivity|].
  destruct (p (g c)) eqn:E; simpl; [|exact IH].
  rewrite (Hpq _ E), IH. reflexivity.
Qed.

Lemma all_impl (p q : ascii -> bool) s :
  (forall c, p c = true -> q c = true) -> Str.all p s = true -> Str.all q s = true.
Proof.
  intros Hpq. induction s as [|c s IH]; simpl; [reflexivity|].
  intros [Hc Hs]%andb_prop. rewrite (Hpq _ Hc), (IH Hs). reflexivity.
Qed.

Lemma all_first p s c : Str.all p s = true -> Str.first s = Some c -> p c = true.
Proof. destruct s; simpl; [discriminate|]. intros [Hc _]%andb_prop [= <-]. exact Hc. Qed.

Lemma all_last p s c : Str.all p s = true -> Str.last s = Some c -> p c = true.
Proof.
  induction s as [|a s IH]; simpl; [discriminate|].
  intros [Ha Hs]%andb_prop. destruct s; [intros [= <-]; exact Ha | apply IH, Hs].
Qed.

Lemma map_fixed f s :
  Str.all (fun c => Ascii.eqb (f c) c) s = true -> Str.map f s = s.
Proof.
  induction s as [|c s IH]; simpl; [reflexivity|].
  intros [Hc Hs]%andb_prop. apply Ascii.eqb_eq in Hc. rewrite Hc, (IH Hs). reflexivity.
Qed.

Lemma filter_fixed p s : Str.all p s = true -> Str.filter p s = s.
Proof.
  induction s as [|c s IH]; simpl; [reflexivity|].
  intros [Hc Hs]%andb_prop. rewrite Hc, (IH Hs). reflexivity.
Qed.

Lemma lstrip_fixed s :
  Str.all (fun c => negb (Char.isspace c)) s = true -> Str.lstrip s = s.
Proof.
  destruct s as [|c s]; simpl; [reflexivity|].
  intros [Hc _]%andb_prop. apply negb_true_iff in Hc. rewrite Hc. reflexivity.
Qed.

Lemma rstrip_fixed s :
  Str.all (fun c => negb (Char.isspace c)) s = true -> Str.rstrip s = s.
Proof.
  induction s as [|c s IH]; simpl; [reflexivity|].
  intros [Hc Hs]%andb_prop. rewrite (IH Hs). apply negb_true_iff in Hc.
  rewrite Hc. destruct s; reflexivity.
Qed.

Lemma strip_fixed s :
  Str.all (fun c => negb (Char.isspace c)) s = true -> Str.strip s = s.
Proof. intros Hs. unfold Str.strip. rewrite (lstrip_fixed _ Hs). apply rstrip_fixed, Hs. Qed.

(* ------------------------------------------------------------------ *)
(** ** Column Normalizer *)

Lemma normalize_name_unfold s : normalize_name s = spec_normalize s.
Proof.
  unfold normalize_name, spec_normalize, Str.lower.
  rewrite sub_delete, sub_by_char.
  rewrite (map_ext _ (fun c => if is_separator c then "_"%char else c))
    by (intros c; rewrite matches_separators; reflexivity).
  apply filter_ext. intros c. rewrite matches_not_name_char, negb_involutive.
  reflexivity.
Qed.

Lemma normalize_name_canonical s :
  Str.all Char.is_canonical (normalize_name s) = true.
Proof.
  rewrite normalize_name_unfold. unfold spec_normalize.
  rewrite map_map. apply all_filter_map. intros c. apply canonical_after_lower.
Qed.

Lemma normalize_name_fixed s :
  Str.all Char.is_canonical s = true -> normalize_name s = s.
Proof.
  intros Hs. rewrite normalize_name_unfold. unfold spec_normalize.
  rewrite strip_fixed
    by (revert Hs; apply all_impl; intros c Hc;
        destruct (canonical_fixed c Hc) as (-> & _); reflexivity).
  rewrite (map_fixed Char.lower s)
    by (revert Hs; apply all_impl; intros c Hc;
        destruct (canonical_fixed c Hc) as (_ & -> & _); apply Ascii.eqb_refl).
  rewrite map_fixed
    by (revert Hs; apply all_impl; intros c Hc;
        destruct (canonical_fixed c Hc) as (_ & _ & -> & _); apply Ascii.eqb_refl).
  apply filter_fixed. revert Hs. apply all_impl. intros c Hc.
  apply (canonical_fixed c Hc).
Qed.

Lemma all_append p a b :
  Str.all p (a ++ b)%string = Str.all p a && Str.all p b.
Proof.
  induction a as [|c a IH]; simpl; [reflexivity|].
  rewrite IH, andb_assoc. reflexivity.
Qed.

Lemma rstrip_cons c s :
  Str.rstrip (String c s)
  = match Str.rstrip s with
    | EmptyString => if Char.isspace c then EmptyString else String c EmptyString
    | r => String c r
    end.
Proof. reflexivity. Qed.

Lemma rstrip_blank s :
  Str.rstrip s = EmptyString -> Str.all Char.isspace s = true.
Proof.
  induction s as [|c s IH]; [reflexivity|].
  rewrite rstrip_cons. simpl. destruct (Str.rstrip s); [|discriminate].
  destruct (Char.isspace c); [|discriminate]. intros _. apply IH. reflexivity.
Qed.

Lemma lstrip_head s :
  Str.lstrip s = EmptyString
  \/ exists c t, Str.lstrip s = String c t /\ Char.isspace c = false.
Proof.
  induction s as [|c s IH]; simpl; [left; reflexivity|].
  destruct (Char.isspace c) eqn:E; [exact IH|]. right. eauto.
Qed.

Lemma rstrip_head c t :
  Char.isspace c = false -> exists r, Str.rstrip (String c t) = String c r.
Proof.
  intros Hc. rewrite rstrip_cons. destruct (Str.rstrip t); [rewrite Hc|]; eauto.
Qed.

Lemma isspace_table c :
  Char.isspace c = existsb (N.eqb (Char.code c)) whitespace_codes.
Proof. each_char c. Qed.

Lemma lstrip_margin_of s :
  exists a, s = (a ++ Str.lstrip s)%string /\ Str.all Char.isspace a = true.
Proof.
  induction s as [|c s (a & Ea & Ha)]; [exists EmptyString; auto|].
  simpl. destruct (Char.isspace c) eqn:Ec.
  - exists (String c a). simpl. rewrite <- Ea, Ec. auto.
  - exists EmptyString. auto.
Qed.

Lemma rstrip_margin_of s :
  exists b, s = (Str.rstrip s ++ b)%string /\ Str.all Char.isspace b = true.
Proof.
  induction s as [|c s (b & Eb & Hb)]; [exists EmptyString; auto|].
  rewrite rstrip_cons. destruct (Str.rstrip s) as [|x r] eqn:Er.
  - simpl in Eb. subst b. destruct (Char.isspace c) eqn:Ec.
    + exists (String c s). simpl. rewrite Ec. auto.
    + exists s. auto.
  - exists b. simpl. rewrite Eb at 1. auto.
Qed.

Lemma rstrip_last s c :
  Str.last (Str.rstrip s) = Some c -> Char.isspace c = false.
Proof.
  induction s as [|x s IH]; [discriminate|].
  rewrite rstrip_cons. destruct (Str.rstrip s) as [|y r] eqn:Er.
  - destruct (Char.isspace x) eqn:Ex; [discriminate|].
    simpl. intros [= <-]. exact Ex.
  - exact IH.
Qed.

Lemma strip_first s c :
  Str.first (Str.strip s) = Some c -> Char.isspace c = false.
Proof.
  unfold Str.strip. destruct (lstrip_head s) as [E|(x & t & E & Hx)]; rewrite E.
  - discriminate.
  - destruct (rstrip_head x t Hx) as (r & Er). rewrite Er. simpl.
    intros [= <-]. exact Hx.
Qed.

Lemma strip_stripped s : stripped_to s (Str.strip s).
Proof.
  split.
  - destruct (lstrip_margin_of s) as (a & Ea & Ha).
    destruct (rstrip_margin_of (Str.lstrip s)) as (b & Eb & Hb).
    exists a, b. fold (Str.strip s) in Eb. rewrite <- Eb. auto.
  - intros c [Hf|Hl]; [exact (strip_first _ _ Hf) | exact (rstrip_last _ _ Hl)].
Qed.

Lemma worded_char_step c :
  worded_char c
  = let c' := if is_separator (Char.lower c) then "_"%char else Char.lower c in
    if Char.is_ascii_alnum c' || Ascii.eqb c' "_"
    then String c' EmptyString else EmptyString.
Proof. each_char c. Qed.

Lemma spec_normalize_worded t :
  Str.filter (fun c => Char.is_ascii_alnum c || Ascii.eqb c "_")
    (Str.map (fun c => if is_separator c then "_"%char else c)
       (Str.map Char.lower t))
  = worded_normalize t.
Proof.
  induction t as [|c t IH]; simpl; [reflexivity|].
  rewrite worded_char_step, <- IH. cbv zeta.
  destruct (Char.is_ascii_alnum _ || Ascii.eqb _ "_"); reflexivity.
Qed.

Lemma canonical_table c :
  Char.is_canonical c
  = occurs c small_letters || occurs c digit_characters || occurs c "_".
Proof. each_char c. Qed.

(** C4. The chain of string methods and substitutions [normalize_columns]
    applies to a header is the transform the specification describes.
    What it works on is the header between its whitespace margins: the
    header is that core between two runs of whitespace, the core neither
    starts nor ends with whitespace, and whitespace is the twelve code
    points [str.strip] removes. Of the core, read one character at a
    time, a capital letter A-Z gives its small letter, a space, slash,
    hyphen or [#] gives an underscore, a small letter, digit or
    underscore is kept and anything else is deleted. The result holds
    only small letters, digits and underscores, and has no whitespace at
    either end. *)
Theorem normalize_name_spec (s : string) :
  normalize_name s = spec_normalize s
  /\ stripped_to s (Str.strip s)
  /\ (forall c, Char.isspace c = existsb (N.eqb (Char.code c)) whitespace_codes)
  /\ normalize_name s = worded_normalize (Str.strip s)
  /\ Str.all Char.is_canonical (normalize_name s) = true
  /\ (forall c, Char.is_canonical c
                = occurs c small_letters || occurs c digit_characters || occurs c "_")
  /\ Str.strip (normalize_name s) = normalize_name s
  /\ (forall c, Str.first (normalize_name s) = Some c
                \/ Str.last (normalize_name s) = Some c ->
                Char.isspace c = false).
Proof.
  pose proof (normalize_name_canonical s) as Hc.
  assert (Hw : Str.all (fun c => negb (Char.isspace c)) (normalize_name s) = true).
  { revert Hc. apply all_impl. intros c Hcan.
    destruct (canonical_fixed c Hcan) as (-> & _). reflexivity. }
  split; [apply normalize_name_unfold|].
  split; [apply strip_stripped|].
  split; [exact isspace_table|].
  split.
  { rewrite normalize_name_unfold. unfold spec_normalize.
    apply spec_normalize_worded. }
  split; [exact Hc|].
  split; [exact canonical_table|].
  split; [apply strip_fixed, Hw|].
  intros c [Hf|Hl]; apply negb_true_iff.
  - exact (all_first _ _ _ Hw Hf).
  - exact (all_last _ _ _ Hw Hl).
Qed.

(** C4, on a header with a tab and a space before it and a space after
    it. *)
Lemma normalize_name_example :
  normalize_name (String (ascii_of_nat 9) " Publish-Time/#1 (UTC)! ")
  = "publish_time__1_utc"%string
  /\ Str.strip (String (ascii_of_nat 9) " Publish-Time/#1 (UTC)! ")
     = "Publish-Time/#1 (UTC)!"%string
  /\ worded_normalize "Publish-Time/#1 (UTC)!" = "publish_time__1_utc"%string
  /\ normalize_name (String (ascii_of_nat 9) " Publish-Time/#1 (UTC)! ")
     = worded_normalize (Str.strip (String (ascii_of_nat 9) " Publish-Time/#1 (UTC)! ")).
Proof.
  split; [reflexivity|]. split; [reflexivity|]. split; [reflexivity|].
  apply (normalize_name_spec (String (ascii_of_nat 9) " Publish-Time/#1 (UTC)! ")).
Defined.

(** C5. Normalizing a header twice gives what normalizing it once gives,
    and so does relabelling a frame twice. *)
Theorem normalize_idempotent :
  (forall s, normalize_name (normalize_name s) = normalize_name s)
  /\ (forall df, normalize_columns (normalize_columns df) = normalize_columns df).
Proof.
  assert (Hn : forall s, normalize_name (normalize_name s) = normalize_name s)
    by (intros s; apply normalize_name_fixed, normalize_name_canonical).
  split; [exact Hn|].
  intros df. unfold normalize_columns. simpl. f_equal.
  rewrite List.map_map. apply List.map_ext. intros [k c]. simpl. rewrite Hn.
  reflexivity.
Qed.

(** C6 (as amended). Relabelling keeps every column: the frame has as
    many rows and columns as before, each column keeps its data and its
    position, and the columns found under a name are, in order, all the
    input columns whose header normalizes to that name. Nothing is
    overwritten when two headers collide. *)
Theorem normalize_columns_keeps_every_column (df : DataFrame) :
  nrows (normalize_columns df) = nrows df
  /\ labels (normalize_columns df) = List.map normalize_name (labels df)
  /\ List.map snd (columns (normalize_columns df)) = List.map snd (columns df)
  /\ (forall key,
        columns_named (normalize_columns df) key
        = List.map snd
            (List.filter (fun c => String.eqb key (normalize_name (fst c)))
               (columns df))).
Proof.
  unfold normalize_columns, labels, columns_named; simpl.
  repeat split.
  - rewrite !List.map_map. reflexivity.
  - rewrite List.map_map. reflexivity.
  - intros key. induction (columns df) as [|[k c] cols IH]; simpl; [reflexivity|].
    unfold named at 1; simpl. destruct (String.eqb key (normalize_name k)); simpl;
      rewrite IH; reflexivity.
Qed.

(** C6, the claim as stated fails: "Title" and "title " both normalize to
    "title", and the relabelled frame has two columns under that name, the
    first still holding its own data; it is not a single column holding
    the data of the last one. *)
Lemma collision_keeps_both_columns :
  normalize_name "Title" = "title"
  /\ normalize_name "title " = "title"
  /\ getitem (normalize_columns Example.colliding) "title"
     = Many [Text [Some "first"]; Text [Some "last"]]
  /\ getitem (normalize_columns Example.colliding) "title"
     <> One (Text [Some "last"]).
Proof. repeat split; try reflexivity. discriminate. Qed.

(* ------------------------------------------------------------------ *)
(** ** Frames: reading after writing *)

Lemma has_column_existsb df key :
  has_column df key = existsb (named key) (columns df).
Proof.
  unfold has_column, labels. induction (columns df) as [|c cols IH]; simpl;
    [reflexivity|]. rewrite IH. reflexivity.
Qed.

Lemma has_column_false df key :
  has_column df key = false <-> columns_named df key = [].
Proof.
  rewrite has_column_existsb. unfold columns_named.
  induction (columns df) as [|c cols IH]; simpl; [tauto|].
  destruct (named key c); simpl; [split; discriminate | exact IH].
Qed.

Lemma has_column_true df key :
  has_column df key = true <-> columns_named df key <> [].
Proof.
  rewrite <- has_column_false. destruct (has_column df key); split; congruence.
Qed.

Lemma named_relabel key key' (c : string * Series) s :
  String.eqb key key' = false ->
  named key' (if named key c then (fst c, s) else c) = named key' c.
Proof. intros _. destruct (named key c); reflexivity. Qed.

Lemma columns_named_setitem_other df key key' s :
  String.eqb key key' = false ->
  columns_named (setitem df key s) key' = columns_named df key'.
Proof.
  intros Hne. unfold setitem, columns_named.
  destruct (has_column df key); simpl.
  - induction (columns df) as [|c cols IH]; simpl; [reflexivity|].
    rewrite named_relabel by exact Hne.
    destruct (named key' c) eqn:E; simpl; rewrite IH; [|reflexivity].
    destruct (named key c) eqn:E'; [|reflexivity].
    unfold named in E, E'. apply String.eqb_eq in E, E'.
    rewrite E, <- E', String.eqb_refl in Hne. discriminate.
  - rewrite filter_app, map_app. simpl. unfold named at 2. simpl.
    rewrite String.eqb_sym, Hne. simpl. apply app_nil_r.
Qed.

Lemma columns_named_setitem_same df key s :
  columns_named (setitem df key s) key
  = if has_column df key
    then List.map (fun _ => s) (columns_named df key)
    else [s].
Proof.
  unfold setitem. destruct (has_column df key) eqn:E; unfold columns_named; simpl.
  - clear E. induction (columns df) as [|c cols IH]; simpl; [reflexivity|].
    destruct (named key c) eqn:E; simpl.
    + unfold named at 1. simpl. unfold named in E. rewrite E. simpl.
      rewrite IH. reflexivity.
    + rewrite E. exact IH.
  - apply has_column_false in E. unfold columns_named in E.
    rewrite filter_app, map_app, E. simpl. unfold named. simpl.
    rewrite String.eqb_refl. reflexivity.
Qed.

Lemma column_is_setitem df key s : column_is (setitem df key s) key s.
Proof.
  unfold column_is. rewrite columns_named_setitem_same.
  destruct (has_column df key) eqn:E.
  - apply has_column_true in E. split.
    + destruct (columns_named df key); [congruence | discriminate].
    + apply Forall_forall. intros x [y [<- _]]%in_map_iff. reflexivity.
  - split; [discriminate | repeat constructor].
Qed.

Lemma nrows_setitem df key s : nrows (setitem df key s) = nrows df.
Proof. unfold setitem. destruct (has_column df key); reflexivity. Qed.

Lemma columns_named_assign_other key key' vals cols :
  String.eqb key key' = false ->
  List.map snd (List.filter (named key') (assign_columns key vals cols))
  = List.map snd (List.filter (named key') cols).
Proof.
  intros Hne. revert vals. induction cols as [|c cols IH]; intros vals; simpl;
    [reflexivity|].
  destruct (named key c) eqn:E.
  - assert (Hc : named key' c = false).
    { unfold named in *. apply String.eqb_eq in E. rewrite <- E.
      rewrite String.eqb_sym. exact Hne. }
    destruct vals as [|v vals]; simpl; rewrite ?Hc.
    + apply IH.
    + unfold named at 1. simpl. unfold named in Hc. rewrite Hc. apply IH.
  - simpl. destruct (named key' c); simpl; rewrite IH; reflexivity.
Qed.

Lemma columns_named_assign_same key vals cols :
  length vals = length (List.filter (named key) cols) ->
  List.map snd (List.filter (named key) (assign_columns key vals cols)) = vals.
Proof.
  revert vals. induction cols as [|c cols IH]; intros vals; simpl.
  - destruct vals; [reflexivity | discriminate].
  - destruct (named key c) eqn:E; simpl.
    + destruct vals as [|v vals]; [discriminate|]. intros [= Hl]. simpl.
      unfold named at 1. simpl. unfold named in E. rewrite E. simpl.
      rewrite IH by exact Hl. reflexivity.
    + rewrite E. apply IH.
Qed.

Lemma columns_named_setitem_frame_other df key key' vals :
  String.eqb key key' = false ->
  columns_named (setitem_frame df key vals) key' = columns_named df key'.
Proof. intros Hne. apply columns_named_assign_other, Hne. Qed.

Lemma columns_named_setitem_frame_same df key vals :
  length vals = length (columns_named df key) ->
  columns_named (setitem_frame df key vals) key = vals.
Proof.
  intros Hl. apply columns_named_assign_same.
  unfold columns_named in Hl. rewrite length_map in Hl. exact Hl.
Qed.

Lemma getitem_one df key s : getitem df key = One s <-> columns_named df key = [s].
Proof.
  unfold getitem. destruct (columns_named df key) as [|a [|b l]]; split;
    congruence.
Qed.

Lemma getitem_missing df key : getitem df key = Missing <-> columns_named df key = [].
Proof.
  unfold getitem. destruct (columns_named df key) as [|a [|b l]]; split;
    congruence.
Qed.

Lemma getitem_many df key ss :
  getitem df key = Many ss -> columns_named df key = ss /\ 2 <= length ss.
Proof.
  unfold getitem. destruct (columns_named df key) as [|a [|b l]];
    intros [= <-]. simpl. split; [reflexivity | lia].
Qed.

Lemma getitem_same_columns df df' key key' :
  columns_named df' key' = columns_named df key -> getitem df' key' = getitem df key.
Proof. unfold getitem. intros ->. reflexivity. Qed.

(* ------------------------------------------------------------------ *)
(** ** The effect layers *)

Lemma rbind_ok {A B} (m : result A) (f : A -> result B) b :
  rbind m f = Ok b -> exists a, m = Ok a /\ f a = Ok b.
Proof. destruct m; simpl; [eauto | discriminate]. Qed.

Lemma rmap_ok {A B} (f : A -> B) (m : result A) b :
  rmap f m = Ok b -> exists a, m = Ok a /\ b = f a.
Proof. destruct m; simpl; [intros [= <-]; eauto | discriminate]. Qed.

Lemma bind_lift_ok {A B} (r : result A) (f : A -> M B) log b :
  bind (lift r) f = (log, Ok b) -> exists a, r = Ok a /\ f a = (log, Ok b).
Proof.
  unfold bind, lift. simpl. destruct r; [|discriminate].
  intros E. exists a. split; [reflexivity|]. rewrite <- E. apply surjective_pairing.
Qed.

Lemma bind_ok {A B} (m : M A) (f : A -> M B) log b :
  bind m f = (log, Ok b) ->
  exists a, snd m = Ok a /\ log = fst m ++ fst (f a) /\ snd (f a) = Ok b.
Proof.
  unfold bind. destruct (snd m) as [a|e]; [|discriminate].
  intros [= <- E]. eauto.
Qed.


Lemma rmapM_ok {A B} (f : A -> result B) xs ys :
  rmapM f xs = Ok ys -> Forall2 (fun x y => f x = Ok y) xs ys.
Proof.
  revert ys. induction xs as [|x xs IH]; simpl; intros ys.
  - intros [= <-]. constructor.
  - intros (y & Hy & (ys' & Hys & [= <-])%rbind_ok)%rbind_ok.
    constructor; [exact Hy | apply IH, Hys].
Qed.

Lemma rmapM_total {A B} (f : A -> result B) (g : A -> B) xs :
  Forall (fun x => f x = Ok (g x)) xs -> rmapM f xs = Ok (List.map g xs).
Proof.
  induction 1 as [|x xs Hx _ IH]; simpl; [reflexivity|].
  rewrite Hx. simpl. rewrite IH. reflexivity.
Qed.

(* ------------------------------------------------------------------ *)
(** ** Field Deriver, step by step *)

Lemma column_is_same_columns df df' key s :
  columns_named df' key = columns_named df key ->
  column_is df key s -> column_is df' key s.
Proof. unfold column_is. intros ->. tauto. Qed.

Lemma fillna_text_only v s xs :
  fillna v s = Ok (Text xs) ->
  exists ys, s = Text ys /\ xs = List.map (fill v) ys.
Proof.
  destruct s as [ys|ys|ys]; simpl.
  - intros [= <-]. eauto.
  - destruct (no_nulls (Dates ys)); discriminate.
  - destruct (no_nulls (Ints ys)); discriminate.
Qed.

Lemma fill_is_some v ys :
  List.map (fill v) ys
  = List.map Some (List.map (fun y => match y with Some t => t | None => v end) ys).
Proof. rewrite List.map_map. apply List.map_ext. intros [t|]; reflexivity. Qed.

Lemma repeat_some {A} (a : A) n : repeat (Some a) n = List.map Some (repeat a n).
Proof. induction n; simpl; congruence. Qed.

Lemma fill_text_spec key df df1 :
  fill_text key df = Ok df1 ->
  nrows df1 = nrows df
  /\ (forall key', String.eqb key key' = false ->
        columns_named df1 key' = columns_named df key')
  /\ (has_column df key = false ->
        columns_named df1 key = [Text (repeat (Some "") (nrows df))])
  /\ (forall s, columns_named df key = [s] ->
        exists s', fillna "" s = Ok s' /\ columns_named df1 key = [s'])
  /\ (2 <= length (columns_named df key) -> 2 <= length (columns_named df1 key)).
Proof.
  unfold fill_text. destruct (has_column df key) eqn:Hc.
  - destruct (getitem df key) as [|s|ss] eqn:Hg; [discriminate| |].
    + intros (s' & Hs' & [= <-])%rbind_ok. apply getitem_one in Hg.
      split; [apply nrows_setitem|].
      split; [intros key' Hne; apply columns_named_setitem_other, Hne|].
      split; [discriminate|].
      rewrite columns_named_setitem_same, Hc, Hg. simpl.
      split; [|lia]. intros s0 [= <-]. eauto.
    + intros (ss' & Hss' & [= <-])%rbind_ok.
      apply getitem_many in Hg. destruct Hg as [Hg Hlen].
      apply rmapM_ok, Forall2_length in Hss'.
      split; [reflexivity|].
      split; [intros key' Hne; apply columns_named_setitem_frame_other, Hne|].
      split; [discriminate|].
      rewrite columns_named_setitem_frame_same by congruence.
      rewrite Hg. split; [|lia].
      intros s0 ->. simpl in Hlen. lia.
  - intros [= <-]. pose proof Hc as Hn. apply has_column_false in Hn.
    split; [apply nrows_setitem|].
    split; [intros key' Hne; apply columns_named_setitem_other, Hne|].
    rewrite columns_named_setitem_same, Hc, Hn.
    split; [reflexivity|]. split; [discriminate | simpl; lia].
Qed.

(** After the fill, a single text column under the label has no null, and
    is the empty-string column or the filled input column. *)
Lemma fill_text_filled key df df1 xs :
  fill_text key df = Ok df1 ->
  columns_named df1 key = [Text xs] ->
  (has_column df key = false /\ xs = repeat (Some "") (nrows df))
  \/ (exists ys, columns_named df key = [Text ys] /\ xs = List.map (fill "") ys).
Proof.
  intros Hf Hx. destruct (fill_text_spec _ _ _ Hf) as (_ & _ & Habs & Hone & Hmany).
  destruct (has_column df key) eqn:Hc.
  - right. apply has_column_true in Hc.
    destruct (columns_named df key) as [|s [|s2 l]] eqn:E; [congruence| |].
    + destruct (Hone s eq_refl) as (s' & Hs' & Hcol).
      rewrite Hcol in Hx. injection Hx as ->.
      apply fillna_text_only in Hs'. destruct Hs' as (ys & -> & ->). eauto.
    + rewrite Hx in Hmany. simpl in Hmany. lia.
  - left. rewrite (Habs eq_refl) in Hx. injection Hx as <-. auto.
Qed.

Lemma filled_cases key df xs :
  (has_column df key = false /\ xs = repeat (Some "") (nrows df))
  \/ (exists ys : list (option string),
        columns_named df key = [Text ys] /\ xs = List.map (fill "") ys) ->
  exists ts : list string, xs = List.map Some ts.
Proof.
  intros [[_ ->]|(ys & _ & ->)].
  - eexists. apply repeat_some.
  - eexists. apply fill_is_some.
Qed.

Lemma derive_word_count_spec src dst df df1 :
  String.eqb dst src = false ->
  derive_word_count src dst df = Ok df1 ->
  exists xs,
    columns_named df src = [Text xs]
    /\ column_is df1 dst (Ints (List.map (option_map word_count) xs))
    /\ nrows df1 = nrows df
    /\ (forall key', String.eqb dst key' = false ->
          columns_named df1 key' = columns_named df key').
Proof.
  intros Hne. unfold derive_word_count.
  intros (c & Hc & [= <-])%rbind_ok.
  unfold str_split_len in Hc.
  destruct (getitem df src) as [|[xs|xs|xs]|ss] eqn:Hg; try discriminate.
  injection Hc as <-. apply getitem_one in Hg. exists xs.
  split; [exact Hg|]. split; [apply column_is_setitem|].
  split; [apply nrows_setitem|].
  intros key' Hk. apply columns_named_setitem_other, Hk.
Qed.

(* ------------------------------------------------------------------ *)
(** ** Word counts *)

Lemma is_empty_snoc acc c : Str.is_empty (acc ++ String c EmptyString) = false.
Proof. destruct acc; reflexivity. Qed.

Lemma runs_count acc s :
  length (Str.runs (fun c => negb (Char.isspace c)) acc s)
  = if Str.is_empty acc then token_starts true s else S (token_starts false s).
Proof.
  revert acc. induction s as [|c s IH]; intros acc; simpl.
  - unfold Str.emit. destruct (Str.is_empty acc); reflexivity.
  - destruct (Char.isspace c); simpl.
    + rewrite length_app, IH. unfold Str.emit. simpl.
      destruct (Str.is_empty acc); simpl; lia.
    + rewrite IH, is_empty_snoc.
      destruct (Str.is_empty acc); simpl; lia.
Qed.

Lemma word_count_tokens s : word_count s = whitespace_tokens s.
Proof. unfold word_count, whitespace_tokens, Str.split. rewrite runs_count. reflexivity. Qed.

Lemma word_counts_of_filled ts :
  List.map (option_map word_count) (List.map Some ts)
  = List.map (fun s => Some (whitespace_tokens s)) ts.
Proof.
  rewrite List.map_map. apply List.map_ext. intros s. simpl.
  rewrite word_count_tokens. reflexivity.
Qed.

Section Cleaning.

Context `{Pandas}.

Lemma derive_year_other df df1 key :
  derive_year df = Ok df1 ->
  String.eqb "publish_time" key = false ->
  String.eqb "year" key = false ->
  nrows df1 = nrows df /\ columns_named df1 key = columns_named df key.
Proof.
  unfold derive_year. intros Hd Hp Hy.
  destruct (has_column df "publish_time").
  - apply rbind_ok in Hd. destruct Hd as (pt & _ & Hd).
    apply rbind_ok in Hd. destruct Hd as (y & _ & [= <-]).
    rewrite !nrows_setitem. split; [reflexivity|].
    rewrite columns_named_setitem_other by exact Hy.
    apply columns_named_setitem_other, Hp.
  - injection Hd as <-. rewrite nrows_setitem. split; [reflexivity|].
    apply columns_named_setitem_other, Hy.
Qed.

(** What [clean] leaves under the two text labels it fills and the two
    labels it derives from them. *)
Lemma clean_text_fields df df' log :
  clean df = (log, Ok df') ->
  exists xa xt,
    columns_named df' "abstract" = [Text xa]
    /\ columns_named df' "title" = [Text xt]
    /\ column_is df' "abstract_word_count" (Ints (List.map (option_map word_count) xa))
    /\ column_is df' "title_word_count" (Ints (List.map (option_map word_count) xt))
    /\ ((has_column (normalize_columns df) "abstract" = false
         /\ xa = repeat (Some "") (nrows df))
        \/ (exists ys, columns_named (normalize_columns df) "abstract" = [Text ys]
                       /\ xa = List.map (fill "") ys))
    /\ ((has_column (normalize_columns df) "title" = false
         /\ xt = repeat (Some "") (nrows df))
        \/ (exists ys, columns_named (normalize_columns df) "title" = [Text ys]
                       /\ xt = List.map (fill "") ys))
    /\ nrows df' = nrows df
    /\ (forall key, In key ["authors"; "journal"; "source_x"] ->
          columns_named df' key = columns_named (normalize_columns df) key).
Proof.
  unfold clean. intros Hc.
  apply bind_ok in Hc. destruct Hc as (_ & _ & _ & Hc).
  set (df0 := normalize_columns df) in *.
  assert (Hc' : exists l, bind (lift (derive_year df0)) (fun df1 =>
      bind (lift (fill_text "abstract" df1)) (fun df2 =>
      bind (lift (fill_text "title" df2)) (fun df3 =>
      bind (lift (derive_word_count "abstract" "abstract_word_count" df3)) (fun df4 =>
      bind (lift (derive_word_count "title" "title_word_count" df4)) (fun df5 =>
      ret df5))))) = (l, Ok df')).
  { eexists. rewrite <- Hc. apply surjective_pairing. }
  clear Hc. destruct Hc' as (l & Hc).
  apply bind_lift_ok in Hc. destruct Hc as (df1 & H1 & Hc).
  apply bind_lift_ok in Hc. destruct Hc as (df2 & H2 & Hc).
  apply bind_lift_ok in Hc. destruct Hc as (df3 & H3 & Hc).
  apply bind_lift_ok in Hc. destruct Hc as (df4 & H4 & Hc).
  apply bind_lift_ok in Hc. destruct Hc as (df5 & H5 & Hc).
  injection Hc as _ <-.
  destruct (fill_text_spec _ _ _ H2) as (N2 & O2 & _).
  destruct (fill_text_spec _ _ _ H3) as (N3 & O3 & _).
  destruct (derive_word_count_spec "abstract" "abstract_word_count" _ _ eq_refl H4)
    as (xa & A4 & C4 & N4 & O4).
  destruct (derive_word_count_spec "title" "title_word_count" _ _ eq_refl H5)
    as (xt & A5 & C5 & N5 & O5).
  assert (Y : forall key, String.eqb "publish_time" key = false ->
                          String.eqb "year" key = false ->
                          nrows df1 = nrows df0
                          /\ columns_named df1 key = columns_named df0 key)
    by (intros key; apply derive_year_other, H1).
  destruct (Y "abstract" eq_refl eq_refl) as (N1 & Ya).
  destruct (Y "title" eq_refl eq_refl) as (_ & Yt).
  assert (Ha3 : columns_named df2 "abstract" = [Text xa])
    by (rewrite <- (O3 "abstract" eq_refl); exact A4).
  assert (Ht3 : columns_named df3 "title" = [Text xt])
    by (rewrite <- (O4 "title" eq_refl); exact A5).
  exists xa, xt.
  split; [rewrite (O5 "abstract" eq_refl), (O4 "abstract" eq_refl); exact A4|].
  split; [rewrite (O5 "title" eq_refl); exact A5|].
  split; [apply (column_is_same_columns df4); [apply (O5 "abstract_word_count" eq_refl) | exact C4]|].
  split; [exact C5|].
  split.
  { destruct (fill_text_filled _ _ _ _ H2 Ha3) as [[Hn ->]|(ys & Hy & ->)].
    - left. rewrite has_column_false in Hn |- *. rewrite <- Ya, N1.
      split; [exact Hn | reflexivity].
    - right. exists ys. rewrite <- Ya. auto. }
  split.
  { destruct (fill_text_filled _ _ _ _ H3 Ht3) as [[Hn ->]|(ys & Hy & ->)].
    - left. rewrite has_column_false in Hn |- *.
      rewrite <- Yt, <- (O2 "title" eq_refl), N2, N1.
      split; [exact Hn | reflexivity].
    - right. exists ys. rewrite <- Yt, <- (O2 "title" eq_refl). auto. }
  split; [rewrite N5, N4, N3, N2, N1; reflexivity|].
  intros key Hk.
  rewrite (O5 key), (O4 key), (O3 key), (O2 key)
    by (simpl in Hk; intuition subst; reflexivity).
  apply Y; simpl in Hk; intuition subst; reflexivity.
Qed.

End Cleaning.

(* ------------------------------------------------------------------ *)
(** ** Field Deriver: the publication year *)

Section Year.

Context `{Pandas}.

Lemma to_datetime_coerce_text xs :
  to_datetime ErrorsCoerce (One (Text xs)) = Ok (Dates (List.map coerce_cell xs)).
Proof.
  simpl. rewrite (rmapM_total _ coerce_cell); [reflexivity|].
  apply Forall_forall. intros [s|] _; simpl; [|reflexivity].
  destruct (parse_datetime s); reflexivity.
Qed.

Lemma year_of_coerced xs :
  List.map (option_map ts_year) (List.map coerce_cell xs) = List.map year_of_cell xs.
Proof.
  rewrite List.map_map. apply List.map_ext. intros [s|]; simpl; [|reflexivity].
  destruct (parse_datetime s); reflexivity.
Qed.

Lemma text_table_named df key s :
  text_table df -> In s (columns_named df key) -> is_text s = true.
Proof.
  unfold text_table, columns_named. intros Ht Hs.
  apply in_map_iff in Hs. destruct Hs as (c & <- & Hc).
  apply filter_In in Hc. destruct Hc as [Hc _].
  rewrite Forall_forall in Ht. apply Ht, Hc.
Qed.

Lemma text_table_normalize df : text_table df -> text_table (normalize_columns df).
Proof.
  unfold text_table, normalize_columns. simpl. intros Ht.
  apply Forall_map. revert Ht. apply Forall_impl. intros c Hc. exact Hc.
Qed.

Lemma derive_year_total df :
  length (columns_named df "publish_time") <= 1 ->
  text_table df ->
  exists df1,
    derive_year df = Ok df1
    /\ column_is df1 "year" (year_column df)
    /\ nrows df1 = nrows df.
Proof.
  intros Hlen Ht. unfold derive_year, year_column.
  destruct (columns_named df "publish_time") as [|s [|s' l]] eqn:E.
  - apply has_column_false in E. rewrite E. eexists.
    split; [reflexivity|]. split; [apply column_is_setitem | apply nrows_setitem].
  - assert (Hs : is_text s = true)
      by (apply (text_table_named df "publish_time"); [exact Ht | rewrite E; left; reflexivity]).
    destruct s as [xs|xs|xs]; try discriminate.
    assert (Hc : has_column df "publish_time" = true)
      by (apply has_column_true; congruence).
    rewrite Hc. apply getitem_one in E. rewrite E, to_datetime_coerce_text.
    simpl. apply getitem_one in E.
    assert (G : getitem (setitem df "publish_time" (Dates (List.map coerce_cell xs)))
                  "publish_time" = One (Dates (List.map coerce_cell xs))).
    { apply getitem_one. rewrite columns_named_setitem_same, Hc, E. reflexivity. }
    rewrite G. simpl. rewrite year_of_coerced. eexists.
    split; [reflexivity|]. split; [apply column_is_setitem|].
    rewrite !nrows_setitem. reflexivity.
  - simpl in Hlen. lia.
Qed.

Lemma clean_steps df log cleaned :
  clean df = (log, Ok cleaned) ->
  exists df1 df2 df3 df4,
    derive_year (normalize_columns df) = Ok df1
    /\ fill_text "abstract" df1 = Ok df2
    /\ fill_text "title" df2 = Ok df3
    /\ derive_word_count "abstract" "abstract_word_count" df3 = Ok df4
    /\ derive_word_count "title" "title_word_count" df4 = Ok cleaned.
Proof.
  unfold clean. intros Hc.
  apply bind_ok in Hc. destruct Hc as (_ & _ & _ & Hc).
  match type of Hc with snd ?m = _ =>
    assert (Hc' : m = (fst m, Ok cleaned))
      by (rewrite <- Hc; apply surjective_pairing)
  end.
  clear Hc.
  apply bind_lift_ok in Hc'. destruct Hc' as (df1 & H1 & Hc).
  apply bind_lift_ok in Hc. destruct Hc as (df2 & H2 & Hc).
  apply bind_lift_ok in Hc. destruct Hc as (df3 & H3 & Hc).
  apply bind_lift_ok in Hc. destruct Hc as (df4 & H4 & Hc).
  apply bind_lift_ok in Hc. destruct Hc as (df5 & H5 & Hc).
  injection Hc as _ <-. eauto 10.
Qed.



End Year.

(* ------------------------------------------------------------------ *)
(** ** Field Deriver: text fields *)

Lemma filled_from_cases before after key xs :
  columns_named after key = [Text xs] ->
  (has_column before key = false /\ xs = repeat (Some "") (nrows before))
  \/ (exists ys, columns_named before key = [Text ys] /\ xs = List.map (fill "") ys) ->
  filled_from before after key.
Proof.
  intros Ha Hcases. apply getitem_one in Ha. unfold filled_from.
  split; [|split].
  - destruct (filled_cases key before xs Hcases) as (ts & ->). eauto.
  - intros Hn. destruct Hcases as [[_ ->]|(ys & Hy & _)]; [exact Ha|].
    apply has_column_false in Hn. congruence.
  - intros ys Hy. apply getitem_one in Hy.
    destruct Hcases as [[Hn _]|(ys' & Hy' & ->)].
    + apply has_column_false in Hn. congruence.
    + rewrite Hy in Hy'. injection Hy' as <-. exact Ha.
Qed.

Lemma fill_then_str s s1 s2 :
  fillna "" s = Ok s1 -> astype_str s1 = Ok s2 -> filled_copy s s2.
Proof.
  intros Hf Ha. destruct s1 as [xs|xs|xs]; try discriminate.
  apply fillna_text_only in Hf. destruct Hf as (ys & -> & ->).
  simpl in Ha. injection Ha as <-. exists ys. split; [reflexivity|].
  f_equal. rewrite List.map_map. apply List.map_ext. intros [t|]; reflexivity.
Qed.

Lemma fill_text_field_spec key df df1 :
  fill_text_field key df = Ok df1 ->
  nrows df1 = nrows df
  /\ (forall key', String.eqb key key' = false ->
        columns_named df1 key' = columns_named df key')
  /\ columns_named df key <> []
  /\ Forall2 filled_copy (columns_named df key) (columns_named df1 key).
Proof.
  unfold fill_text_field. destruct (getitem df key) as [|s|ss] eqn:Hg;
    [discriminate| |].
  - intros (s1 & H1 & (s2 & H2 & [= <-])%rbind_ok)%rbind_ok.
    apply getitem_one in Hg.
    split; [apply nrows_setitem|].
    split; [intros key' Hne; apply columns_named_setitem_other, Hne|].
    split; [congruence|].
    assert (Hc : has_column df key = true) by (apply has_column_true; congruence).
    rewrite columns_named_setitem_same, Hc, Hg. simpl.
    repeat constructor. exact (fill_then_str _ _ _ H1 H2).
  - intros (ss1 & H1 & (ss2 & H2 & [= <-])%rbind_ok)%rbind_ok.
    apply getitem_many in Hg. destruct Hg as [Hg Hlen].
    apply rmapM_ok in H1, H2.
    assert (F : Forall2 filled_copy ss ss2).
    { clear Hg Hlen. revert ss2 H2.
      induction H1 as [|s s1 ss ss1 Hs _ IH]; intros ss2 H2;
        inversion H2; subst; constructor.
      - eapply fill_then_str; eassumption.
      - apply IH. assumption. }
    split; [reflexivity|].
    split; [intros key' Hne; apply columns_named_setitem_frame_other, Hne|].
    split; [rewrite Hg; intros ->; simpl in Hlen; lia|].
    rewrite columns_named_setitem_frame_same
      by (rewrite Hg; symmetry; apply (Forall2_length F)).
    rewrite Hg. exact F.
Qed.

Lemma filled_in_place_of_copy before after key :
  columns_named before key <> [] ->
  Forall2 filled_copy (columns_named before key) (columns_named after key) ->
  filled_in_place before after key.
Proof.
  intros Hne F. unfold filled_in_place. split; [|split].
  - intros E. rewrite E in F. inversion F. congruence.
  - clear Hne. induction F as [|s s' l l' (ys & -> & ->) _ IH]; constructor;
      [|exact IH]. eexists. f_equal. apply fill_is_some.
  - intros ys Hy. apply getitem_one in Hy. rewrite Hy in F.
    inversion F as [|s s' l l' Hc Hl E1 E2]. subst.
    inversion Hl. subst. destruct Hc as (ys' & E & ->). injection E as <-.
    apply getitem_one. congruence.
Qed.

Section TextFields.

Context `{Pandas}.

Lemma load_df_text_fields df viewed key :
  load_df df = Ok viewed ->
  In key text_fields ->
  filled_in_place (normalize_columns df) viewed key.
Proof.
  unfold load_df. set (df0 := normalize_columns df).
  intros (df1 & H1 & (df2 & H2 & (df3 & H3 & (df4 & H4 & (df5 & H5 &
          (df6 & H6 & H7)%rbind_ok)%rbind_ok)%rbind_ok)%rbind_ok)%rbind_ok)%rbind_ok.
  destruct (fill_text_field_spec _ _ _ H2) as (_ & O2 & P2 & F2).
  destruct (fill_text_field_spec _ _ _ H3) as (_ & O3 & P3 & F3).
  destruct (fill_text_field_spec _ _ _ H4) as (_ & O4 & P4 & F4).
  destruct (fill_text_field_spec _ _ _ H5) as (_ & O5 & P5 & F5).
  destruct (fill_text_field_spec _ _ _ H6) as (_ & O6 & P6 & F6).
  destruct (derive_word_count_spec "abstract" "abstract_word_count" _ _ eq_refl H7)
    as (_ & _ & _ & _ & O7).
  assert (Y : forall k, String.eqb "publish_time" k = false ->
                        String.eqb "year" k = false ->
                        columns_named df1 k = columns_named df0 k)
    by (intros k Hp Hy; apply (derive_year_other _ _ _ H1 Hp Hy)).
  intros Hk. simpl in Hk.
  destruct Hk as [<-|[<-|[<-|[<-|[<-|[]]]]]];
    apply filled_in_place_of_copy.
  - rewrite <- (Y "title" eq_refl eq_refl). exact P2.
  - rewrite (O7 "title" eq_refl), (O6 "title" eq_refl), (O5 "title" eq_refl),
      (O4 "title" eq_refl), (O3 "title" eq_refl),
      <- (Y "title" eq_refl eq_refl). exact F2.
  - rewrite <- (Y "abstract" eq_refl eq_refl), <- (O2 "abstract" eq_refl). exact P3.
  - rewrite (O7 "abstract" eq_refl), (O6 "abstract" eq_refl),
      (O5 "abstract" eq_refl), (O4 "abstract" eq_refl),
      <- (Y "abstract" eq_refl eq_refl), <- (O2 "abstract" eq_refl). exact F3.
  - rewrite <- (Y "authors" eq_refl eq_refl), <- (O2 "authors" eq_refl),
      <- (O3 "authors" eq_refl). exact P4.
  - rewrite (O7 "authors" eq_refl), (O6 "authors" eq_refl),
      (O5 "authors" eq_refl),
      <- (Y "authors" eq_refl eq_refl), <- (O2 "authors" eq_refl),
      <- (O3 "authors" eq_refl). exact F4.
  - rewrite <- (Y "journal" eq_refl eq_refl), <- (O2 "journal" eq_refl),
      <- (O3 "journal" eq_refl), <- (O4 "journal" eq_refl). exact P5.
  - rewrite (O7 "journal" eq_refl), (O6 "journal" eq_refl),
      <- (Y "journal" eq_refl eq_refl), <- (O2 "journal" eq_refl),
      <- (O3 "journal" eq_refl), <- (O4 "journal" eq_refl). exact F5.
  - rewrite <- (Y "source_x" eq_refl eq_refl), <- (O2 "source_x" eq_refl),
      <- (O3 "source_x" eq_refl), <- (O4 "source_x" eq_refl),
      <- (O5 "source_x" eq_refl). exact P6.
  - rewrite (O7 "source_x" eq_refl),
      <- (Y "source_x" eq_refl eq_refl), <- (O2 "source_x" eq_refl),
      <- (O3 "source_x" eq_refl), <- (O4 "source_x" eq_refl),
      <- (O5 "source_x" eq_refl). exact F6.
Qed.

End TextFields.

(* ------------------------------------------------------------------ *)
(** ** Field Deriver: the derivation returns *)

Lemma bind_lift_value {A B} (a : A) (f : A -> M B) : bind (lift (Ok a)) f = f a.
Proof. unfold bind, lift. simpl. destruct (f a); reflexivity. Qed.

Lemma fill_text_total key df :
  at_most_once df key ->
  (forall s, In s (columns_named df key) -> is_text s = true) ->
  exists df2 xs, fill_text key df = Ok df2 /\ columns_named df2 key = [Text xs].
Proof.
  unfold at_most_once, fill_text. intros Hu Ht.
  destruct (has_column df key) eqn:Hc.
  - pose proof Hc as Hne. apply has_column_true in Hne.
    destruct (columns_named df key) as [|s [|s' l]] eqn:E;
      [congruence | | simpl in Hu; lia].
    specialize (Ht s (or_introl eq_refl)).
    destruct s as [ys|ys|ys]; try discriminate.
    apply getitem_one in E. rewrite E. simpl. apply getitem_one in E.
    eexists _, _. split; [reflexivity|].
    rewrite columns_named_setitem_same, Hc, E. reflexivity.
  - eexists _, _. split; [reflexivity|].
    rewrite columns_named_setitem_same, Hc. reflexivity.
Qed.

Lemma fill_text_field_total key df :
  exactly_once df key ->
  (forall s, In s (columns_named df key) -> is_text s = true) ->
  exists df2 xs, fill_text_field key df = Ok df2 /\ columns_named df2 key = [Text xs].
Proof.
  unfold exactly_once, fill_text_field. intros Hu Ht.
  destruct (columns_named df key) as [|s [|s' l]] eqn:E; try discriminate.
  specialize (Ht s (or_introl eq_refl)).
  destruct s as [ys|ys|ys]; try discriminate.
  assert (Hc : has_column df key = true) by (apply has_column_true; congruence).
  apply getitem_one in E. rewrite E. simpl. apply getitem_one in E.
  eexists _, _. split; [reflexivity|].
  rewrite columns_named_setitem_same, Hc, E. reflexivity.
Qed.

Lemma derive_word_count_total src dst df xs :
  columns_named df src = [Text xs] ->
  exists df2, derive_word_count src dst df = Ok df2.
Proof.
  intros E. apply getitem_one in E. unfold derive_word_count. rewrite E.
  simpl. eauto.
Qed.

Section Returns.

Context `{Pandas}.

Lemma clean_total df :
  text_table df ->
  (forall key, In key ["publish_time"; "abstract"; "title"] ->
     at_most_once (normalize_columns df) key) ->
  exists log cleaned, clean df = (log, Ok cleaned).
Proof.
  intros Ht Hu. set (df0 := normalize_columns df) in *.
  pose proof (text_table_normalize _ Ht) as Ht0. fold df0 in Ht0.
  destruct (derive_year_total df0 (Hu "publish_time" (or_introl eq_refl)) Ht0)
    as (df1 & H1 & _ & _).
  assert (Y : forall k, String.eqb "publish_time" k = false ->
                        String.eqb "year" k = false ->
                        columns_named df1 k = columns_named df0 k)
    by (intros k Hp Hy; apply (derive_year_other _ _ _ H1 Hp Hy)).
  destruct (fill_text_total "abstract" df1) as (df2 & xa & H2 & A2).
  { unfold at_most_once. rewrite (Y "abstract" eq_refl eq_refl).
    apply Hu. simpl. auto. }
  { intros s. rewrite (Y "abstract" eq_refl eq_refl). apply text_table_named, Ht0. }
  destruct (fill_text_spec _ _ _ H2) as (_ & O2 & _).
  destruct (fill_text_total "title" df2) as (df3 & xt & H3 & T3).
  { unfold at_most_once.
    rewrite (O2 "title" eq_refl), (Y "title" eq_refl eq_refl).
    apply Hu. simpl. auto. }
  { intros s. rewrite (O2 "title" eq_refl), (Y "title" eq_refl eq_refl).
    apply text_table_named, Ht0. }
  destruct (fill_text_spec _ _ _ H3) as (_ & O3 & _).
  destruct (derive_word_count_total "abstract" "abstract_word_count" df3 xa)
    as (df4 & H4); [rewrite (O3 "abstract" eq_refl); exact A2|].
  destruct (derive_word_count_spec "abstract" "abstract_word_count" _ _ eq_refl H4)
    as (_ & _ & _ & _ & O4).
  destruct (derive_word_count_total "title" "title_word_count" df4 xt)
    as (df5 & H5); [rewrite (O4 "title" eq_refl); exact T3|].
  exists (fst (report_expected df0)), df5.
  unfold clean. fold df0.
  assert (R : snd (report_expected df0) = Ok tt).
  { unfold report_expected. destruct (List.filter (has_column df0) expected); reflexivity. }
  unfold bind at 1. rewrite R.
  rewrite H1, bind_lift_value, H2, bind_lift_value, H3, bind_lift_value,
    H4, bind_lift_value, H5, bind_lift_value.
  simpl. rewrite app_nil_r. reflexivity.
Qed.

Lemma load_df_total df :
  text_table df ->
  at_most_once (normalize_columns df) "publish_time" ->
  (forall key, In key text_fields -> exactly_once (normalize_columns df) key) ->
  exists viewed, load_df df = Ok viewed.
Proof.
  intros Ht Hp Hu. set (df0 := normalize_columns df) in *.
  pose proof (text_table_normalize _ Ht) as Ht0. fold df0 in Ht0.
  destruct (derive_year_total df0 Hp Ht0) as (df1 & H1 & _ & _).
  assert (Y : forall k, String.eqb "publish_time" k = false ->
                        String.eqb "year" k = false ->
                        columns_named df1 k = columns_named df0 k)
    by (intros k Hpk Hy; apply (derive_year_other _ _ _ H1 Hpk Hy)).
  assert (U : forall key, In key text_fields ->
                exactly_once df0 key
                /\ (forall s, In s (columns_named df0 key) -> is_text s = true))
    by (intros key Hk; split; [apply Hu, Hk | intros s; apply text_table_named, Ht0]).
  unfold exactly_once in U.
  destruct (fill_text_field_total "title" df1) as (df2 & x2 & H2 & _).
  { unfold exactly_once. rewrite (Y "title" eq_refl eq_refl).
    apply U. simpl. auto. }
  { rewrite (Y "title" eq_refl eq_refl). apply U. simpl. auto. }
  destruct (fill_text_field_spec _ _ _ H2) as (_ & O2 & _).
  destruct (fill_text_field_total "abstract" df2) as (df3 & xa & H3 & A3).
  { unfold exactly_once. rewrite (O2 "abstract" eq_refl), (Y "abstract" eq_refl eq_refl).
    apply U. simpl. auto. }
  { rewrite (O2 "abstract" eq_refl), (Y "abstract" eq_refl eq_refl).
    apply U. simpl. auto. }
  destruct (fill_text_field_spec _ _ _ H3) as (_ & O3 & _).
  destruct (fill_text_field_total "authors" df3) as (df4 & x4 & H4 & _).
  { unfold exactly_once.
    rewrite (O3 "authors" eq_refl), (O2 "authors" eq_refl),
      (Y "authors" eq_refl eq_refl).
    apply U. simpl. auto. }
  { rewrite (O3 "authors" eq_refl), (O2 "authors" eq_refl),
      (Y "authors" eq_refl eq_refl).
    apply U. simpl. auto. }
  destruct (fill_text_field_spec _ _ _ H4) as (_ & O4 & _).
  destruct (fill_text_field_total "journal" df4) as (df5 & x5 & H5 & _).
  { unfold exactly_once.
    rewrite (O4 "journal" eq_refl), (O3 "journal" eq_refl),
      (O2 "journal" eq_refl), (Y "journal" eq_refl eq_refl).
    apply U. simpl. auto. }
  { rewrite (O4 "journal" eq_refl), (O3 "journal" eq_refl),
      (O2 "journal" eq_refl), (Y "journal" eq_refl eq_refl).
    apply U. simpl. auto. }
  destruct (fill_text_field_spec _ _ _ H5) as (_ & O5 & _).
  destruct (fill_text_field_total "source_x" df5) as (df6 & x6 & H6 & _).
  { unfold exactly_once.
    rewrite (O5 "source_x" eq_refl), (O4 "source_x" eq_refl),
      (O3 "source_x" eq_refl), (O2 "source_x" eq_refl),
      (Y "source_x" eq_refl eq_refl).
    apply U. simpl. auto 6. }
  { rewrite (O5 "source_x" eq_refl), (O4 "source_x" eq_refl),
      (O3 "source_x" eq_refl), (O2 "source_x" eq_refl),
      (Y "source_x" eq_refl eq_refl).
    apply U. simpl. auto 6. }
  destruct (fill_text_field_spec _ _ _ H6) as (_ & O6 & _).
  destruct (derive_word_count_total "abstract" "abstract_word_count" df6 xa)
    as (df7 & H7).
  { rewrite (O6 "abstract" eq_refl), (O5 "abstract" eq_refl),
      (O4 "abstract" eq_refl). exact A3. }
  exists df7. unfold load_df. fold df0.
  rewrite H1. simpl. rewrite H2. simpl. rewrite H3. simpl. rewrite H4. simpl.
  rewrite H5. simpl. rewrite H6. simpl. exact H7.
Qed.

End Returns.

(* ------------------------------------------------------------------ *)
(** ** Field Deriver: what the cleaned and the loaded frame hold *)

(** C8. On a table read from text whose normalized headers name
    [publish_time], [abstract] and [title] at most once each, the cleaning
    returns. In the cleaned frame the abstract and title fields are text
    without nulls, and [abstract_word_count] and [title_word_count] hold,
    row by row, the number of whitespace-delimited tokens of those filled
    fields; that number is what [len(s.split())] computes, is never
    negative, and is 0 for the empty string. *)
Theorem word_counts_are_token_counts `{Pandas} (df : DataFrame) :
  (text_table df ->
   (forall key, In key ["publish_time"; "abstract"; "title"] ->
      at_most_once (normalize_columns df) key) ->
   exists log cleaned, clean df = (log, Ok cleaned))
  /\ (forall log cleaned,
        clean df = (log, Ok cleaned) ->
        exists abstracts titles : list string,
          getitem cleaned "abstract" = One (Text (List.map Some abstracts))
          /\ getitem cleaned "title" = One (Text (List.map Some titles))
          /\ column_is cleaned "abstract_word_count"
               (Ints (List.map (fun s => Some (whitespace_tokens s)) abstracts))
          /\ column_is cleaned "title_word_count"
               (Ints (List.map (fun s => Some (whitespace_tokens s)) titles)))
  /\ (forall s, word_count s = whitespace_tokens s)
  /\ (forall s, (0 <= whitespace_tokens s)%Z)
  /\ whitespace_tokens "" = 0%Z.
Proof.
  split; [apply clean_total|].
  split; [|split; [|split]].
  - intros log cleaned Hc.
    destruct (clean_text_fields _ _ _ Hc)
      as (xa & xt & Ha & Ht & Ca & Ct & Fa & Ft & _).
    destruct (filled_cases _ _ _ Fa) as (abstracts & ->).
    destruct (filled_cases _ _ _ Ft) as (titles & ->).
    rewrite word_counts_of_filled in Ca, Ct.
    exists abstracts, titles. repeat split;
      try (apply getitem_one; assumption); try apply Ca; try apply Ct.
  - apply word_count_tokens.
  - intros s. unfold whitespace_tokens. lia.
  - reflexivity.
Qed.

(** C8, on the example table: "  two words " counts 2 and the null
    abstract, filled with the empty string, counts 0. *)
Lemma word_counts_example :
  (exists log cleaned, clean (H := Example.pandas) Example.papers = (log, Ok cleaned))
  /\ exists log cleaned,
       clean (H := Example.pandas) Example.papers = (log, Ok cleaned)
       /\ getitem cleaned "abstract_word_count" = One (Ints [Some 2%Z; Some 0%Z])
       /\ getitem cleaned "title_word_count" = One (Ints [Some 4%Z; Some 0%Z])
       /\ exists abstracts titles : list string,
            getitem cleaned "abstract" = One (Text (List.map Some abstracts))
            /\ getitem cleaned "title" = One (Text (List.map Some titles))
            /\ column_is cleaned "abstract_word_count"
                 (Ints (List.map (fun s => Some (whitespace_tokens s)) abstracts))
            /\ column_is cleaned "title_word_count"
                 (Ints (List.map (fun s => Some (whitespace_tokens s)) titles)).
Proof.
  pose proof (word_counts_are_token_counts (H := Example.pandas) Example.papers)
    as (Hreturns & Hcounts & _).
  split.
  - apply Hreturns.
    + unfold text_table. simpl. repeat constructor.
    + intros key [<-|[<-|[<-|[]]]]; vm_compute; lia.
  - eexists _, _. split; [vm_compute; reflexivity|].
    split; [reflexivity|]. split; [reflexivity|].
    eapply Hcounts. vm_compute. reflexivity.
Defined.

(** C1 (as amended). In the batch explorer the cleaning returns on a
    table read from text whose normalized headers name [publish_time],
    [abstract] and [title] at most once each, and the cleaned frame has
    [abstract] and [title] as text columns without nulls: the all-empty
    column with one cell per row when the normalized input lacks the
    label, the input column with its nulls replaced by the empty string
    when it has it; [authors], [journal] and [source_x] are read back as
    the normalized input has them. In the viewer the loading returns on a
    table read from text that names each of the five text fields once
    (and [publish_time] at most once), and each of the five fields comes
    out present and without nulls, its nulls replaced by the empty
    string. *)
Theorem text_fields_filled `{Pandas} (df : DataFrame) :
  (text_table df ->
   (forall key, In key ["publish_time"; "abstract"; "title"] ->
      at_most_once (normalize_columns df) key) ->
   exists log cleaned, clean df = (log, Ok cleaned))
  /\ (forall log cleaned,
        clean df = (log, Ok cleaned) ->
        filled_from (normalize_columns df) cleaned "abstract"
        /\ filled_from (normalize_columns df) cleaned "title"
        /\ (forall key, In key ["authors"; "journal"; "source_x"] ->
              getitem cleaned key = getitem (normalize_columns df) key))
  /\ (text_table df ->
      at_most_once (normalize_columns df) "publish_time" ->
      (forall key, In key text_fields -> exactly_once (normalize_columns df) key) ->
      exists viewed, load_df df = Ok viewed)
  /\ (forall viewed,
        load_df df = Ok viewed ->
        forall key, In key text_fields ->
          filled_in_place (normalize_columns df) viewed key).
Proof.
  split; [apply clean_total|]. split; [|split; [apply load_df_total|]].
  - intros log cleaned Hc.
    destruct (clean_text_fields _ _ _ Hc)
      as (xa & xt & Ha & Ht & _ & _ & Fa & Ft & _ & Hother).
    split; [apply (filled_from_cases _ _ _ xa Ha Fa)|].
    split; [apply (filled_from_cases _ _ _ xt Ht Ft)|].
    intros key Hk. apply getitem_same_columns, Hother, Hk.
  - intros viewed Hl key Hk. exact (load_df_text_fields _ _ _ Hl Hk).
Qed.

(** C1, on the example table, in both scripts. *)
Lemma text_fields_example :
  (exists log cleaned, clean (H := Example.pandas) Example.papers = (log, Ok cleaned))
  /\ (exists log cleaned,
        clean (H := Example.pandas) Example.papers = (log, Ok cleaned)
        /\ getitem cleaned "abstract" = One (Text [Some "  two words "; Some ""])
        /\ (filled_from (normalize_columns Example.papers) cleaned "abstract"
            /\ filled_from (normalize_columns Example.papers) cleaned "title"
            /\ (forall key, In key ["authors"; "journal"; "source_x"] ->
                  getitem cleaned key
                  = getitem (normalize_columns Example.papers) key)))
  /\ (exists viewed, load_df (H := Example.pandas) Example.papers = Ok viewed)
  /\ (exists viewed,
        load_df (H := Example.pandas) Example.papers = Ok viewed
        /\ getitem viewed "journal" = One (Text [Some ""; Some "The Lancet"])
        /\ forall key, In key text_fields ->
             filled_in_place (normalize_columns Example.papers) viewed key).
Proof.
  pose proof (text_fields_filled (H := Example.pandas) Example.papers)
    as (Hcleans & Hcleaned & Hloads & Hloaded).
  assert (Ht : text_table Example.papers)
    by (unfold text_table; simpl; repeat constructor).
  split; [|split; [|split]].
  - apply Hcleans; [exact Ht|].
    intros key [<-|[<-|[<-|[]]]]; vm_compute; lia.
  - eexists _, _. split; [vm_compute; reflexivity|]. split; [reflexivity|].
    eapply Hcleaned. vm_compute. reflexivity.
  - apply Hloads; [exact Ht | vm_compute; lia |].
    intros key [<-|[<-|[<-|[<-|[<-|[]]]]]]; reflexivity.
  - eexists. split; [vm_compute; reflexivity|]. split; [reflexivity|].
    apply Hloaded. vm_compute. reflexivity.
Defined.

(** C1, the claim as stated fails. The batch explorer fills only
    [abstract] and [title]: on a table with a title column alone the
    cleaned frame has no [journal], [authors] or [source_x] column, and on
    the example table the null journal stays null. The viewer, on the
    table with a title column alone, raises instead of synthesizing the
    absent columns. *)
Lemma text_fields_not_all_filled :
  (exists log cleaned,
     clean (H := Example.pandas) Example.titles_only = (log, Ok cleaned)
     /\ getitem cleaned "journal" = Missing
     /\ getitem cleaned "authors" = Missing
     /\ getitem cleaned "source_x" = Missing)
  /\ (exists log cleaned,
        clean (H := Example.pandas) Example.papers = (log, Ok cleaned)
        /\ getitem cleaned "journal" = One (Text [None; Some "The Lancet"]))
  /\ load_df (H := Example.pandas) Example.titles_only = Raise AttributeError.
Proof.
  split; [|split].
  - eexists _, _. split; [vm_compute; reflexivity|]. repeat split.
  - eexists _, _. split; [vm_compute; reflexivity|]. reflexivity.
  - reflexivity.
Qed.

Section YearDerivation.

Context `{Pandas}.








End YearDerivation.






(* ------------------------------------------------------------------ *)
(** ** Sampler *)

Lemma nth_seq_all {A} (l : list A) d :
  List.map (fun j => nth j l d) (seq 0 (length l)) = l.
Proof.
  induction l as [|a l IH]; simpl; [reflexivity|].
  f_equal. rewrite <- seq_shift, List.map_map. exact IH.
Qed.

Lemma take_cells_in_range {A} (idx : list nat) (xs : list A) d :
  Forall (fun i => i < length xs) idx ->
  take_cells idx xs = Ok (List.map (fun i => nth i xs d) idx).
Proof.
  intros Hr. unfold take_cells. apply rmapM_total.
  revert Hr. apply Forall_impl. intros i Hi.
  rewrite (nth_error_nth' xs d Hi). reflexivity.
Qed.

Lemma take_series_in_range idx s :
  Forall (fun i => i < series_length s) idx ->
  take_series idx s = Ok (reindex idx s).
Proof.
  destruct s as [xs|xs|xs]; simpl; intros Hr;
    rewrite (take_cells_in_range idx xs None Hr); reflexivity.
Qed.

Lemma cells_reindex idx s :
  cells (reindex idx s) = List.map (fun i => nth i (cells s) NA) idx.
Proof.
  destruct s as [xs|xs|xs]; simpl; rewrite List.map_map; apply List.map_ext;
    intros i.
  - exact (eq_sym (map_nth (cell_of CStr) xs None i)).
  - exact (eq_sym (map_nth (cell_of CTime) xs None i)).
  - exact (eq_sym (map_nth (cell_of CInt) xs None i)).
Qed.

Lemma series_length_reindex idx s : series_length (reindex idx s) = length idx.
Proof. destruct s; simpl; apply length_map. Qed.

Lemma take_in_range df idx :
  well_formed df ->
  Forall (fun i => i < nrows df) idx ->
  take df idx
  = Ok {| nrows := length idx;
          columns := List.map (fun c => (fst c, reindex idx (snd c))) (columns df) |}.
Proof.
  intros Hwf Hr. unfold take.
  rewrite (rmapM_total _ (fun c => (fst c, reindex idx (snd c)))); [reflexivity|].
  revert Hwf. apply Forall_impl. intros c Hc.
  rewrite take_series_in_range; [reflexivity|].
  rewrite Hc. exact Hr.
Qed.

Lemma rows_reindexed df idx :
  rows {| nrows := length idx;
          columns := List.map (fun c => (fst c, reindex idx (snd c))) (columns df) |}
  = List.map (row df) idx.
Proof.
  unfold rows. simpl.
  rewrite <- (nth_seq_all idx 0) at 3. rewrite List.map_map.
  apply map_ext_in. intros j Hj. apply in_seq in Hj.
  unfold row. simpl. rewrite List.map_map. apply List.map_ext. intros c. simpl.
  rewrite cells_reindex.
  rewrite (nth_indep _ NA (nth 0 (cells (snd c)) NA)) by (rewrite length_map; lia).
  exact (map_nth (fun i => nth i (cells (snd c)) NA) idx 0 j).
Qed.

Section Sampling.

Context `{Numpy}.

Lemma permutation_in_range g n : Forall (fun i => i < n) (permutation g n).
Proof.
  apply Forall_forall. intros i Hi.
  apply (Permutation_in _ (permutation_perm g n)) in Hi.
  apply in_seq in Hi. lia.
Qed.

Lemma permutation_nodup g n : NoDup (permutation g n).
Proof.
  apply (Permutation_NoDup (Permutation_sym (permutation_perm g n))), seq_NoDup.
Qed.

Lemma permutation_length g n : length (permutation g n) = n.
Proof. rewrite (Permutation_length (permutation_perm g n)). apply length_seq. Qed.

Lemma firstn_nodup {A} n (l : list A) : NoDup l -> NoDup (firstn n l).
Proof.
  intros Hl. rewrite <- (firstn_skipn n l) in Hl. exact (NoDup_app_remove_r _ _ Hl).
Qed.

Lemma firstn_forall {A} (P : A -> Prop) n l : Forall P l -> Forall P (firstn n l).
Proof.
  intros Hl. rewrite <- (firstn_skipn n l) in Hl. apply Forall_app in Hl. tauto.
Qed.

End Sampling.

(** C3. For a requested size n > 0 the sampling step draws a sample, of
    min(n, total rows) rows, each a row of the input at a distinct
    position; the sample does not depend on the ambient generator of the
    process, since the draw uses a fresh generator seeded with 42, so two
    runs on the same input give the same sample; and when n is at least
    the number of rows the sample holds every row of the input, each
    once. *)
Theorem sample_step_draws `{Numpy} (df : DataFrame) (n : Z) (ambient : rng) :
  well_formed df ->
  (0 < n)%Z ->
  exists s idx,
    sample_step n df ambient = Some (Ok s)
    /\ nrows s = Nat.min (Z.to_nat n) (nrows df)
    /\ length (rows s) = Nat.min (Z.to_nat n) (nrows df)
    /\ labels s = labels df
    /\ NoDup idx
    /\ Forall (fun i => i < nrows df) idx
    /\ rows s = List.map (row df) idx
    /\ (forall ambient', sample_step n df ambient' = Some (Ok s))
    /\ ((Z.of_nat (nrows df) <= n)%Z -> Permutation (rows s) (rows df)).
Proof.
  intros Hwf Hn.
  set (k := Nat.min (Z.to_nat n) (nrows df)).
  set (idx := firstn k (permutation (seed 42%Z) (nrows df))).
  assert (Hk : Z.to_nat (Z.min n (Z.of_nat (nrows df))) = k) by (unfold k; lia).
  assert (Hr : Forall (fun i => i < nrows df) idx)
    by (apply firstn_forall, permutation_in_range).
  assert (Hlen : length idx = k).
  { unfold idx. rewrite length_firstn, permutation_length. unfold k. lia. }
  assert (Hs : forall a, sample_step n df a
                         = Some (take df idx)).
  { intros a. unfold sample_step, sample.
    replace (negb (n =? 0)%Z && (n >? 0)%Z) with true
      by (symmetry; apply andb_true_intro; split;
          [apply negb_true_iff, Z.eqb_neq; lia | apply Z.gtb_lt; lia]).
    rewrite Hk.
    replace (nrows df <? k)%nat with false
      by (symmetry; apply Nat.ltb_ge; unfold k; lia).
    reflexivity. }
  eexists _, idx. rewrite Hs, (take_in_range df idx Hwf Hr).
  split; [reflexivity|]. simpl.
  split; [exact Hlen|].
  split; [rewrite rows_reindexed, length_map; exact Hlen|].
  split; [unfold labels; simpl; rewrite List.map_map; reflexivity|].
  split; [apply firstn_nodup, permutation_nodup|].
  split; [exact Hr|].
  split; [apply rows_reindexed|].
  split; [intros a; rewrite Hs, (take_in_range df idx Hwf Hr); reflexivity|].
  intros Hall. rewrite rows_reindexed. unfold rows. apply Permutation_map.
  unfold idx. rewrite firstn_all2 by (rewrite permutation_length; unfold k; lia).
  apply permutation_perm.
Qed.

(** C3, on the example table with the rotating generator: five rows are
    asked for, the two rows of the table are drawn. *)
Lemma sample_step_example :
  well_formed Example.papers
  /\ (exists s idx,
        sample_step (H := Example.numpy) 5%Z Example.papers 7%Z = Some (Ok s)
        /\ nrows s = Nat.min (Z.to_nat 5%Z) (nrows Example.papers)
        /\ length (rows s) = Nat.min (Z.to_nat 5%Z) (nrows Example.papers)
        /\ labels s = labels Example.papers
        /\ NoDup idx
        /\ Forall (fun i => i < nrows Example.papers) idx
        /\ rows s = List.map (row Example.papers) idx
        /\ (forall ambient',
              sample_step (H := Example.numpy) 5%Z Example.papers ambient' = Some (Ok s))
        /\ ((Z.of_nat (nrows Example.papers) <= 5)%Z ->
            Permutation (rows s) (rows Example.papers))).
Proof.
  assert (Hwf : well_formed Example.papers)
    by (unfold well_formed; simpl; repeat constructor).
  split; [exact Hwf|].
  apply (sample_step_draws (H := Example.numpy) Example.papers 5%Z 7%Z Hwf).
  reflexivity.
Defined.

(* ------------------------------------------------------------------ *)
(** ** Interactive viewer: the year filter *)

Lemma columns_named_select_rows mask df key :
  columns_named (select_rows mask df) key
  = List.map (select_series mask) (columns_named df key).
Proof.
  unfold columns_named, select_rows. simpl.
  induction (columns df) as [|c cols IH]; simpl; [reflexivity|].
  unfold named at 1. simpl. fold (named key c).
  destruct (named key c); simpl; rewrite IH; reflexivity.
Qed.

Lemma year_cells_select_rows mask df ys :
  year_cells df = Some ys ->
  year_cells (select_rows mask df) = Some (select mask ys).
Proof.
  unfold year_cells, getitem. rewrite columns_named_select_rows.
  destruct (columns_named df "year") as [|[xs|xs|xs] [|s' l]]; try discriminate.
  intros [= <-]. reflexivity.
Qed.

Lemma select_forall {A} (P : A -> Prop) mask xs :
  Forall P xs -> Forall P (select mask xs).
Proof.
  intros Hx. revert mask. induction Hx as [|x xs Hx _ IH]; intros [|b mask];
    simpl; try constructor.
  destruct b; [constructor; [exact Hx | apply IH] | apply IH].
Qed.

Lemma select_by_test {A} (p : A -> bool) xs :
  Forall (fun x => p x = true) (select (List.map p xs) xs).
Proof.
  induction xs as [|x xs IH]; simpl; [constructor|].
  destruct (p x) eqn:E; [constructor; assumption | exact IH].
Qed.

Lemma mask_and_map {A} (p q : A -> bool) xs :
  mask_and (List.map p xs) (List.map q xs) = List.map (fun x => p x && q x) xs.
Proof.
  unfold mask_and. induction xs as [|x xs IH]; simpl; [reflexivity|].
  rewrite IH. reflexivity.
Qed.

Lemma text_never_compares xs l :
  rmapM (fun x : option string => match x with
                                  | Some _ => Raise TypeError
                                  | None => Ok false
                                  end) xs = Ok l ->
  any (List.map present xs) = false.
Proof.
  revert l. induction xs as [|[t|] xs IH]; simpl; intros l; try discriminate.
  - reflexivity.
  - intros (l' & Hl' & _)%rbind_ok. exact (IH _ Hl').
Qed.

Section YearFilter.

Context `{Pandas}.

Lemma years_within_select_rows range mask df :
  years_within range df -> years_within range (select_rows mask df).
Proof.
  intros (ys & Hy & Hall). exists (select mask ys).
  split; [apply year_cells_select_rows, Hy | apply select_forall, Hall].
Qed.

Lemma filter_years_within df range filtered :
  year_any (getitem df "year") = Ok true ->
  filter_years df df range = Ok filtered ->
  years_within range filtered.
Proof.
  unfold filter_years. intros Ha. rewrite Ha. simpl.
  destruct (getitem df "year") as [|s|ss] eqn:Hg; try discriminate.
  injection Ha as Ha.
  destruct s as [xs|xs|xs]; simpl.
  - intros (ge & Hge & _)%rbind_ok.
    apply text_never_compares in Hge. simpl in Ha. congruence.
  - discriminate.
  - intros [= <-].
    rewrite (mask_and_map
               (fun y => match y with Some z => Z.geb z (fst range) | None => false end)
               (fun y => match y with Some z => Z.leb z (snd range) | None => false end)).
    eexists. split.
    + apply year_cells_select_rows. unfold year_cells. rewrite Hg. reflexivity.
    + eapply Forall_impl; [|apply select_by_test].
      intros [z|]; simpl; [|discriminate].
      intros [Hge Hle]%andb_prop. exists z. split; [reflexivity|].
      rewrite Z.geb_leb in Hge. apply Z.leb_le in Hge, Hle. lia.
Qed.

Lemma filter_source_within range df selected filtered :
  years_within range df ->
  filter_source df selected = Ok filtered ->
  years_within range filtered.
Proof.
  unfold filter_source. intros Hw.
  destruct (negb (String.eqb selected "All")).
  - intros (m & _ & [= <-])%rbind_ok. apply years_within_select_rows, Hw.
  - intros [= <-]. exact Hw.
Qed.

Lemma filter_title_within range df query filtered :
  years_within range df ->
  filter_title df query = Ok filtered ->
  years_within range filtered.
Proof.
  unfold filter_title. intros Hw.
  destruct (negb (Str.is_empty (Str.strip query))).
  - intros (m & _ & [= <-])%rbind_ok. apply years_within_select_rows, Hw.
  - intros [= <-]. exact Hw.
Qed.

End YearFilter.

Section FiltersReturn.

Context `{Pandas}.

Lemma getitem_select_rows_text mask df key xs :
  getitem df key = One (Text xs) ->
  getitem (select_rows mask df) key = One (Text (select mask xs)).
Proof.
  intros Hg. apply getitem_one in Hg. apply getitem_one.
  rewrite columns_named_select_rows, Hg. reflexivity.
Qed.

Lemma apply_filters_total df range source query ys xs ts found :
  getitem df "year" = One (Ints ys) ->
  getitem df "source_x" = One (Text xs) ->
  getitem df "title" = One (Text ts) ->
  search_ignorecase query = Some found ->
  exists filtered, apply_filters df range source query = Ok filtered.
Proof.
  intros Hy Hs Ht Hq. unfold apply_filters.
  assert (G1 : exists f1 xs1 ts1,
             filter_years df df range = Ok f1
             /\ getitem f1 "source_x" = One (Text xs1)
             /\ getitem f1 "title" = One (Text ts1)).
  { unfold filter_years. rewrite Hy. simpl.
    destruct (any (List.map present ys)); simpl.
    - eexists _, _, _. split; [reflexivity|].
      split; apply getitem_select_rows_text; eassumption.
    - eexists _, _, _. split; [reflexivity|]. split; eassumption. }
  destruct G1 as (f1 & xs1 & ts1 & -> & Hs1 & Ht1). simpl.
  assert (G2 : exists f2 ts2,
             filter_source f1 source = Ok f2
             /\ getitem f2 "title" = One (Text ts2)).
  { unfold filter_source. destruct (negb (String.eqb source "All")).
    - rewrite Hs1. simpl. eexists _, _. split; [reflexivity|].
      apply getitem_select_rows_text, Ht1.
    - eauto. }
  destruct G2 as (f2 & ts2 & -> & Ht2). simpl.
  unfold filter_title. destruct (negb (Str.is_empty (Str.strip query))).
  - rewrite Ht2. simpl. rewrite Hq. simpl. eauto.
  - eauto.
Qed.

End FiltersReturn.

(** C10. In the viewer, when some loaded row has a year, whatever range,
    source and title query are selected, the frame the filters return has
    a numeric year column in which no cell is null and every year lies in
    the selected range: a row without a year is in no filtered result,
    hence in no table, chart or export made from it. The result selects
    rows from what the year filter alone returns, and the filters do
    return when [year] is one numeric column, [source_x] and [title] are
    one text column each, and the title query compiles. *)
Theorem null_years_are_filtered_out `{Pandas}
    (df : DataFrame) (range : Z * Z) (source query : string) :
  year_any (getitem df "year") = Ok true ->
  (forall filtered,
     apply_filters df range source query = Ok filtered ->
     (exists ys,
        year_cells filtered = Some ys
        /\ Forall (year_within range) ys
        /\ ~ In None ys)
     /\ (exists by_year,
           filter_years df df range = Ok by_year
           /\ nrows filtered <= nrows by_year))
  /\ (forall ys xs ts found,
        getitem df "year" = One (Ints ys) ->
        getitem df "source_x" = One (Text xs) ->
        getitem df "title" = One (Text ts) ->
        search_ignorecase query = Some found ->
        exists filtered, apply_filters df range source query = Ok filtered).
Proof.
  intros Ha. split; [|apply apply_filters_total].
  intros filtered. unfold apply_filters.
  intros (f1 & H1 & (f2 & H2 & H3)%rbind_ok)%rbind_ok.
  pose proof (filter_years_within _ _ _ Ha H1) as W1.
  pose proof (filter_source_within _ _ _ _ W1 H2) as W2.
  destruct (filter_title_within _ _ _ _ W2 H3) as (ys & Hy & Hall).
  split.
  - exists ys. split; [exact Hy|]. split; [exact Hall|].
    intros Hin. rewrite Forall_forall in Hall.
    destruct (Hall _ Hin) as (z & [=] & _).
  - exists f1. split; [exact H1|].
    assert (L : forall (mask : list bool) n,
               length (select mask (seq 0 n)) <= n).
    { intros mask n. generalize 0 at 1. revert mask.
      induction n as [|n IH]; intros [|b mask] k; simpl; try lia.
      destruct b; simpl; specialize (IH mask (S k)); lia. }
    assert (S2 : nrows f2 <= nrows f1).
    { unfold filter_source in H2. destruct (negb (String.eqb source "All")).
      - apply rbind_ok in H2. destruct H2 as (m & _ & [= <-]). apply L.
      - injection H2 as <-. lia. }
    assert (S3 : nrows filtered <= nrows f2).
    { unfold filter_title in H3. destruct (negb (Str.is_empty (Str.strip query))).
      - apply rbind_ok in H3. destruct H3 as (m & _ & [= <-]). apply L.
      - injection H3 as <-. lia. }
    lia.
Qed.

(** C10, on the example table as the viewer loads it: the row dated
    "soon" has no year; with the default range, no source selected and no
    title query, the filtered frame keeps the one row of 2020. *)
Lemma null_years_example :
  exists viewed filtered,
    load_df (H := Example.pandas) Example.papers = Ok viewed
    /\ year_cells viewed = Some [Some 2020%Z; None]
    /\ default_range viewed = Ok (2020, 2020)%Z
    /\ apply_filters (H := Example.pandas) viewed (2020, 2020)%Z "All" "" = Ok filtered
    /\ nrows filtered = 1
    /\ ((exists ys,
           year_cells filtered = Some ys
           /\ Forall (year_within (2020, 2020)%Z) ys
           /\ ~ In None ys)
        /\ (exists by_year,
              filter_years viewed viewed (2020, 2020)%Z = Ok by_year
              /\ nrows filtered <= nrows by_year)).
Proof.
  eexists _, _.
  split; [vm_compute; reflexivity|]. split; [reflexivity|].
  split; [reflexivity|]. split; [vm_compute; reflexivity|].
  split; [reflexivity|].
  eapply (proj1 (null_years_are_filtered_out (H := Example.pandas)
                   _ (2020, 2020)%Z "All" "" _)).
  reflexivity.
  Unshelve. reflexivity.
Defined.

(* ------------------------------------------------------------------ *)
(** ** Aggregator: tokens *)

Lemma map_append f a b : Str.map f (a ++ b) = (Str.map f a ++ Str.map f b)%string.
Proof. induction a as [|c a IH]; simpl; [reflexivity|]. rewrite IH. reflexivity. Qed.

Lemma lower_join titles :
  Str.lower (Str.join " " titles) = Str.join " " (List.map Str.lower titles).
Proof.
  unfold Str.lower. induction titles as [|t [|t' rest] IH]; try reflexivity.
  change (Str.join " " (t :: t' :: rest))
    with (t ++ " " ++ Str.join " " (t' :: rest))%string.
  rewrite !map_append, IH. reflexivity.
Qed.

Lemma keep_as_worded w :
  keep w = negb ((String.length w <=? 2)%nat || is_stopword w).
Proof.
  unfold keep. rewrite Nat.ltb_antisym.
  destruct (String.length w <=? 2)%nat, (is_stopword w); reflexivity.
Qed.

Lemma title_tokens_as_worded titles : title_tokens titles = spec_tokens titles.
Proof.
  unfold title_tokens, spec_tokens. rewrite lower_join.
  apply List.filter_ext. exact keep_as_worded.
Qed.

Lemma is_stopword_false w : is_stopword w = false <-> ~ In w stopwords.
Proof.
  unfold is_stopword. split.
  - intros E Hin. assert (X : existsb (String.eqb w) stopwords = true)
      by (apply existsb_exists; exists w; split; [exact Hin | apply String.eqb_refl]).
    congruence.
  - intros Hn. destruct (existsb (String.eqb w) stopwords) eqn:E; [|reflexivity].
    apply existsb_exists in E. destruct E as (x & Hx & ->%String.eqb_eq). tauto.
Qed.

Lemma title_tokens_kept titles w :
  In w (title_tokens titles) -> ~ In w stopwords /\ 2 < String.length w.
Proof.
  unfold title_tokens. intros [_ Hk]%filter_In. unfold keep in Hk.
  apply andb_prop in Hk. destruct Hk as [Hs Hl].
  split; [apply is_stopword_false, negb_true_iff, Hs | apply Nat.ltb_lt, Hl].
Qed.

(* ------------------------------------------------------------------ *)
(** ** Aggregator: counting *)

Lemma filter_twice {A} (p q : A -> bool) l :
  List.filter p (List.filter q l) = List.filter (fun x => q x && p x) l.
Proof.
  induction l as [|x l IH]; simpl; [reflexivity|].
  destruct (q x); simpl; [destruct (p x)|]; rewrite IH; reflexivity.
Qed.

Lemma occurrences_filter (p : string -> bool) w ws :
  p w = true -> occurrences w (List.filter p ws) = occurrences w ws.
Proof.
  intros Hw. induction ws as [|x ws IH]; simpl; [reflexivity|].
  destruct (p x) eqn:Hx; simpl; rewrite IH; [reflexivity|].
  destruct (String.eqb x w) eqn:E; [|reflexivity].
  apply String.eqb_eq in E. congruence.
Qed.

Lemma distinct_filter (p : string -> bool) ws :
  distinct (List.filter p ws) = List.filter p (distinct ws).
Proof.
  induction ws as [|x ws IH]; simpl; [reflexivity|].
  destruct (p x) eqn:Hx; simpl.
  - rewrite IH, !filter_twice. f_equal. apply List.filter_ext. intros y.
    apply andb_comm.
  - rewrite IH, filter_twice. apply List.filter_ext. intros y.
    destruct (String.eqb x y) eqn:E; [|reflexivity].
    apply String.eqb_eq in E. subst y. rewrite Hx. reflexivity.
Qed.

Lemma in_distinct w ws : In w (distinct ws) <-> In w ws.
Proof.
  induction ws as [|x ws IH]; simpl; [tauto|].
  rewrite filter_In, IH. destruct (String.eqb x w) eqn:E.
  - apply String.eqb_eq in E. subst. simpl. intuition discriminate.
  - apply String.eqb_neq in E. simpl. intuition.
Qed.

Lemma nodup_distinct ws : NoDup (distinct ws).
Proof.
  induction ws as [|x ws IH]; simpl; constructor.
  - intros [_ Hx]%filter_In. rewrite String.eqb_refl in Hx. discriminate.
  - apply NoDup_filter, IH.
Qed.

Lemma unseen_true d w : unseen d w = true <-> ~ In w (keys d).
Proof.
  unfold unseen. rewrite negb_true_iff. split.
  - intros E Hin. assert (X : existsb (String.eqb w) (keys d) = true)
      by (apply existsb_exists; exists w; split; [exact Hin | apply String.eqb_refl]).
    congruence.
  - intros Hn. destruct (existsb (String.eqb w) (keys d)) eqn:E; [|reflexivity].
    apply existsb_exists in E. destruct E as (x & Hx & ->%String.eqb_eq). tauto.
Qed.

Lemma counter_add_unseen w d :
  ~ In w (keys d) -> counter_add w d = d ++ [(w, 1)].
Proof.
  induction d as [|[k n] d IH]; simpl; [reflexivity|]. intros Hn.
  destruct (String.eqb k w) eqn:E.
  - apply String.eqb_eq in E. tauto.
  - rewrite IH by tauto. reflexivity.
Qed.

Lemma counter_add_seen w d :
  In w (keys d) -> NoDup (keys d) ->
  counter_add w d = List.map (bump [w]) d.
Proof.
  induction d as [|[k n] d IH]; simpl; [tauto|]. intros Hin Hnd.
  inversion Hnd as [|? ? Hk Hd]; subst.
  unfold bump at 1. simpl. rewrite (String.eqb_sym w k).
  destruct (String.eqb k w) eqn:E.
  - apply String.eqb_eq in E. subst k. f_equal; [f_equal; lia|].
    rewrite <- (List.map_id d) at 1. apply map_ext_in. intros [k' n'] Hk'.
    unfold bump. simpl. destruct (String.eqb w k') eqn:E'.
    + apply String.eqb_eq in E'. subst k'. exfalso. apply Hk.
      apply in_map_iff. exists (w, n'). auto.
    + f_equal. lia.
  - f_equal; [f_equal; lia|]. apply IH; [|exact Hd].
    destruct Hin as [->|Hin]; [rewrite String.eqb_refl in E; discriminate | exact Hin].
Qed.

Lemma keys_bump ws d : keys (List.map (bump ws) d) = keys d.
Proof. unfold keys. rewrite List.map_map. reflexivity. Qed.

Lemma bump_bump w ws d : List.map (bump ws) (List.map (bump [w]) d) = List.map (bump (w :: ws)) d.
Proof.
  rewrite List.map_map. apply List.map_ext. intros [k n]. unfold bump. simpl.
  f_equal. lia.
Qed.

Lemma counter_state ws : forall d,
  NoDup (keys d) ->
  fold_left (fun d w => counter_add w d) ws d
  = List.map (bump ws) d ++ tally (List.filter (unseen d) ws).
Proof.
  induction ws as [|x ws IH]; intros d Hd; simpl.
  - rewrite app_nil_r. rewrite <- (List.map_id d) at 1. apply List.map_ext.
    intros [k n]. unfold bump. simpl. f_equal. lia.
  - destruct (unseen d x) eqn:Hx.
    + apply unseen_true in Hx. rewrite (counter_add_unseen _ _ Hx).
      rewrite IH
        by (unfold keys; rewrite map_app; simpl; apply NoDup_app;
            [exact Hd | repeat constructor; simpl; tauto
            | intros a Ha [<-|[]]; exact (Hx Ha)]).
      rewrite map_app, <- app_assoc. f_equal.
      * apply map_ext_in. intros [k n] Hk. unfold bump. simpl.
        destruct (String.eqb x k) eqn:E; [|reflexivity].
        apply String.eqb_eq in E. subst k. exfalso. apply Hx.
        apply in_map_iff. exists (x, n). auto.
      * simpl. unfold tally at 2. simpl. rewrite String.eqb_refl.
        unfold bump at 1. simpl.
        assert (Hu : unseen d x = true) by (apply unseen_true, Hx).
        rewrite (occurrences_filter (unseen d) x ws Hu). f_equal.
        assert (E : List.filter (unseen (d ++ [(x, 1)])) ws
                    = List.filter (fun y => negb (String.eqb x y))
                        (List.filter (unseen d) ws)).
        { rewrite filter_twice. apply List.filter_ext. intros y.
          unfold unseen, keys. rewrite map_app, existsb_app. simpl.
          rewrite orb_false_r, negb_orb, (String.eqb_sym y x). reflexivity. }
        rewrite E. unfold tally. rewrite distinct_filter.
        apply map_ext_in. intros y [_ Hy]%filter_In.
        rewrite (occurrences_filter _ y _ Hy). simpl.
        apply negb_true_iff in Hy. rewrite Hy. reflexivity.
    + assert (Hin : In x (keys d)).
      { destruct (in_dec string_dec x (keys d)) as [Hi|Hn]; [exact Hi|].
        apply unseen_true in Hn. congruence. }
      rewrite (counter_add_seen _ _ Hin Hd).
      rewrite IH by (rewrite keys_bump; exact Hd).
      rewrite bump_bump. f_equal. f_equal. apply List.filter_ext. intros y.
      unfold unseen. rewrite keys_bump. reflexivity.
Qed.

Lemma counter_is_tally ws : Counter ws = tally ws.
Proof.
  unfold Counter. rewrite counter_state by constructor. simpl.
  f_equal. rewrite <- (List.filter_ext (fun _ => true)) by reflexivity.
  clear. induction ws as [|x ws IH]; simpl; congruence.
Qed.

(* ------------------------------------------------------------------ *)
(** ** Aggregator: ranking *)

Section Ranking.

Variable before : string * nat -> string * nat -> Prop.

Lemma insert_desc_perm x l : Permutation (insert_desc x l) (x :: l).
Proof.
  induction l as [|y l IH]; simpl; [reflexivity|].
  destruct (snd x <? snd y)%nat; [|reflexivity].
  rewrite IH. apply perm_swap.
Qed.

Lemma sorted_desc_perm l : Permutation (sorted_desc l) l.
Proof.
  induction l as [|x l IH]; simpl; [reflexivity|].
  rewrite insert_desc_perm, IH. reflexivity.
Qed.

Lemma ranked_le a b : ranked before a b -> snd b <= snd a.
Proof. unfold ranked. lia. Qed.

Lemma insert_desc_ranked x l :
  StronglySorted (ranked before) l ->
  Forall (before x) l ->
  StronglySorted (ranked before) (insert_desc x l).
Proof.
  induction 1 as [|y l Hl IH Hy]; intros Hx; simpl.
  - repeat constructor.
  - inversion Hx as [|? ? Hxy Hxl]; subst.
    destruct (snd x <? snd y)%nat eqn:E.
    + apply Nat.ltb_lt in E. constructor; [apply IH, Hxl|].
      apply (Permutation_Forall (Permutation_sym (insert_desc_perm x l))).
      constructor; [left; exact E | exact Hy].
    + apply Nat.ltb_ge in E. constructor; [constructor; assumption|].
      assert (R : forall z, snd z <= snd x -> before x z -> ranked before x z).
      { intros z Hz Hb. unfold ranked.
        destruct (Nat.eq_dec (snd x) (snd z)); [right; auto | left; lia]. }
      constructor; [apply R; assumption|].
      rewrite Forall_forall in Hy, Hxl |- *. intros z Hz.
      apply R; [|apply Hxl, Hz]. pose proof (ranked_le _ _ (Hy z Hz)). lia.
Qed.

Lemma sorted_desc_ranked l :
  StronglySorted before l -> StronglySorted (ranked before) (sorted_desc l).
Proof.
  induction 1 as [|x l Hl IH Hx]; simpl; [constructor|].
  apply insert_desc_ranked; [exact IH|].
  exact (Permutation_Forall (Permutation_sym (sorted_desc_perm l)) Hx).
Qed.

End Ranking.

Lemma strongly_sorted_app {A} (R : A -> A -> Prop) l1 l2 :
  StronglySorted R (l1 ++ l2) ->
  StronglySorted R l1 /\ (forall a b, In a l1 -> In b l2 -> R a b).
Proof.
  induction l1 as [|x l1 IH]; simpl; intros Hs.
  - split; [constructor | intros a b []].
  - apply StronglySorted_inv in Hs. destruct Hs as [Hs Hx].
    destruct (IH Hs) as [H1 H2]. apply Forall_app in Hx. destruct Hx as [Hx1 Hx2].
    split; [constructor; assumption|].
    intros a b [<-|Ha] Hb; [|apply H2; assumption].
    rewrite Forall_forall in Hx2. apply Hx2, Hb.
Qed.

Lemma strongly_sorted_map {A B} (f : A -> B) (R : B -> B -> Prop) l :
  StronglySorted (fun a b => R (f a) (f b)) l -> StronglySorted R (List.map f l).
Proof.
  induction 1 as [|x l _ IH Hx]; simpl; constructor; [exact IH|].
  apply Forall_map. exact Hx.
Qed.

Lemma strongly_sorted_filter {A} (R : A -> A -> Prop) p l :
  StronglySorted R l -> StronglySorted R (List.filter p l).
Proof.
  induction 1 as [|x l _ IH Hx]; simpl; [constructor|].
  destruct (p x); [|exact IH]. constructor; [exact IH|].
  rewrite Forall_forall in Hx |- *. intros y [Hy _]%filter_In. apply Hx, Hy.
Qed.

Lemma strongly_sorted_on {A} (P : A -> Prop) (R R' : A -> A -> Prop) l :
  (forall a b, P a -> P b -> R a b -> R' a b) ->
  Forall P l -> StronglySorted R l -> StronglySorted R' l.
Proof.
  intros HR HP Hs. induction Hs as [|x l _ IH Hx]; [constructor|].
  inversion HP as [|? ? Px Pl]; subst. constructor; [apply IH, Pl|].
  rewrite Forall_forall in Hx, Pl |- *. intros y Hy.
  apply HR; [exact Px | apply Pl, Hy | apply Hx, Hy].
Qed.

Lemma distinct_in_order ws :
  StronglySorted (fun a b => first_index a ws < first_index b ws) (distinct ws).
Proof.
  induction ws as [|x ws IH]; simpl; constructor.
  - apply (strongly_sorted_on (fun y => String.eqb x y = false)
             (fun a b => first_index a ws < first_index b ws)).
    + intros a b Ha Hb Hab. simpl. rewrite Ha, Hb. lia.
    + apply Forall_forall. intros y [_ Hy]%filter_In. apply negb_true_iff, Hy.
    + apply strongly_sorted_filter, IH.
  - apply Forall_forall. intros y [_ Hy]%filter_In. apply negb_true_iff in Hy.
    simpl. rewrite String.eqb_refl, Hy. lia.
Qed.

Lemma tally_in_order ws :
  StronglySorted (fun a b => first_index (fst a) ws < first_index (fst b) ws)
    (tally ws).
Proof. unfold tally. apply strongly_sorted_map. simpl. apply distinct_in_order. Qed.

Lemma in_tally w n ws : In (w, n) (tally ws) <-> In w ws /\ n = occurrences w ws.
Proof.
  unfold tally. rewrite in_map_iff. split.
  - intros (y & E & Hy). injection E as <- <-.
    split; [apply in_distinct, Hy | reflexivity].
  - intros [Hw ->]. exists w. split; [reflexivity | apply in_distinct, Hw].
Qed.

Lemma keys_tally ws : List.map fst (tally ws) = distinct ws.
Proof. unfold tally. rewrite List.map_map. apply List.map_id. Qed.

Lemma runs_across p acc a c b :
  p c = false ->
  Str.runs p acc (a ++ String c b) = Str.runs p acc a ++ Str.runs p EmptyString b.
Proof.
  intros Hc. revert acc. induction a as [|x a IH]; intros acc; simpl.
  - rewrite Hc. reflexivity.
  - destruct (p x); [apply IH|]. rewrite IH, app_assoc. reflexivity.
Qed.

Lemma findall_words_join titles :
  Re.findall_words (Str.join " " titles) = flat_map Re.findall_words titles.
Proof.
  unfold Re.findall_words.
  induction titles as [|t [|t' rest] IH].
  - reflexivity.
  - simpl. rewrite app_nil_r. reflexivity.
  - change (Str.join " " (t :: t' :: rest))
      with (t ++ String " " (Str.join " " (t' :: rest)))%string.
    rewrite (runs_across _ _ _ _ _ space_is_not_word), IH. reflexivity.
Qed.

Lemma filter_flat_map {A B} (p : B -> bool) (f : A -> list B) l :
  List.filter p (flat_map f l) = flat_map (fun x => List.filter p (f x)) l.
Proof.
  induction l as [|x l IH]; simpl; [reflexivity|].
  rewrite filter_app, IH. reflexivity.
Qed.

Lemma spec_tokens_per_title titles :
  spec_tokens titles
  = flat_map (fun t => List.filter
                         (fun w => negb ((String.length w <=? 2)%nat || is_stopword w))
                         (Re.findall_words (Str.lower t))) titles.
Proof.
  unfold spec_tokens. rewrite findall_words_join, filter_flat_map, flat_map_concat_map.
  rewrite List.map_map, <- flat_map_concat_map. reflexivity.
Qed.

Lemma is_word_table c :
  Char.is_word c = existsb (N.eqb (Char.code c)) word_codes.
Proof. each_char c. Qed.

Lemma lower_table c : Char.lower c = worded_lower c.
Proof. each_char c. Qed.

Lemma lower_worded s : Str.lower s = Str.map worded_lower s.
Proof. unfold Str.lower. apply map_ext, lower_table. Qed.

Lemma append_assoc (a b c : string) : ((a ++ b) ++ c = a ++ b ++ c)%string.
Proof. induction a as [|x a IH]; simpl; congruence. Qed.

Lemma append_empty (a : string) : (a ++ "")%string = a.
Proof. induction a as [|x a IH]; simpl; congruence. Qed.

Lemma all_snoc p a c :
  Str.all p a = true -> p c = true -> Str.all p (a ++ String c EmptyString) = true.
Proof. intros Ha Hc. rewrite all_append, Ha. simpl. rewrite Hc. reflexivity. Qed.

Lemma runs_are_words s :
  forall acc, Str.all Char.is_word acc = true ->
    words_of (acc ++ s) (Str.runs Char.is_word acc s).
Proof.
  induction s as [|c s IH]; intros acc Hacc.
  - rewrite append_empty. simpl. unfold Str.emit.
    destruct acc as [|x acc]; simpl; [constructor|].
    apply words_last; [discriminate | exact Hacc].
  - simpl. destruct (Char.is_word c) eqn:Ec.
    + specialize (IH _ (all_snoc _ _ _ Hacc Ec)).
      rewrite append_assoc in IH. exact IH.
    + unfold Str.emit. destruct acc as [|x acc]; simpl.
      * apply words_skip; [exact Ec|]. exact (IH EmptyString eq_refl).
      * apply (words_next (String x acc));
          [discriminate | exact Hacc | exact Ec | exact (IH EmptyString eq_refl)].
Qed.

Lemma runs_of_word w :
  forall acc, Str.all Char.is_word w = true ->
    Str.runs Char.is_word acc w = Str.emit (acc ++ w).
Proof.
  induction w as [|c w IH]; intros acc; simpl.
  - rewrite append_empty. reflexivity.
  - intros [Hc Hw]%andb_prop. rewrite Hc, (IH _ Hw), append_assoc. reflexivity.
Qed.

Lemma words_are_runs s ws : words_of s ws -> ws = Re.findall_words s.
Proof.
  unfold Re.findall_words.
  induction 1 as [|c s ws Hc _ IH|w Hn Hw|w c s ws Hn Hw Hc _ IH].
  - reflexivity.
  - simpl. rewrite Hc. exact IH.
  - rewrite (runs_of_word _ _ Hw). destruct w; [congruence | reflexivity].
  - rewrite (runs_across _ _ _ _ _ Hc), (runs_of_word _ _ Hw), <- IH.
    destruct w; [congruence | reflexivity].
Qed.

Lemma words_of_findall s ws : words_of s ws <-> ws = Re.findall_words s.
Proof.
  split; [apply words_are_runs|]. intros ->.
  exact (runs_are_words s EmptyString eq_refl).
Qed.

Lemma words_per_title titles :
  Forall2 (fun t ws => words_of (Str.map worded_lower t) ws) titles
    (List.map (fun t => Re.findall_words (Str.lower t)) titles).
Proof.
  induction titles as [|t titles IH]; simpl; constructor; [|exact IH].
  rewrite <- lower_worded. apply words_of_findall. reflexivity.
Qed.

(** C2. The top-title-words table the code computes is the one the
    specification words. The tokenizer gives the maximal runs of word
    characters ([words_of], with the word characters listed), and
    lower-casing replaces each capital letter by its small letter (the
    table of pairs). The tokens the table counts are, title by title in
    turn, the words of the lower-cased title that are longer than two
    characters and no stopword; joining the titles with a space neither
    merges nor splits tokens. The table lists distinct words with their
    number of occurrences, the more frequent first and, among equally
    frequent words, the one met first in the titles first; its length is
    200 or the number of distinct tokens if that is less; a counted word
    that is left out ranks after every word kept; and no stopword and no
    token of length <= 2 is in the table. *)
Theorem top_title_words_spec (titles : list string) :
  (forall s ws, words_of s ws <-> ws = Re.findall_words s)
  /\ (forall c, Char.is_word c = existsb (N.eqb (Char.code c)) word_codes)
  /\ (forall s, Str.lower s = Str.map worded_lower s)
  /\ (exists wss,
        Forall2 (fun t ws => words_of (Str.map worded_lower t) ws) titles wss
        /\ title_tokens titles
           = List.filter
               (fun w => negb ((String.length w <=? 2)%nat || is_stopword w))
               (concat wss))
  /\ title_tokens titles = spec_tokens titles
  /\ spec_tokens titles
     = flat_map (fun t => List.filter
                            (fun w => negb ((String.length w <=? 2)%nat || is_stopword w))
                            (Re.findall_words (Str.lower t))) titles
  /\ top_title_words titles = firstn 200 (sorted_desc (tally (spec_tokens titles)))
  /\ length (top_title_words titles)
     = Nat.min 200 (length (distinct (spec_tokens titles)))
  /\ NoDup (List.map fst (top_title_words titles))
  /\ StronglySorted (ranks_before (spec_tokens titles)) (top_title_words titles)
  /\ (forall w n, In (w, n) (top_title_words titles) ->
        In w (spec_tokens titles)
        /\ n = occurrences w (spec_tokens titles)
        /\ ~ In w stopwords
        /\ 2 < String.length w)
  /\ (forall w, In w (spec_tokens titles) ->
        ~ In (w, occurrences w (spec_tokens titles)) (top_title_words titles) ->
        forall e, In e (top_title_words titles) ->
          ranks_before (spec_tokens titles) e (w, occurrences w (spec_tokens titles))).
Proof.
  split; [exact words_of_findall|].
  split; [exact is_word_table|].
  split; [exact lower_worded|].
  split.
  { exists (List.map (fun t => Re.findall_words (Str.lower t)) titles).
    split; [apply words_per_title|].
    rewrite title_tokens_as_worded. unfold spec_tokens.
    rewrite findall_words_join, flat_map_concat_map, List.map_map. reflexivity. }
  pose proof (title_tokens_as_worded titles) as Ht.
  pose proof (title_tokens_kept titles) as Hk.
  unfold top_title_words, most_common. rewrite counter_is_tally, Ht.
  rewrite Ht in Hk. set (toks := spec_tokens titles) in *.
  set (sorted := sorted_desc (tally toks)).
  assert (Hp : Permutation sorted (tally toks)) by apply sorted_desc_perm.
  assert (Hs : StronglySorted (ranks_before toks) sorted)
    by (apply (sorted_desc_ranked
                 (fun a b => first_index (fst a) toks < first_index (fst b) toks)),
        tally_in_order).
  assert (Hin : forall e, In e (firstn 200 sorted) -> In e (tally toks)).
  { intros e He. apply (Permutation_in _ Hp).
    rewrite <- (firstn_skipn 200 sorted). apply in_or_app. left. exact He. }
  rewrite <- (firstn_skipn 200 sorted) in Hs.
  apply strongly_sorted_app in Hs. destruct Hs as [Hs Hcross].
  split; [reflexivity|]. split; [apply spec_tokens_per_title|].
  split; [reflexivity|].
  split.
  { rewrite length_firstn, (Permutation_length Hp). unfold tally.
    rewrite length_map. reflexivity. }
  split.
  { assert (Hn : NoDup (List.map fst sorted)).
    { apply (Permutation_NoDup (Permutation_map fst (Permutation_sym Hp))).
      rewrite keys_tally. apply nodup_distinct. }
    rewrite <- (firstn_skipn 200 sorted), map_app in Hn.
    exact (NoDup_app_remove_r _ _ Hn). }
  split; [exact Hs|].
  split.
  { intros w n Hwn. apply Hin, in_tally in Hwn. destruct Hwn as [Hw Hn].
    destruct (Hk w Hw). auto. }
  intros w Hw Hout e He. apply Hcross; [exact He|].
  assert (Hs' : In (w, occurrences w toks) sorted)
    by (apply (Permutation_in _ (Permutation_sym Hp)), in_tally; auto).
  rewrite <- (firstn_skipn 200 sorted) in Hs'.
  apply in_app_or in Hs'. tauto.
Qed.

(** C2, on two titles: capitals are lowered, the hyphen and the colon end
    a word and the underscore does not, "covid", "the" and "in" are
    stopwords and "19" is too short, and of the two words counted twice
    the one met first comes first. *)
Lemma top_title_words_example :
  top_title_words ["COVID-19 Vaccine Trial: the vaccine";
                   "Vaccine_trial data in 2020 trial"]
  = [("vaccine", 2); ("trial", 2); ("vaccine_trial", 1); ("data", 1); ("2020", 1)]
  /\ words_of "covid-19 vaccine trial: the vaccine"
       ["covid"; "19"; "vaccine"; "trial"; "the"; "vaccine"]
  /\ Str.map worded_lower "COVID-19 Vaccine Trial: the vaccine"
     = "covid-19 vaccine trial: the vaccine"%string
  /\ exists wss,
       Forall2 (fun t ws => words_of (Str.map worded_lower t) ws)
         ["COVID-19 Vaccine Trial: the vaccine"; "Vaccine_trial data in 2020 trial"]
         wss
       /\ title_tokens ["COVID-19 Vaccine Trial: the vaccine";
                        "Vaccine_trial data in 2020 trial"]
          = List.filter
              (fun w => negb ((String.length w <=? 2)%nat || is_stopword w))
              (concat wss).
Proof.
  pose proof (top_title_words_spec
                ["COVID-19 Vaccine Trial: the vaccine";
                 "Vaccine_trial data in 2020 trial"])
    as (Hwords & _ & _ & Htokens & _).
  split; [vm_compute; reflexivity|].
  split; [apply Hwords; vm_compute; reflexivity|].
  split; [vm_compute; reflexivity|].
  exact Htokens.
Defined.

(** C9 (as amended). The title "COVID-19 vaccine trial results" is
    tokenized into covid, 19, vaccine, trial, results; covid is dropped as
    a stopword and 19 for its length, and vaccine, trial and results, once
    each, are what the title gives to the word table. *)
Theorem covid19_title_tokens :
  Re.findall_words (Str.lower "COVID-19 vaccine trial results")
  = ["covid"; "19"; "vaccine"; "trial"; "results"]
  /\ is_stopword "covid" = true
  /\ String.length "19" <= 2
  /\ title_tokens ["COVID-19 vaccine trial results"] = ["vaccine"; "trial"; "results"]
  /\ top_title_words ["COVID-19 vaccine trial results"]
     = [("vaccine", 1); ("trial", 1); ("results", 1)].
Proof.
  split; [reflexivity|]. split; [reflexivity|]. split; [simpl; lia|].
  split; reflexivity.
Qed.

(** C9, the claim as stated fails: the tokenizer never yields the token
    covid19 for this title, so nothing is dropped under that name; the
    hyphen separates covid from 19. *)
Lemma covid19_is_not_a_token :
  ~ In "covid19" (Re.findall_words (Str.lower "COVID-19 vaccine trial results"))
  /\ In "covid" (Re.findall_words (Str.lower "COVID-19 vaccine trial results"))
  /\ In "19" (Re.findall_words (Str.lower "COVID-19 vaccine trial results")).
Proof.
  split; [|split].
  - vm_compute. intros H. repeat (destruct H as [H|H]; [discriminate|]). exact H.
  - vm_compute. auto.
  - vm_compute. auto 6.
Qed.

(* ================================================================== *)
(** * Further properties of the two scripts *)

(* ------------------------------------------------------------------ *)
(** ** Frames: labels and shape *)

Lemma labels_setitem df key s : labels (setitem df key s) = add_label (labels df) key.
Proof.
  unfold setitem, add_label. fold (has_column df key).
  destruct (has_column df key); unfold labels; simpl.
  - rewrite List.map_map. apply List.map_ext. intros c.
    destruct (named key c); reflexivity.
  - rewrite map_app. reflexivity.
Qed.

Lemma labels_setitem_present df key s :
  has_column df key = true -> labels (setitem df key s) = labels df.
Proof.
  intros Hc. rewrite labels_setitem. unfold add_label.
  fold (has_column df key). rewrite Hc. reflexivity.
Qed.

Lemma labels_assign key vals cols :
  List.map fst (assign_columns key vals cols) = List.map fst cols.
Proof.
  revert vals. induction cols as [|c cols IH]; intros vals; simpl; [reflexivity|].
  destruct (named key c); [destruct vals|]; simpl; rewrite IH; reflexivity.
Qed.

Lemma labels_setitem_frame df key vals : labels (setitem_frame df key vals) = labels df.
Proof. apply labels_assign. Qed.

Lemma has_column_labels df df' key :
  labels df' = labels df -> has_column df' key = has_column df key.
Proof. unfold has_column. intros ->. reflexivity. Qed.

Lemma add_label_present ls key :
  existsb (String.eqb key) ls = true -> add_label ls key = ls.
Proof. unfold add_label. intros ->. reflexivity. Qed.

Lemma existsb_add_label ls key k :
  existsb (String.eqb k) (add_label ls key)
  = existsb (String.eqb k) ls || String.eqb k key.
Proof.
  unfold add_label. destruct (existsb (String.eqb key) ls) eqn:E.
  - destruct (String.eqb k key) eqn:Ek; [|rewrite orb_false_r; reflexivity].
    apply String.eqb_eq in Ek. subst. rewrite E. reflexivity.
  - rewrite existsb_app. simpl. rewrite orb_false_r. reflexivity.
Qed.

Lemma well_formed_named df key s :
  well_formed df -> In s (columns_named df key) -> series_length s = nrows df.
Proof.
  unfold well_formed, columns_named. intros Hw Hs.
  apply in_map_iff in Hs. destruct Hs as (c & <- & Hc).
  apply filter_In in Hc. rewrite Forall_forall in Hw. apply Hw, Hc.
Qed.

Lemma well_formed_setitem df key s :
  well_formed df -> series_length s = nrows df -> well_formed (setitem df key s).
Proof.
  unfold well_formed, setitem. intros Hw Hs.
  destruct (has_column df key); simpl.
  - apply Forall_map. revert Hw. apply Forall_impl. intros c Hc.
    destruct (named key c); simpl; assumption.
  - apply Forall_app. split; [exact Hw | repeat constructor; exact Hs].
Qed.

Lemma well_formed_setitem_frame df key vals :
  well_formed df ->
  Forall (fun s => series_length s = nrows df) vals ->
  well_formed (setitem_frame df key vals).
Proof.
  unfold well_formed, setitem_frame. simpl. intros Hw Hv. revert vals Hv.
  induction Hw as [|c cols Hc _ IH]; intros vals Hv; simpl; [constructor|].
  destruct (named key c).
  - destruct Hv as [|v vals Hv1 Hv2]; constructor; auto.
  - constructor; auto.
Qed.

Lemma fillna_length v s s' : fillna v s = Ok s' -> series_length s' = series_length s.
Proof.
  destruct s as [xs|xs|xs]; simpl.
  - intros [= <-]. apply length_map.
  - destruct (no_nulls (Dates xs)); [intros [= <-]; reflexivity | discriminate].
  - destruct (no_nulls (Ints xs)); [intros [= <-]; reflexivity | discriminate].
Qed.

Lemma astype_str_length s s' :
  astype_str s = Ok s' -> series_length s' = series_length s.
Proof.
  destruct s as [xs|xs|xs]; simpl; try discriminate.
  intros [= <-]. apply length_map.
Qed.

Lemma rmapM_length {A B} (f : A -> result B) xs ys :
  rmapM f xs = Ok ys -> length ys = length xs.
Proof. intros Hm. symmetry. exact (Forall2_length (rmapM_ok _ _ _ Hm)). Qed.

Section Shape.

Context `{Pandas}.

Lemma to_datetime_length mode s pt :
  to_datetime mode (One s) = Ok pt -> series_length pt = series_length s.
Proof.
  destruct s as [xs|xs|xs]; simpl.
  - intros (ts & Hts & ->)%rmap_ok. simpl. exact (rmapM_length _ _ _ Hts).
  - intros [= <-]. reflexivity.
  - intros (ts & Hts & ->)%rmap_ok. simpl. exact (rmapM_length _ _ _ Hts).
Qed.

Lemma derive_year_shape df df1 :
  derive_year df = Ok df1 ->
  labels df1 = add_label (labels df) "year"
  /\ (well_formed df -> well_formed df1).
Proof.
  unfold derive_year. destruct (has_column df "publish_time") eqn:Hc.
  - intros (pt & Hpt & (y & Hy & [= <-])%rbind_ok)%rbind_ok.
    split.
    + rewrite labels_setitem, labels_setitem_present by exact Hc. reflexivity.
    + intros Hw.
      destruct (getitem df "publish_time") as [|s|ss] eqn:Hg; try discriminate.
      apply getitem_one in Hg.
      assert (Ls : series_length pt = nrows df).
      { rewrite (to_datetime_length _ _ _ Hpt).
        apply (well_formed_named df "publish_time" s Hw). rewrite Hg. left. reflexivity. }
      assert (G : getitem (setitem df "publish_time" pt) "publish_time" = One pt).
      { apply getitem_one. rewrite columns_named_setitem_same, Hc, Hg. reflexivity. }
      rewrite G in Hy. destruct pt as [xs|xs|xs]; try discriminate.
      injection Hy as <-.
      apply well_formed_setitem; [apply well_formed_setitem; assumption|].
      rewrite nrows_setitem. simpl in *. rewrite length_map. exact Ls.
  - intros [= <-]. split; [apply labels_setitem|].
    intros Hw. apply well_formed_setitem; [exact Hw|]. simpl. apply repeat_length.
Qed.

End Shape.

Lemma fill_text_shape key df df1 :
  fill_text key df = Ok df1 ->
  labels df1 = add_label (labels df) key
  /\ (well_formed df -> well_formed df1).
Proof.
  unfold fill_text. destruct (has_column df key) eqn:Hc.
  - destruct (getitem df key) as [|s|ss] eqn:Hg; [discriminate| |].
    + intros (s' & Hs' & [= <-])%rbind_ok. apply getitem_one in Hg.
      split; [apply labels_setitem|].
      intros Hw. apply well_formed_setitem; [exact Hw|].
      rewrite (fillna_length _ _ _ Hs').
      apply (well_formed_named df key s Hw). rewrite Hg. left. reflexivity.
    + intros (ss' & Hss' & [= <-])%rbind_ok.
      apply getitem_many in Hg. destruct Hg as [Hg _].
      split.
      * rewrite labels_setitem_frame. unfold add_label.
        fold (has_column df key). rewrite Hc. reflexivity.
      * intros Hw. apply well_formed_setitem_frame; [exact Hw|].
        apply rmapM_ok in Hss'.
        assert (Hin : Forall (fun s => series_length s = nrows df) ss)
          by (apply Forall_forall; intros s Hs;
              apply (well_formed_named df key s Hw); rewrite Hg; exact Hs).
        clear Hg. induction Hss' as [|s s' l l' Hs _ IH]; [constructor|].
        inversion Hin as [|? ? Hlen Hrest]; subst.
        constructor; [|apply IH; assumption].
        rewrite (fillna_length _ _ _ Hs). exact Hlen.
  - intros [= <-]. split; [apply labels_setitem|].
    intros Hw. apply well_formed_setitem; [exact Hw|]. simpl. apply repeat_length.
Qed.

Lemma derive_word_count_shape src dst df df1 :
  derive_word_count src dst df = Ok df1 ->
  labels df1 = add_label (labels df) dst
  /\ (well_formed df -> well_formed df1).
Proof.
  unfold derive_word_count. intros (c & Hc & [= <-])%rbind_ok.
  split; [apply labels_setitem|].
  intros Hw. apply well_formed_setitem; [exact Hw|].
  unfold str_split_len in Hc.
  destruct (getitem df src) as [|[xs|xs|xs]|ss] eqn:Hg; try discriminate.
  injection Hc as <-. apply getitem_one in Hg. simpl. rewrite length_map.
  apply (well_formed_named df src (Text xs) Hw). rewrite Hg. left. reflexivity.
Qed.

Lemma fill_text_field_shape key df df1 :
  fill_text_field key df = Ok df1 ->
  labels df1 = labels df /\ (well_formed df -> well_formed df1).
Proof.
  unfold fill_text_field. destruct (getitem df key) as [|s|ss] eqn:Hg;
    [discriminate| |].
  - intros (s1 & H1 & (s2 & H2 & [= <-])%rbind_ok)%rbind_ok.
    apply getitem_one in Hg.
    assert (Hc : has_column df key = true) by (apply has_column_true; congruence).
    split; [apply labels_setitem_present, Hc|].
    intros Hw. apply well_formed_setitem; [exact Hw|].
    rewrite (astype_str_length _ _ H2), (fillna_length _ _ _ H1).
    apply (well_formed_named df key s Hw). rewrite Hg. left. reflexivity.
  - intros (ss1 & H1 & (ss2 & H2 & [= <-])%rbind_ok)%rbind_ok.
    apply getitem_many in Hg. destruct Hg as [Hg _].
    split; [apply labels_setitem_frame|].
    intros Hw. apply well_formed_setitem_frame; [exact Hw|].
    apply rmapM_ok in H1, H2.
    assert (Hin : Forall (fun s => series_length s = nrows df) ss)
      by (apply Forall_forall; intros s Hs;
          apply (well_formed_named df key s Hw); rewrite Hg; exact Hs).
    clear Hg. revert ss2 H2.
    induction H1 as [|s s1 l l1 Hs _ IH]; intros ss2 H2;
      inversion H2 as [|a b la lb Ha Hl]; subst; [constructor|].
    inversion Hin as [|? ? Hlen Hrest]; subst.
    constructor; [|apply IH; assumption].
    rewrite (astype_str_length _ _ Ha), (fillna_length _ _ _ Hs). exact Hlen.
Qed.

Lemma well_formed_normalize df : well_formed df -> well_formed (normalize_columns df).
Proof.
  unfold well_formed, normalize_columns. simpl. intros Hw.
  apply Forall_map. revert Hw. apply Forall_impl. intros c Hc. exact Hc.
Qed.

Lemma add_labels_extend ks : forall ls,
  exists extra, fold_left add_label ks ls = ls ++ extra.
Proof.
  induction ks as [|k ks IH]; intros ls; simpl.
  - exists []. symmetry. apply app_nil_r.
  - destruct (IH (add_label ls k)) as (extra & ->). unfold add_label.
    destruct (existsb (String.eqb k) ls).
    + eauto.
    + exists ([k] ++ extra). rewrite app_assoc. reflexivity.
Qed.

Lemma existsb_add_labels ks : forall ls k,
  existsb (String.eqb k) (fold_left add_label ks ls)
  = existsb (String.eqb k) ls || existsb (String.eqb k) ks.
Proof.
  induction ks as [|k' ks IH]; intros ls k; simpl.
  - rewrite orb_false_r. reflexivity.
  - rewrite IH, existsb_add_label, <- orb_assoc. reflexivity.
Qed.

(* ------------------------------------------------------------------ *)
(** ** Batch explorer: what the cleaned frame keeps *)

Section CleanedFrame.

Context `{Pandas}.

Lemma derive_year_publish_time df df1 xs :
  derive_year df = Ok df1 ->
  getitem df "publish_time" = One (Text xs) ->
  columns_named df1 "publish_time" = [Dates (List.map coerce_cell xs)].
Proof.
  unfold derive_year. intros Hd Hg.
  assert (Hc : has_column df "publish_time" = true).
  { apply has_column_true. apply getitem_one in Hg. congruence. }
  rewrite Hc, Hg, to_datetime_coerce_text in Hd. simpl in Hd.
  apply getitem_one in Hg.
  assert (G : getitem (setitem df "publish_time" (Dates (List.map coerce_cell xs)))
                "publish_time" = One (Dates (List.map coerce_cell xs))).
  { apply getitem_one. rewrite columns_named_setitem_same, Hc, Hg. reflexivity. }
  rewrite G in Hd. simpl in Hd. injection Hd as <-.
  rewrite columns_named_setitem_other by reflexivity.
  rewrite columns_named_setitem_same, Hc, Hg. reflexivity.
Qed.

Lemma clean_after_year df log cleaned :
  clean df = (log, Ok cleaned) ->
  exists df1,
    derive_year (normalize_columns df) = Ok df1
    /\ (forall key,
          String.eqb "abstract" key = false ->
          String.eqb "title" key = false ->
          String.eqb "abstract_word_count" key = false ->
          String.eqb "title_word_count" key = false ->
          columns_named cleaned key = columns_named df1 key).
Proof.
  intros Hc.
  destruct (clean_steps _ _ _ Hc) as (df1 & df2 & df3 & df4 & H1 & H2 & H3 & H4 & H5).
  destruct (fill_text_spec _ _ _ H2) as (_ & O2 & _).
  destruct (fill_text_spec _ _ _ H3) as (_ & O3 & _).
  destruct (derive_word_count_spec "abstract" "abstract_word_count" _ _ eq_refl H4)
    as (_ & _ & _ & _ & O4).
  destruct (derive_word_count_spec "title" "title_word_count" _ _ eq_refl H5)
    as (_ & _ & _ & _ & O5).
  exists df1. split; [exact H1|].
  intros key Ka Kt Kaw Ktw.
  rewrite (O5 key Ktw), (O4 key Kaw), (O3 key Kt). apply (O2 key Ka).
Qed.

End CleanedFrame.

(** X1. When the cleaning returns, the cleaned frame has as many rows as
    the input, keeps every normalized input header at its place, and
    after them has, in this order, those of [year], [abstract], [title],
    [abstract_word_count] and [title_word_count] the input did not
    already have; if every input column has one cell per row, so has
    every column of the cleaned frame. *)
Theorem cleaned_frame_schema `{Pandas} (df cleaned : DataFrame) (log : list string) :
  clean df = (log, Ok cleaned) ->
  nrows cleaned = nrows df
  /\ labels cleaned
     = fold_left add_label
         ["year"; "abstract"; "title"; "abstract_word_count"; "title_word_count"]
         (List.map normalize_name (labels df))
  /\ firstn (length (labels df)) (labels cleaned)
     = List.map normalize_name (labels df)
  /\ (forall key, In key ["year"; "abstract"; "title";
                          "abstract_word_count"; "title_word_count"] ->
        has_column cleaned key = true)
  /\ (well_formed df -> well_formed cleaned).
Proof.
  intros Hc.
  destruct (clean_steps _ _ _ Hc) as (df1 & df2 & df3 & df4 & H1 & H2 & H3 & H4 & H5).
  destruct (derive_year_shape _ _ H1) as (L1 & W1).
  destruct (fill_text_shape _ _ _ H2) as (L2 & W2).
  destruct (fill_text_shape _ _ _ H3) as (L3 & W3).
  destruct (derive_word_count_shape _ _ _ _ H4) as (L4 & W4).
  destruct (derive_word_count_shape _ _ _ _ H5) as (L5 & W5).
  assert (L0 : labels (normalize_columns df) = List.map normalize_name (labels df)).
  { unfold labels, normalize_columns. simpl. rewrite !List.map_map. reflexivity. }
  assert (L : labels cleaned
              = fold_left add_label
                  ["year"; "abstract"; "title"; "abstract_word_count"; "title_word_count"]
                  (List.map normalize_name (labels df))).
  { simpl. rewrite L5, L4, L3, L2, L1, L0. reflexivity. }
  split.
  { destruct (clean_text_fields _ _ _ Hc) as (xa & xt & _ & _ & _ & _ & _ & _ & N & _).
    exact N. }
  split; [exact L|].
  split.
  { rewrite L.
    destruct (add_labels_extend
                ["year"; "abstract"; "title"; "abstract_word_count"; "title_word_count"]
                (List.map normalize_name (labels df))) as (extra & ->).
    rewrite <- (length_map normalize_name (labels df)).
    rewrite firstn_app, Nat.sub_diag, firstn_all. simpl. apply app_nil_r. }
  split.
  { intros key Hk. unfold has_column. rewrite L, existsb_add_labels.
    apply orb_true_iff. right. apply existsb_exists. exists key.
    split; [exact Hk | apply String.eqb_refl]. }
  intros Hw. apply W5, W4, W3, W2, W1, well_formed_normalize, Hw.
Qed.

(** X1, on the example table. *)
Lemma cleaned_frame_schema_example :
  exists log cleaned,
    clean (H := Example.pandas) Example.papers = (log, Ok cleaned)
    /\ labels cleaned
       = ["title"; "publish_time"; "abstract"; "authors"; "journal"; "source_x";
          "year"; "abstract_word_count"; "title_word_count"]
    /\ (nrows cleaned = nrows Example.papers
        /\ labels cleaned
           = fold_left add_label
               ["year"; "abstract"; "title"; "abstract_word_count"; "title_word_count"]
               (List.map normalize_name (labels Example.papers))
        /\ firstn (length (labels Example.papers)) (labels cleaned)
           = List.map normalize_name (labels Example.papers)
        /\ (forall key, In key ["year"; "abstract"; "title";
                                "abstract_word_count"; "title_word_count"] ->
              has_column cleaned key = true)
        /\ (well_formed Example.papers -> well_formed cleaned)).
Proof.
  eexists _, _. split; [vm_compute; reflexivity|]. split; [reflexivity|].
  eapply (cleaned_frame_schema (H := Example.pandas) Example.papers).
  vm_compute. reflexivity.
Defined.

(** X2. When the cleaning returns, every column whose normalized header
    is none of [publish_time], [year], [abstract], [title],
    [abstract_word_count], [title_word_count] is read back with the data
    it had; and a [publish_time] text column is replaced by the parsed
    dates, so the text of a date that does not parse is not in the cleaned
    frame: its cell is null. *)
Theorem cleaned_frame_passes_through `{Pandas}
    (df cleaned : DataFrame) (log : list string) :
  clean df = (log, Ok cleaned) ->
  (forall key,
     ~ In key ["publish_time"; "year"; "abstract"; "title";
               "abstract_word_count"; "title_word_count"] ->
     columns_named cleaned key = columns_named (normalize_columns df) key)
  /\ (forall xs,
        getitem (normalize_columns df) "publish_time" = One (Text xs) ->
        getitem cleaned "publish_time" = One (Dates (List.map coerce_cell xs))
        /\ (forall i s, nth_error xs i = Some (Some s) ->
              parse_datetime s = None ->
              nth_error (List.map coerce_cell xs) i = Some None)).
Proof.
  intros Hc. destruct (clean_after_year _ _ _ Hc) as (df1 & H1 & Hsame).
  split.
  - intros key Hk.
    assert (N : forall k, k <> key -> String.eqb k key = false)
      by (intros k; apply String.eqb_neq).
    rewrite Hsame by (apply N; intros <-; apply Hk; simpl; tauto).
    apply (derive_year_other _ _ _ H1);
      apply N; intros <-; apply Hk; simpl; tauto.
  - intros xs Hg. split.
    + apply getitem_one. rewrite (Hsame "publish_time") by reflexivity.
      exact (derive_year_publish_time _ _ _ H1 Hg).
    + intros i s Hi Hs. rewrite nth_error_map, Hi. simpl. rewrite Hs. reflexivity.
Qed.

(** X2, on the example table: "soon" does not parse and is gone; the
    authors column is as it was. *)
Lemma cleaned_frame_passes_through_example :
  exists log cleaned,
    clean (H := Example.pandas) Example.papers = (log, Ok cleaned)
    /\ getitem cleaned "publish_time"
       = One (Dates [Some {| ts_year := 2020; ts_month := 3; ts_day := 15 |}; None])
    /\ ((forall key,
           ~ In key ["publish_time"; "year"; "abstract"; "title";
                     "abstract_word_count"; "title_word_count"] ->
           columns_named cleaned key
           = columns_named (normalize_columns Example.papers) key)
        /\ (forall xs,
              getitem (normalize_columns Example.papers) "publish_time" = One (Text xs) ->
              getitem cleaned "publish_time"
              = One (Dates (List.map (coerce_cell (H := Example.pandas)) xs))
              /\ (forall i s, nth_error xs i = Some (Some s) ->
                    parse_datetime (Pandas := Example.pandas) s = None ->
                    nth_error (List.map (coerce_cell (H := Example.pandas)) xs) i
                    = Some None))).
Proof.
  eexists _, _. split; [vm_compute; reflexivity|]. split; [reflexivity|].
  eapply (cleaned_frame_passes_through (H := Example.pandas) Example.papers).
  vm_compute. reflexivity.
Defined.

(* ------------------------------------------------------------------ *)
(** ** Interactive viewer: what the loaded frame holds *)

Lemma has_column_same_columns df df' key :
  columns_named df' key = columns_named df key ->
  has_column df' key = has_column df key.
Proof.
  intros E. destruct (has_column df key) eqn:Hc.
  - apply has_column_true. rewrite E. apply has_column_true, Hc.
  - apply has_column_false. rewrite E. apply has_column_false, Hc.
Qed.

Lemma fill_text_field_cases key df :
  at_most_once df key ->
  (forall s, In s (columns_named df key) -> is_text s = true) ->
  (has_column df key = false /\ fill_text_field key df = Raise AttributeError)
  \/ (has_column df key = true /\ exists df2, fill_text_field key df = Ok df2).
Proof.
  intros Hu Ht. destruct (has_column df key) eqn:Hc.
  - right. split; [reflexivity|].
    destruct (fill_text_field_total key df) as (df2 & _ & H2 & _); eauto.
    apply has_column_true in Hc. unfold exactly_once, at_most_once in *.
    destruct (columns_named df key) as [|s [|s' l]]; simpl in *; try lia. congruence.
  - left. split; [reflexivity|]. apply has_column_false, getitem_missing in Hc.
    unfold fill_text_field. rewrite Hc. reflexivity.
Qed.

Section LoadedFrame.

Context `{Pandas}.

Lemma load_df_steps df viewed :
  load_df df = Ok viewed ->
  exists df1 df2 df3 df4 df5 df6,
    derive_year (normalize_columns df) = Ok df1
    /\ fill_text_field "title" df1 = Ok df2
    /\ fill_text_field "abstract" df2 = Ok df3
    /\ fill_text_field "authors" df3 = Ok df4
    /\ fill_text_field "journal" df4 = Ok df5
    /\ fill_text_field "source_x" df5 = Ok df6
    /\ derive_word_count "abstract" "abstract_word_count" df6 = Ok viewed.
Proof.
  unfold load_df.
  intros (df1 & H1 & (df2 & H2 & (df3 & H3 & (df4 & H4 & (df5 & H5 &
          (df6 & H6 & H7)%rbind_ok)%rbind_ok)%rbind_ok)%rbind_ok)%rbind_ok)%rbind_ok.
  exists df1, df2, df3, df4, df5, df6. repeat split; assumption.
Qed.

Lemma load_df_shape df viewed :
  load_df df = Ok viewed ->
  nrows viewed = nrows df
  /\ labels viewed
     = fold_left add_label ["year"; "abstract_word_count"]
         (List.map normalize_name (labels df))
  /\ (well_formed df -> well_formed viewed).
Proof.
  intros Hl.
  destruct (load_df_steps _ _ Hl)
    as (df1 & df2 & df3 & df4 & df5 & df6 & H1 & H2 & H3 & H4 & H5 & H6 & H7).
  destruct (derive_year_shape _ _ H1) as (L1 & W1).
  destruct (fill_text_field_shape _ _ _ H2) as (L2 & W2).
  destruct (fill_text_field_shape _ _ _ H3) as (L3 & W3).
  destruct (fill_text_field_shape _ _ _ H4) as (L4 & W4).
  destruct (fill_text_field_shape _ _ _ H5) as (L5 & W5).
  destruct (fill_text_field_shape _ _ _ H6) as (L6 & W6).
  destruct (derive_word_count_shape _ _ _ _ H7) as (L7 & W7).
  destruct (fill_text_field_spec _ _ _ H2) as (N2 & _).
  destruct (fill_text_field_spec _ _ _ H3) as (N3 & _).
  destruct (fill_text_field_spec _ _ _ H4) as (N4 & _).
  destruct (fill_text_field_spec _ _ _ H5) as (N5 & _).
  destruct (fill_text_field_spec _ _ _ H6) as (N6 & _).
  destruct (derive_word_count_spec "abstract" "abstract_word_count" _ _ eq_refl H7)
    as (_ & _ & _ & N7 & _).
  destruct (derive_year_other _ _ "title" H1 eq_refl eq_refl) as (N1 & _).
  assert (L0 : labels (normalize_columns df) = List.map normalize_name (labels df)).
  { unfold labels, normalize_columns. simpl. rewrite !List.map_map. reflexivity. }
  split; [rewrite N7, N6, N5, N4, N3, N2, N1; reflexivity|].
  split; [simpl; rewrite L7, L6, L5, L4, L3, L2, L1, L0; reflexivity|].
  intros Hw. apply W7, W6, W5, W4, W3, W2, W1, well_formed_normalize, Hw.
Qed.

Lemma load_df_has_text_field df viewed key :
  load_df df = Ok viewed -> In key text_fields -> has_column viewed key = true.
Proof.
  intros Hl Hk. apply has_column_true.
  exact (proj1 (load_df_text_fields _ _ _ Hl Hk)).
Qed.

Lemma load_df_raises df :
  text_table df ->
  (forall key, In key ("publish_time" :: text_fields) ->
     at_most_once (normalize_columns df) key) ->
  (exists key, In key text_fields /\ has_column (normalize_columns df) key = false) ->
  load_df df = Raise AttributeError.
Proof.
  intros Ht Hu (bad & Hbad & Habs). set (df0 := normalize_columns df) in *.
  pose proof (text_table_normalize _ Ht) as Ht0. fold df0 in Ht0.
  destruct (derive_year_total df0 (Hu "publish_time" (or_introl eq_refl)) Ht0)
    as (df1 & H1 & _ & _).
  assert (Y : forall k, String.eqb "publish_time" k = false ->
                        String.eqb "year" k = false ->
                        columns_named df1 k = columns_named df0 k)
    by (intros k Hp Hy; apply (derive_year_other _ _ _ H1 Hp Hy)).
  assert (C : forall dfi key,
             In key text_fields ->
             columns_named dfi key = columns_named df0 key ->
             (has_column df0 key = false
              /\ fill_text_field key dfi = Raise AttributeError)
             \/ (has_column df0 key = true
                 /\ exists df2, fill_text_field key dfi = Ok df2)).
  { intros dfi key Hk E.
    rewrite <- (has_column_same_columns df0 dfi key E).
    apply fill_text_field_cases.
    - unfold at_most_once. rewrite E. apply Hu. right. exact Hk.
    - intros s. rewrite E. apply text_table_named, Ht0. }
  unfold load_df. fold df0. rewrite H1. simpl.
  destruct (C df1 "title") as [[_ ->]|[P2 (df2 & H2)]];
    [simpl; auto | apply Y; reflexivity | reflexivity |].
  rewrite H2. simpl. destruct (fill_text_field_spec _ _ _ H2) as (_ & O2 & _).
  destruct (C df2 "abstract") as [[_ ->]|[P3 (df3 & H3)]];
    [simpl; auto | rewrite (O2 "abstract" eq_refl); apply Y; reflexivity
    | reflexivity |].
  rewrite H3. simpl. destruct (fill_text_field_spec _ _ _ H3) as (_ & O3 & _).
  destruct (C df3 "authors") as [[_ ->]|[P4 (df4 & H4)]];
    [simpl; auto
    | rewrite (O3 "authors" eq_refl), (O2 "authors" eq_refl); apply Y; reflexivity
    | reflexivity |].
  rewrite H4. simpl. destruct (fill_text_field_spec _ _ _ H4) as (_ & O4 & _).
  destruct (C df4 "journal") as [[_ ->]|[P5 (df5 & H5)]];
    [simpl; auto
    | rewrite (O4 "journal" eq_refl), (O3 "journal" eq_refl), (O2 "journal" eq_refl);
      apply Y; reflexivity
    | reflexivity |].
  rewrite H5. simpl. destruct (fill_text_field_spec _ _ _ H5) as (_ & O5 & _).
  destruct (C df5 "source_x") as [[_ ->]|[P6 (df6 & H6)]];
    [simpl; auto 6
    | rewrite (O5 "source_x" eq_refl), (O4 "source_x" eq_refl),
        (O3 "source_x" eq_refl), (O2 "source_x" eq_refl);
      apply Y; reflexivity
    | reflexivity |].
  exfalso. simpl in Hbad.
  destruct Hbad as [<-|[<-|[<-|[<-|[<-|[]]]]]]; congruence.
Qed.

End LoadedFrame.

(** X3. On a table read from text whose normalized headers name
    [publish_time] and each of the five text fields at most once, the
    viewer's loading returns when all five text fields are among the
    headers, and raises [AttributeError] when one of them is not. *)
Theorem load_df_needs_the_text_fields `{Pandas} (df : DataFrame) :
  text_table df ->
  (forall key, In key ("publish_time" :: text_fields) ->
     at_most_once (normalize_columns df) key) ->
  ((forall key, In key text_fields ->
      has_column (normalize_columns df) key = true) ->
   exists viewed, load_df df = Ok viewed)
  /\ ((exists key, In key text_fields
                   /\ has_column (normalize_columns df) key = false) ->
      load_df df = Raise AttributeError).
Proof.
  intros Ht Hu. split; [|apply load_df_raises; assumption].
  intros Hall. apply load_df_total; [exact Ht | apply Hu; left; reflexivity |].
  intros key Hk. specialize (Hall key Hk). apply has_column_true in Hall.
  specialize (Hu key (or_intror Hk)). unfold exactly_once, at_most_once in *.
  destruct (columns_named (normalize_columns df) key) as [|s [|s' l]];
    simpl in *; try lia. congruence.
Qed.

(** X3, on the table with a title column alone: no abstract, no load. *)
Lemma load_df_needs_the_text_fields_example :
  load_df (H := Example.pandas) Example.titles_only = Raise AttributeError.
Proof.
  apply (load_df_needs_the_text_fields (H := Example.pandas) Example.titles_only).
  - unfold text_table. simpl. repeat constructor.
  - intros key [<-|[<-|[<-|[<-|[<-|[<-|[]]]]]]]; vm_compute; lia.
  - exists "abstract". split; [simpl; auto | reflexivity].
Defined.

(** X4. When the loading returns, the loaded frame has as many rows as
    the input and its headers are the normalized input headers followed by
    those of [year] and [abstract_word_count] the input lacked; every
    column keeps one cell per row. The list of missing required columns
    the viewer warns about is empty, or is [publish_time] alone when the
    input has no such header; and all five columns of the data table are
    found. *)
Theorem loaded_frame_schema `{Pandas} (df viewed : DataFrame) :
  load_df df = Ok viewed ->
  nrows viewed = nrows df
  /\ labels viewed
     = fold_left add_label ["year"; "abstract_word_count"]
         (List.map normalize_name (labels df))
  /\ (well_formed df -> well_formed viewed)
  /\ missing viewed
     = (if has_column (normalize_columns df) "publish_time"
        then [] else ["publish_time"])
  /\ display_cols viewed
     = ["title"; "authors"; "journal"; "year"; "abstract_word_count"].
Proof.
  intros Hl. destruct (load_df_shape _ _ Hl) as (N & L & W).
  split; [exact N|]. split; [exact L|]. split; [exact W|].
  assert (T : forall key, In key text_fields -> has_column viewed key = true)
    by (intros key; apply (load_df_has_text_field df), Hl).
  assert (D : forall key, has_column viewed key
                          = has_column (normalize_columns df) key
                            || existsb (String.eqb key) ["year"; "abstract_word_count"]).
  { intros key. unfold has_column at 1. rewrite L, existsb_add_labels.
    f_equal. unfold has_column, labels, normalize_columns. simpl.
    rewrite !List.map_map. reflexivity. }
  split.
  - unfold missing, required. simpl.
    rewrite (T "title"), (T "abstract"), (T "authors"), (T "journal"),
      (T "source_x") by (simpl; auto 6).
    simpl. rewrite (D "publish_time"). simpl. rewrite orb_false_r.
    destruct (has_column (normalize_columns df) "publish_time"); reflexivity.
  - unfold display_cols. simpl.
    rewrite (T "title"), (T "authors"), (T "journal") by (simpl; auto 6).
    rewrite (D "year"), (D "abstract_word_count"). simpl.
    rewrite !orb_true_r. reflexivity.
Qed.

(** X4, on the example table. *)
Lemma loaded_frame_schema_example :
  exists viewed,
    load_df (H := Example.pandas) Example.papers = Ok viewed
    /\ labels viewed
       = ["title"; "publish_time"; "abstract"; "authors"; "journal"; "source_x";
          "year"; "abstract_word_count"]
    /\ (nrows viewed = nrows Example.papers
        /\ labels viewed
           = fold_left add_label ["year"; "abstract_word_count"]
               (List.map normalize_name (labels Example.papers))
        /\ (well_formed Example.papers -> well_formed viewed)
        /\ missing viewed
           = (if has_column (normalize_columns Example.papers) "publish_time"
              then [] else ["publish_time"])
        /\ display_cols viewed
           = ["title"; "authors"; "journal"; "year"; "abstract_word_count"]).
Proof.
  eexists. split; [vm_compute; reflexivity|]. split; [reflexivity|].
  apply (loaded_frame_schema (H := Example.pandas) Example.papers).
  vm_compute. reflexivity.
Defined.

(* ------------------------------------------------------------------ *)
(** ** Interactive viewer: year bounds and row selection *)

Lemma in_dropna {A} (a : A) xs : In a (dropna xs) <-> In (Some a) xs.
Proof.
  unfold dropna. rewrite in_flat_map. split.
  - intros ([b|] & Hx & Hb); simpl in Hb; [|tauto].
    destruct Hb as [->|[]]. exact Hx.
  - intros Hx. exists (Some a). split; [exact Hx | left; reflexivity].
Qed.

Lemma any_present_dropna {A} (xs : list (option A)) :
  any (List.map present xs) = negb (match dropna xs with [] => true | _ => false end).
Proof.
  induction xs as [|[a|] xs IH]; simpl; [reflexivity | reflexivity | exact IH].
Qed.

Lemma fold_min_bound l : forall a,
  (forall x, In x (a :: l) -> (fold_left Z.min l a <= x)%Z)
  /\ In (fold_left Z.min l a) (a :: l).
Proof.
  induction l as [|b l IH]; intros a; simpl.
  - split; [intros x [<-|[]]; lia | auto].
  - destruct (IH (Z.min a b)) as [Hle Hin]. split.
    + intros x [<-|[<-|Hx]].
      * specialize (Hle (Z.min a b) (or_introl eq_refl)). lia.
      * specialize (Hle (Z.min a b) (or_introl eq_refl)). lia.
      * apply Hle. right. exact Hx.
    + destruct Hin as [Hin|Hin]; [|auto].
      rewrite <- Hin. destruct (Z.min_spec a b) as [[_ ->]|[_ ->]]; auto.
Qed.

Lemma fold_max_bound l : forall a,
  (forall x, In x (a :: l) -> (x <= fold_left Z.max l a)%Z)
  /\ In (fold_left Z.max l a) (a :: l).
Proof.
  induction l as [|b l IH]; intros a; simpl.
  - split; [intros x [<-|[]]; lia | auto].
  - destruct (IH (Z.max a b)) as [Hle Hin]. split.
    + intros x [<-|[<-|Hx]].
      * specialize (Hle (Z.max a b) (or_introl eq_refl)). lia.
      * specialize (Hle (Z.max a b) (or_introl eq_refl)). lia.
      * apply Hle. right. exact Hx.
    + destruct Hin as [Hin|Hin]; [|auto].
      rewrite <- Hin. destruct (Z.max_spec a b) as [[_ ->]|[_ ->]]; auto.
Qed.

Lemma default_range_encloses (df : DataFrame) (ys : list (option Z)) :
  getitem df "year" = One (Ints ys) ->
  exists lo hi,
    default_range df = Ok (lo, hi)
    /\ (forall z, In (Some z) ys -> (lo <= z <= hi)%Z).
Proof.
  intros Hg. unfold default_range, year_extreme, year_any.
  rewrite Hg. simpl. rewrite any_present_dropna.
  destruct (dropna ys) as [|y l] eqn:E; simpl.
  - exists 2018%Z, 2023%Z. split; [reflexivity|].
    intros z Hz. apply in_dropna in Hz. rewrite E in Hz. destruct Hz.
  - destruct (fold_min_bound l y) as [Hmin _].
    destruct (fold_max_bound l y) as [Hmax _].
    exists (fold_left Z.min l y), (fold_left Z.max l y).
    split; [reflexivity|].
    intros z Hz. apply in_dropna in Hz. rewrite E in Hz.
    split; [apply Hmin, Hz | apply Hmax, Hz].
Qed.

(** X5. For a frame whose [year] is one numeric column the viewer's year
    bounds are defined: with no year in the column they are 2018 and 2023;
    otherwise they are years of the column and every year of the column
    lies between them. The lower bound never exceeds the upper one, and
    the range the filters get is the pair of bounds when they coincide
    and the slider's value otherwise. *)
Theorem year_bounds_enclose (df : DataFrame) (ys : list (option Z)) (slider : Z * Z) :
  getitem df "year" = One (Ints ys) ->
  exists lo hi,
    default_range df = Ok (lo, hi)
    /\ (lo <= hi)%Z
    /\ (forall z, In (Some z) ys -> (lo <= z <= hi)%Z)
    /\ (any (List.map present ys) = true -> In (Some lo) ys /\ In (Some hi) ys)
    /\ (any (List.map present ys) = false -> lo = 2018%Z /\ hi = 2023%Z)
    /\ year_range df slider
       = Ok (if (lo =? hi)%Z then (lo, hi) else slider).
Proof.
  intros Hg. unfold default_range, year_range, year_extreme, year_any.
  rewrite Hg. simpl. rewrite any_present_dropna.
  destruct (dropna ys) as [|y l] eqn:E; simpl.
  - exists 2018%Z, 2023%Z.
    split; [reflexivity|]. split; [lia|].
    split; [intros z Hz; apply in_dropna in Hz; rewrite E in Hz; destruct Hz|].
    split; [discriminate|]. split; [auto | reflexivity].
  - destruct (fold_min_bound l y) as [Hmin Imin].
    destruct (fold_max_bound l y) as [Hmax Imax].
    exists (fold_left Z.min l y), (fold_left Z.max l y).
    split; [reflexivity|].
    split; [specialize (Hmin y (or_introl eq_refl));
            specialize (Hmax y (or_introl eq_refl)); lia|].
    split.
    { intros z Hz. apply in_dropna in Hz. rewrite E in Hz.
      split; [apply Hmin, Hz | apply Hmax, Hz]. }
    split.
    { intros _. rewrite <- E in Imin, Imax. split; apply in_dropna; assumption. }
    split; [discriminate | reflexivity].
Qed.

(** X5, on the example loaded table: the bounds are 2019 and 2021. *)
Lemma year_bounds_example :
  default_range ExampleTables.loaded = Ok (2019, 2021)%Z
  /\ exists lo hi,
       default_range ExampleTables.loaded = Ok (lo, hi)
       /\ (lo <= hi)%Z
       /\ (forall z, In (Some z) [Some 2021; Some 2019; None; Some 2021]%Z ->
             (lo <= z <= hi)%Z)
       /\ (any (List.map present [Some 2021; Some 2019; None; Some 2021]%Z) = true ->
           In (Some lo) [Some 2021; Some 2019; None; Some 2021]%Z
           /\ In (Some hi) [Some 2021; Some 2019; None; Some 2021]%Z)
       /\ (any (List.map present [Some 2021; Some 2019; None; Some 2021]%Z) = false ->
           lo = 2018%Z /\ hi = 2023%Z)
       /\ year_range ExampleTables.loaded (2020, 2021)%Z
          = Ok (if (lo =? hi)%Z then (lo, hi) else (2020, 2021)%Z).
Proof.
  split; [reflexivity|].
  apply (year_bounds_enclose ExampleTables.loaded). reflexivity.
Defined.

Lemma select_map {A B} (f : A -> B) mask xs :
  select mask (List.map f xs) = List.map f (select mask xs).
Proof.
  revert mask. induction xs as [|x xs IH]; intros [|b mask]; simpl; try reflexivity.
  destruct b; simpl; rewrite IH; reflexivity.
Qed.

Lemma select_in {A} (a : A) mask xs : In a (select mask xs) -> In a xs.
Proof.
  revert mask. induction xs as [|x xs IH]; intros [|b mask]; simpl; try tauto.
  destruct b; simpl; intros Ha; [destruct Ha as [Ha|Ha]; [auto|]|];
    right; exact (IH _ Ha).
Qed.

Lemma select_length {A B} mask (xs : list A) (ys : list B) :
  length xs = length ys -> length (select mask xs) = length (select mask ys).
Proof.
  revert mask ys. induction xs as [|x xs IH]; intros [|b mask] [|y ys] E;
    simpl in *; try reflexivity; try discriminate.
  injection E as E. destruct b; simpl; rewrite (IH mask ys E); reflexivity.
Qed.

Lemma select_test {A} (p : A -> bool) xs : select (List.map p xs) xs = List.filter p xs.
Proof.
  induction xs as [|x xs IH]; simpl; [reflexivity|].
  destruct (p x); rewrite IH; reflexivity.
Qed.

Lemma select_positions {A} (d : A) mask xs : forall k,
  select mask xs
  = List.map (fun i => nth (i - k) xs d) (select mask (seq k (length xs))).
Proof.
  revert mask. induction xs as [|x xs IH]; intros [|b mask] k; try reflexivity.
  change (seq k (length (x :: xs))) with (k :: seq (S k) (length xs)).
  cbn [select].
  assert (T : List.map (fun i => nth (i - k) (x :: xs) d)
                (select mask (seq (S k) (length xs)))
              = List.map (fun i => nth (i - S k) xs d)
                  (select mask (seq (S k) (length xs)))).
  { apply map_ext_in. intros i Hi. apply select_in, in_seq in Hi.
    replace (i - k) with (S (i - S k)) by lia. reflexivity. }
  destruct b; cbn [List.map]; rewrite T, <- IH; [rewrite Nat.sub_diag|];
    reflexivity.
Qed.

Lemma select_series_reindex mask s :
  select_series mask s = reindex (select mask (seq 0 (series_length s))) s.
Proof.
  destruct s as [xs|xs|xs]; simpl; f_equal;
    rewrite (select_positions None mask xs 0); apply List.map_ext;
    intros i; rewrite Nat.sub_0_r; reflexivity.
Qed.

Lemma rows_select_rows mask df :
  well_formed df -> rows (select_rows mask df) = select mask (rows df).
Proof.
  intros Hw.
  assert (E : select_rows mask df
              = {| nrows := length (select mask (seq 0 (nrows df)));
                   columns := List.map
                     (fun c => (fst c, reindex (select mask (seq 0 (nrows df))) (snd c)))
                     (columns df) |}).
  { unfold select_rows. f_equal. apply map_ext_in. intros c Hc.
    rewrite select_series_reindex. unfold well_formed in Hw.
    rewrite Forall_forall in Hw. rewrite (Hw c Hc). reflexivity. }
  rewrite E, rows_reindexed. unfold rows. symmetry. apply select_map.
Qed.

Lemma well_formed_select_rows mask df :
  well_formed df -> well_formed (select_rows mask df).
Proof.
  unfold well_formed, select_rows. simpl. intros Hw. apply Forall_map.
  revert Hw. apply Forall_impl. intros c Hc. simpl.
  destruct (snd c) as [xs|xs|xs]; simpl in *; apply select_length;
    rewrite length_seq; exact Hc.
Qed.

Lemma labels_select_rows mask df : labels (select_rows mask df) = labels df.
Proof. unfold labels, select_rows. simpl. rewrite List.map_map. reflexivity. Qed.

Lemma select_twice m1 : forall m2,
  exists m, forall (A : Type) (l : list A), select m2 (select m1 l) = select m l.
Proof.
  induction m1 as [|b m1 IH]; intros m2.
  - exists []. intros A l. destruct m2, l; reflexivity.
  - destruct b.
    + destruct m2 as [|b2 m2].
      * exists []. intros A [|x l]; reflexivity.
      * destruct (IH m2) as (m & Hm). exists (b2 :: m).
        intros A [|x l]; simpl; [destruct b2; reflexivity|].
        rewrite Hm. reflexivity.
    + destruct (IH m2) as (m & Hm). exists (false :: m).
      intros A [|x l]; simpl; [destruct m2; reflexivity | apply Hm].
Qed.

Section FilterFacts.

Context `{Pandas}.

Lemma filter_title_blank df query :
  Str.is_empty (Str.strip query) = true -> filter_title df query = Ok df.
Proof. unfold filter_title. intros ->. reflexivity. Qed.

Lemma selects_trans a b c : selects a b -> selects b c -> selects a c.
Proof. intros Hab Hbc. induction Hbc; [exact Hab | constructor; auto]. Qed.

Lemma filter_years_selects df range filtered :
  filter_years df df range = Ok filtered -> selects df filtered.
Proof.
  unfold filter_years. intros (b & _ & Hf)%rbind_ok. destruct b.
  - apply rbind_ok in Hf. destruct Hf as (ge & _ & Hf).
    apply rbind_ok in Hf. destruct Hf as (le & _ & [= <-]).
    repeat constructor.
  - injection Hf as <-. constructor.
Qed.

Lemma filter_source_selects df selected filtered :
  filter_source df selected = Ok filtered -> selects df filtered.
Proof.
  unfold filter_source. destruct (negb (String.eqb selected "All")).
  - intros (m & _ & [= <-])%rbind_ok. repeat constructor.
  - intros [= <-]. constructor.
Qed.

Lemma filter_title_selects df query filtered :
  filter_title df query = Ok filtered -> selects df filtered.
Proof.
  unfold filter_title. destruct (negb (Str.is_empty (Str.strip query))).
  - intros (m & _ & [= <-])%rbind_ok. repeat constructor.
  - intros [= <-]. constructor.
Qed.

Lemma apply_filters_selects df range source query filtered :
  apply_filters df range source query = Ok filtered -> selects df filtered.
Proof.
  unfold apply_filters.
  intros (f1 & H1 & (f2 & H2 & H3)%rbind_ok)%rbind_ok.
  eapply selects_trans; [eapply selects_trans|].
  - exact (filter_years_selects _ _ _ H1).
  - exact (filter_source_selects _ _ _ H2).
  - exact (filter_title_selects _ _ _ H3).
Qed.

Lemma selects_shape df df' :
  selects df df' ->
  labels df' = labels df
  /\ (well_formed df ->
      well_formed df'
      /\ exists mask, rows df' = select mask (rows df)).
Proof.
  induction 1 as [df|df df' mask _ (L & W)].
  - split; [reflexivity|]. intros Hw. split; [exact Hw|].
    exists (repeat true (length (rows df))).
    induction (rows df) as [|r l IH]; simpl; congruence.
  - split; [rewrite labels_select_rows; exact L|].
    intros Hw. destruct (W Hw) as (Hw' & m1 & Hr).
    split; [apply well_formed_select_rows, Hw'|].
    destruct (select_twice m1 mask) as (m & Hm). exists m.
    rewrite rows_select_rows by exact Hw'. rewrite Hr. apply Hm.
Qed.

End FilterFacts.

Lemma select_length_le {A} mask (xs : list A) : length (select mask xs) <= length xs.
Proof.
  revert mask. induction xs as [|x xs IH]; intros [|b mask]; simpl; try lia.
  destruct b; simpl; specialize (IH mask); lia.
Qed.

Lemma rows_length df : length (rows df) = nrows df.
Proof. unfold rows. rewrite length_map. apply length_seq. Qed.

(** X6. Whatever is selected in the sidebar, the filtered frame has the
    headers of the loaded frame, one cell per row in every column, and its
    rows are rows of the loaded frame in their original order: the filters
    select, they neither reorder nor change a row. *)
Theorem filters_select_rows `{Pandas}
    (df filtered : DataFrame) (range : Z * Z) (source query : string) :
  well_formed df ->
  apply_filters df range source query = Ok filtered ->
  labels filtered = labels df
  /\ well_formed filtered
  /\ (exists mask, rows filtered = select mask (rows df))
  /\ nrows filtered <= nrows df.
Proof.
  intros Hw Hf.
  destruct (selects_shape _ _ (apply_filters_selects _ _ _ _ _ Hf)) as (L & W).
  destruct (W Hw) as (Hw' & mask & Hr).
  split; [exact L|]. split; [exact Hw'|]. split; [eauto|].
  rewrite <- (rows_length filtered), <- (rows_length df), Hr.
  apply select_length_le.
Qed.

(** X6, on the example loaded table: the years 2021 to 2021, the source
    PMC and the query "masks" leave the first row. *)
Lemma filters_select_rows_example :
  exists filtered,
    apply_filters (H := Example.pandas) ExampleTables.loaded
      (2021, 2021)%Z "PMC" "masks" = Ok filtered
    /\ rows filtered
       = select [true; false; false; false] (rows ExampleTables.loaded)
    /\ (labels filtered = labels ExampleTables.loaded
        /\ well_formed filtered
        /\ (exists mask, rows filtered = select mask (rows ExampleTables.loaded))
        /\ nrows filtered <= nrows ExampleTables.loaded).
Proof.
  eexists. split; [vm_compute; reflexivity|]. split; [reflexivity|].
  apply (filters_select_rows (H := Example.pandas) ExampleTables.loaded
           _ (2021, 2021)%Z "PMC" "masks").
  - unfold well_formed. simpl. repeat constructor.
  - vm_compute. reflexivity.
Defined.

(** X7. When the viewer opens (the whole year range, every source, a
    title query that is empty or blank) on a frame whose [year] is one
    numeric column, the filters return: the frame itself if no row has a
    year, and otherwise exactly the rows that have one, in order. *)
Theorem default_view_keeps_dated_rows `{Pandas}
    (df : DataFrame) (ys : list (option Z)) (query : string) :
  getitem df "year" = One (Ints ys) ->
  Str.is_empty (Str.strip query) = true ->
  exists range,
    default_range df = Ok range
    /\ apply_filters df range "All" query
       = Ok (if any (List.map present ys)
             then select_rows (List.map present ys) df
             else df)
    /\ (well_formed df ->
        rows (select_rows (List.map present ys) df)
        = select (List.map present ys) (rows df)).
Proof.
  intros Hg Hq.
  destruct (default_range_encloses df ys Hg) as (lo & hi & Hr & Hb).
  exists (lo, hi). split; [exact Hr|]. split; [|apply rows_select_rows].
  unfold apply_filters, filter_years, year_any. rewrite Hg. simpl.
  destruct (any (List.map present ys)) eqn:Ha; simpl.
  - rewrite (mask_and_map
               (fun y => match y with Some z => Z.geb z lo | None => false end)
               (fun y => match y with Some z => Z.leb z hi | None => false end)).
    rewrite (map_ext_in _ present).
    + unfold filter_source. simpl. apply filter_title_blank, Hq.
    + intros [z|] Hz; simpl; [|reflexivity].
      destruct (Hb z Hz) as [Hlo Hhi]. rewrite Z.geb_leb.
      apply andb_true_intro. split; apply Z.leb_le; assumption.
  - unfold filter_source. simpl. apply filter_title_blank, Hq.
Qed.

(** X7, on the example loaded table: the row without a year is dropped. *)
Lemma default_view_example :
  exists range,
    default_range ExampleTables.loaded = Ok range
    /\ apply_filters (H := Example.pandas) ExampleTables.loaded range "All" "  "
       = Ok (if any (List.map present [Some 2021; Some 2019; None; Some 2021]%Z)
             then select_rows
                    (List.map present [Some 2021; Some 2019; None; Some 2021]%Z)
                    ExampleTables.loaded
             else ExampleTables.loaded)
    /\ (well_formed ExampleTables.loaded ->
        rows (select_rows (List.map present [Some 2021; Some 2019; None; Some 2021]%Z)
                ExampleTables.loaded)
        = select (List.map present [Some 2021; Some 2019; None; Some 2021]%Z)
            (rows ExampleTables.loaded)).
Proof.
  apply (default_view_keeps_dated_rows (H := Example.pandas) ExampleTables.loaded).
  - reflexivity.
  - reflexivity.
Defined.

(* ------------------------------------------------------------------ *)
(** ** Aggregator: counting values *)

Section CountFacts.

Context {K : Type} (eqb : K -> K -> bool).
Hypothesis eqb_spec : forall a b, eqb a b = true <-> a = b.

Lemma eqb_same a : eqb a a = true.
Proof. apply eqb_spec. reflexivity. Qed.

Lemma count_of_filter (p : K -> bool) k xs :
  p k = true -> count_of eqb k (List.filter p xs) = count_of eqb k xs.
Proof.
  intros Hk. induction xs as [|x xs IH]; simpl; [reflexivity|].
  destruct (p x) eqn:Hx; simpl; rewrite IH; [reflexivity|].
  destruct (eqb x k) eqn:E; [|reflexivity].
  apply eqb_spec in E. congruence.
Qed.

Lemma count_of_absent k xs : ~ In k xs -> count_of eqb k xs = 0.
Proof.
  induction xs as [|x xs IH]; simpl; [reflexivity|]. intros Hn.
  destruct (eqb x k) eqn:E; [apply eqb_spec in E; tauto|].
  apply IH. tauto.
Qed.

Lemma count_of_present k xs : In k xs -> 0 < count_of eqb k xs.
Proof.
  induction xs as [|x xs IH]; simpl; [tauto|].
  intros [->|Hk]; [rewrite eqb_same; lia | specialize (IH Hk); lia].
Qed.

Lemma in_unique k xs : In k (unique eqb xs) <-> In k xs.
Proof.
  induction xs as [|x xs IH]; simpl; [tauto|].
  rewrite filter_In, IH. destruct (eqb x k) eqn:E.
  - apply eqb_spec in E. subst. simpl. intuition discriminate.
  - assert (x <> k) by (intros ->; rewrite eqb_same in E; discriminate).
    simpl. intuition.
Qed.

Lemma nodup_unique xs : NoDup (unique eqb xs).
Proof.
  induction xs as [|x xs IH]; simpl; constructor.
  - intros [_ Hx]%filter_In. rewrite eqb_same in Hx. discriminate.
  - apply NoDup_filter, IH.
Qed.

Lemma in_counts k n xs :
  In (k, n) (counts eqb xs) <-> In k xs /\ n = count_of eqb k xs.
Proof.
  unfold counts. rewrite in_map_iff. split.
  - intros (y & E & Hy). injection E as <- <-.
    split; [apply in_unique, Hy | reflexivity].
  - intros [Hk ->]. exists k. split; [reflexivity | apply in_unique, Hk].
Qed.

Lemma keys_counts xs : List.map fst (counts eqb xs) = unique eqb xs.
Proof. unfold counts. rewrite List.map_map. apply List.map_id. Qed.

Lemma sum_split (f : K -> nat) x l :
  NoDup l ->
  list_sum (List.map f l)
  = (if existsb (eqb x) l then f x else 0)
    + list_sum (List.map f (List.filter (fun y => negb (eqb x y)) l)).
Proof.
  induction 1 as [|a l Ha _ IH]; simpl; [reflexivity|].
  destruct (eqb x a) eqn:E; simpl.
  - apply eqb_spec in E. subst a. rewrite IH.
    destruct (existsb (eqb x) l) eqn:Ex; [|lia].
    apply existsb_exists in Ex. destruct Ex as (y & Hy & Ey).
    apply eqb_spec in Ey. subst y. tauto.
  - rewrite IH. lia.
Qed.

Lemma sum_counts xs : list_sum (List.map snd (counts eqb xs)) = length xs.
Proof.
  unfold counts. rewrite List.map_map. simpl.
  induction xs as [|x xs IH]; simpl; [reflexivity|].
  rewrite eqb_same.
  rewrite (sum_split (fun k => count_of eqb k xs) x _ (nodup_unique xs)) in IH.
  rewrite <- IH.
  assert (E : (if existsb (eqb x) (unique eqb xs) then count_of eqb x xs else 0)
              = count_of eqb x xs).
  { destruct (existsb (eqb x) (unique eqb xs)) eqn:Ex; [reflexivity|].
    symmetry. apply count_of_absent. intros Hx. apply in_unique in Hx.
    assert (X : existsb (eqb x) (unique eqb xs) = true)
      by (apply existsb_exists; exists x; split; [exact Hx | apply eqb_same]).
    congruence. }
  rewrite E.
  rewrite (map_ext_in _ (fun k => count_of eqb k xs)
             (List.filter (fun y => negb (eqb x y)) (unique eqb xs))).
  - lia.
  - intros k [_ Hk]%filter_In. apply negb_true_iff in Hk. rewrite Hk. reflexivity.
Qed.

End CountFacts.

Lemma firstn_parts {A} (R : A -> A -> Prop) n l :
  StronglySorted R l ->
  StronglySorted R (firstn n l)
  /\ (forall a b, In a (firstn n l) -> In b l -> ~ In b (firstn n l) -> R a b).
Proof.
  intros Hs. rewrite <- (firstn_skipn n l) in Hs.
  apply strongly_sorted_app in Hs. destruct Hs as [H1 H2].
  split; [exact H1|]. intros a b Ha Hb Hn. apply H2; [exact Ha|].
  rewrite <- (firstn_skipn n l) in Hb. apply in_app_or in Hb. tauto.
Qed.

Lemma insert_by_key_perm x l : Permutation (insert_by_key x l) (x :: l).
Proof.
  induction l as [|y l IH]; simpl; [reflexivity|].
  destruct (fst x <=? fst y)%Z; [reflexivity|].
  rewrite IH. apply perm_swap.
Qed.

Lemma sort_index_perm l : Permutation (sort_index l) l.
Proof.
  induction l as [|x l IH]; simpl; [reflexivity|].
  rewrite insert_by_key_perm, IH. reflexivity.
Qed.

Lemma insert_by_key_sorted x l :
  StronglySorted (fun a b => (fst a <= fst b)%Z) l ->
  StronglySorted (fun a b => (fst a <= fst b)%Z) (insert_by_key x l).
Proof.
  induction 1 as [|y l Hl IH Hy]; simpl; [repeat constructor|].
  destruct (fst x <=? fst y)%Z eqn:E.
  - apply Z.leb_le in E. constructor; [constructor; assumption|].
    constructor; [exact E|]. revert Hy. apply Forall_impl. intros z Hz. lia.
  - apply Z.leb_gt in E. constructor; [exact IH|].
    apply (Permutation_Forall (Permutation_sym (insert_by_key_perm x l))).
    constructor; [lia | exact Hy].
Qed.

Lemma sort_index_sorted l :
  StronglySorted (fun a b => (fst a <= fst b)%Z) (sort_index l).
Proof.
  induction l as [|x l IH]; simpl; [constructor | apply insert_by_key_sorted, IH].
Qed.

Lemma sorted_distinct_strict (l : list (Z * nat)) :
  NoDup (List.map fst l) ->
  StronglySorted (fun a b => (fst a <= fst b)%Z) l ->
  StronglySorted (fun a b => (fst a < fst b)%Z) l.
Proof.
  intros Hn Hs. induction Hs as [|x l _ IH Hx]; [constructor|].
  simpl in Hn. inversion Hn as [|? ? Hnx Hnl]; subst.
  constructor; [apply IH, Hnl|].
  rewrite Forall_forall in Hx |- *. intros y Hy.
  specialize (Hx y Hy). assert (fst x <> fst y); [|lia].
  intros E. apply Hnx. rewrite E. apply in_map, Hy.
Qed.

Lemma list_sum_perm l l' : Permutation l l' -> list_sum l = list_sum l'.
Proof. induction 1; simpl; lia. Qed.

(* ------------------------------------------------------------------ *)
(** ** Aggregator: the year, journal and source tables *)

Section TableFacts.

Context `{SortValues}.

Lemma value_counts_perm {K} (eqb : K -> K -> bool) xs :
  Permutation (value_counts eqb xs) (counts eqb xs).
Proof. apply sort_values_perm. Qed.

Lemma year_table_perm ys :
  Permutation (sort_index (value_counts Z.eqb (dropna ys)))
    (counts Z.eqb (dropna ys)).
Proof. rewrite sort_index_perm. apply value_counts_perm. Qed.

End TableFacts.

(** X8. For a frame whose [year] is one numeric column, the
    publications-by-year chart is skipped when no row has a year;
    otherwise its table is not empty, lists each year that occurs once,
    in strictly ascending order, with the number of rows of that year, and
    the counts add up to the number of rows that have a year. *)
Theorem publications_by_year_table `{SortValues}
    (df : DataFrame) (ys : list (option Z)) :
  getitem df "year" = One (Ints ys) ->
  (any (List.map present ys) = false -> publications_by_year df = Ok None)
  /\ (any (List.map present ys) = true ->
      exists t,
        publications_by_year df = Ok (Some t)
        /\ t <> []
        /\ StronglySorted (fun a b => (fst a < fst b)%Z) t
        /\ (forall y n,
              In (y, n) t <->
              In (Some y) ys /\ n = count_of Z.eqb y (dropna ys))
        /\ (forall y n, In (y, n) t -> 0 < n)
        /\ list_sum (List.map snd t) = length (dropna ys)).
Proof.
  intros Hg. unfold publications_by_year, year_any, year_table. rewrite Hg. simpl.
  split; [intros ->; reflexivity|]. intros Ha. rewrite Ha. simpl.
  set (t := sort_index (value_counts Z.eqb (dropna ys))).
  pose proof (year_table_perm ys) as Hp. fold t in Hp.
  assert (Hin : forall y n,
             In (y, n) t <-> In (Some y) ys /\ n = count_of Z.eqb y (dropna ys)).
  { intros y n. rewrite <- in_dropna, <- (in_counts Z.eqb Z.eqb_eq). split.
    - apply (Permutation_in _ Hp).
    - apply (Permutation_in _ (Permutation_sym Hp)). }
  exists t. split; [reflexivity|].
  split.
  { rewrite any_present_dropna in Ha. destruct (dropna ys) as [|y l] eqn:E;
      [discriminate|].
    intros Et.
    assert (Hy : In (y, count_of Z.eqb y (y :: l)) t).
    { apply Hin. split; [apply in_dropna; rewrite E; left|]; reflexivity. }
    rewrite Et in Hy. destruct Hy. }
  split.
  { apply sorted_distinct_strict; [|apply sort_index_sorted].
    apply (Permutation_NoDup (Permutation_map fst (Permutation_sym Hp))).
    rewrite keys_counts. apply (nodup_unique Z.eqb Z.eqb_eq). }
  split; [exact Hin|].
  split.
  { intros y n Hyn. apply Hin in Hyn. destruct Hyn as [Hy ->].
    apply (count_of_present Z.eqb Z.eqb_eq), in_dropna, Hy. }
  rewrite (list_sum_perm _ _ (Permutation_map snd Hp)).
  apply (sum_counts Z.eqb Z.eqb_eq).
Qed.

(** X8, on the example loaded table: 2019 once and 2021 twice. *)
Lemma publications_by_year_example :
  publications_by_year (H := ExampleTables.sorting) ExampleTables.loaded
  = Ok (Some [(2019%Z, 1); (2021%Z, 2)])
  /\ ((any (List.map present [Some 2021; Some 2019; None; Some 2021]%Z) = false ->
       publications_by_year (H := ExampleTables.sorting) ExampleTables.loaded = Ok None)
      /\ (any (List.map present [Some 2021; Some 2019; None; Some 2021]%Z) = true ->
          exists t,
            publications_by_year (H := ExampleTables.sorting) ExampleTables.loaded
            = Ok (Some t)
            /\ t <> []
            /\ StronglySorted (fun a b => (fst a < fst b)%Z) t
            /\ (forall y n,
                  In (y, n) t <->
                  In (Some y) [Some 2021; Some 2019; None; Some 2021]%Z
                  /\ n = count_of Z.eqb y
                           (dropna [Some 2021; Some 2019; None; Some 2021]%Z))
            /\ (forall y n, In (y, n) t -> 0 < n)
            /\ list_sum (List.map snd t)
               = length (dropna [Some 2021; Some 2019; None; Some 2021]%Z))).
Proof.
  split; [reflexivity|].
  apply (publications_by_year_table (H := ExampleTables.sorting) ExampleTables.loaded).
  reflexivity.
Defined.

Lemma fillna_text v xs : fillna v (Text xs) = Ok (Text (List.map (fill v) xs)).
Proof. reflexivity. Qed.

Lemma dropna_filled {A} (l : list A) : dropna (List.map Some l) = l.
Proof. induction l as [|a l IH]; simpl; congruence. Qed.

Lemma top_chart_listed `{SortValues} (key : string) (n : nat) (df : DataFrame)
    (xs : list (option string)) :
  getitem df key = One (Text xs) ->
  exists t,
    top_chart key n df = Ok (Some t)
    /\ (forall v c, In (v, c) t ->
          In v (dropna (List.map (fill "Unknown") xs))).
Proof.
  intros Hg. unfold top_chart.
  assert (Hc : has_column df key = true).
  { apply has_column_true. apply getitem_one in Hg. congruence. }
  rewrite Hc, Hg. unfold top_values. rewrite fillna_text. simpl.
  eexists. split; [reflexivity|].
  intros v c Hvc.
  assert (Hin : In (v, c)
                  (value_counts String.eqb (dropna (List.map (fill "Unknown") xs)))).
  { rewrite <- (firstn_skipn n (value_counts _ _)). apply in_or_app. auto. }
  apply (Permutation_in _ (value_counts_perm _ _)) in Hin.
  apply (in_counts String.eqb String.eqb_eq) in Hin. tauto.
Qed.

(** X9. For a column of text, the table behind a top-values chart has
    at most [n] entries with distinct names, the larger counts first;
    each count is the number of cells of that name, a null cell reading
    "Unknown", and is positive; a name that occurs and is left out has no
    more cells than any name listed. The chart is skipped when the frame
    has no such column. *)
Theorem top_chart_table `{SortValues} (key : string) (n : nat) (df : DataFrame) :
  (has_column df key = false -> top_chart key n df = Ok None)
  /\ (forall xs,
        getitem df key = One (Text xs) ->
        exists t,
          top_chart key n df = Ok (Some t)
          /\ length t <= n
          /\ NoDup (List.map fst t)
          /\ StronglySorted (fun a b => snd b <= snd a) t
          /\ (forall v c, In (v, c) t ->
                c = cells_reading "Unknown" v xs /\ 0 < c)
          /\ (forall v, 0 < cells_reading "Unknown" v xs ->
                ~ In v (List.map fst t) ->
                forall e, In e t -> cells_reading "Unknown" v xs <= snd e)).
Proof.
  unfold top_chart. split; [intros ->; reflexivity|].
  intros xs Hg.
  assert (Hc : has_column df key = true).
  { apply has_column_true. apply getitem_one in Hg. congruence. }
  rewrite Hc, Hg. unfold top_values. rewrite fillna_text. simpl.
  set (vals := dropna (List.map (fill "Unknown") xs)).
  set (sorted := value_counts String.eqb vals).
  assert (Hp : Permutation sorted (counts String.eqb vals))
    by apply value_counts_perm.
  assert (Hs : StronglySorted (fun a b : string * nat => snd b <= snd a) sorted)
    by apply sort_values_desc.
  destruct (firstn_parts _ n _ Hs) as [Hs1 Hs2].
  assert (Hin : forall e, In e (firstn n sorted) -> In e sorted).
  { intros e He. rewrite <- (firstn_skipn n sorted). apply in_or_app. auto. }
  exists (firstn n sorted). split; [reflexivity|].
  split; [apply firstn_le_length|].
  split.
  { assert (Hn : NoDup (List.map fst sorted)).
    { apply (Permutation_NoDup (Permutation_map fst (Permutation_sym Hp))).
      rewrite keys_counts. apply (nodup_unique String.eqb String.eqb_eq). }
    rewrite <- (firstn_skipn n sorted), map_app in Hn.
    exact (NoDup_app_remove_r _ _ Hn). }
  split; [exact Hs1|].
  split.
  { intros v c Hvc. apply Hin, (Permutation_in _ Hp) in Hvc.
    apply (in_counts String.eqb String.eqb_eq) in Hvc. destruct Hvc as [Hv ->].
    split; [reflexivity|]. apply (count_of_present String.eqb String.eqb_eq), Hv. }
  intros v Hv Hout e He.
  assert (Hvs : In v vals).
  { destruct (in_dec string_dec v vals) as [Hi|Hni]; [exact Hi|].
    unfold cells_reading in Hv. fold vals in Hv.
    rewrite (count_of_absent String.eqb String.eqb_eq v vals Hni) in Hv. lia. }
  assert (Hvt : In (v, cells_reading "Unknown" v xs) sorted).
  { apply (Permutation_in _ (Permutation_sym Hp)).
    apply (in_counts String.eqb String.eqb_eq). auto. }
  apply (Hs2 e (v, cells_reading "Unknown" v xs) He Hvt).
  intros Hx. apply Hout. apply (in_map fst) in Hx. exact Hx.
Qed.

(** X9, on the example loaded table: the two sources with the most rows. *)
Lemma top_chart_example :
  top_chart (H := ExampleTables.sorting) "source_x" 2 ExampleTables.loaded
  = Ok (Some [("PMC", 2); ("WHO", 1)])
  /\ exists t,
       top_chart (H := ExampleTables.sorting) "source_x" 2 ExampleTables.loaded
       = Ok (Some t)
       /\ length t <= 2
       /\ NoDup (List.map fst t)
       /\ StronglySorted (fun a b => snd b <= snd a) t
       /\ (forall v c, In (v, c) t ->
             c = cells_reading "Unknown" v [Some "PMC"; Some "WHO"; Some "PMC"; Some ""]
             /\ 0 < c)
       /\ (forall v,
             0 < cells_reading "Unknown" v [Some "PMC"; Some "WHO"; Some "PMC"; Some ""] ->
             ~ In v (List.map fst t) ->
             forall e, In e t ->
               cells_reading "Unknown" v [Some "PMC"; Some "WHO"; Some "PMC"; Some ""]
               <= snd e).
Proof.
  split; [reflexivity|].
  apply (proj2 (top_chart_table (H := ExampleTables.sorting)
                  "source_x" 2 ExampleTables.loaded)).
  reflexivity.
Defined.

Lemma selects_text_column df df' key xs :
  selects df df' ->
  getitem df key = One (Text xs) ->
  exists mask, getitem df' key = One (Text (select mask xs)).
Proof.
  intros Hs Hg. induction Hs as [df|df df' mask _ IH].
  - exists (repeat true (length xs)). rewrite Hg. do 2 f_equal.
    clear. induction xs as [|x xs IH]; simpl; congruence.
  - destruct (IH Hg) as (m1 & Hg1). destruct (select_twice m1 mask) as (m & Hm).
    exists m. rewrite <- Hm. apply getitem_one. apply getitem_one in Hg1.
    rewrite columns_named_select_rows, Hg1. reflexivity.
Qed.

(** X10. In the viewer the journal chart counts a null journal under the
    empty name, not under "Unknown": the loading has already replaced
    nulls by the empty string. Every name the chart lists is the journal
    text of an input row, or the empty name of a null, and "Unknown" is
    listed only when an input row has the journal text "Unknown". *)
Theorem viewer_chart_names `{Pandas} `{SortValues}
    (df viewed filtered : DataFrame) (range : Z * Z) (source query : string)
    (n : nat) (ys : list (option string)) :
  load_df df = Ok viewed ->
  apply_filters viewed range source query = Ok filtered ->
  getitem (normalize_columns df) "journal" = One (Text ys) ->
  exists t,
    top_chart "journal" n filtered = Ok (Some t)
    /\ (forall v c, In (v, c) t -> exists y, In y ys /\ fill "" y = Some v)
    /\ (In "Unknown" (List.map fst t) -> In (Some "Unknown") ys).
Proof.
  intros Hl Hf Hg.
  destruct (load_df_text_fields df viewed "journal" Hl) as (_ & _ & Hv);
    [simpl; auto 6|].
  specialize (Hv ys Hg).
  destruct (selects_text_column _ _ _ _ (apply_filters_selects _ _ _ _ _ Hf) Hv)
    as (mask & Hfj).
  destruct (top_chart_listed "journal" n filtered _ Hfj) as (t & Ht & Hlisted).
  assert (Hname : forall v c, In (v, c) t -> exists y, In y ys /\ fill "" y = Some v).
  { intros v c Hvc. pose proof (Hlisted v c Hvc) as Hin.
    apply in_dropna, in_map_iff in Hin. destruct Hin as (x & Hx & Hsel).
    apply select_in, in_map_iff in Hsel. destruct Hsel as (y & <- & Hy).
    exists y. split; [exact Hy|]. destruct y; exact Hx. }
  exists t. split; [exact Ht|]. split; [exact Hname|].
  intros Hu. apply in_map_iff in Hu. destruct Hu as ([v c] & Ev & Hvc).
  simpl in Ev. subst v. destruct (Hname _ _ Hvc) as ([y|] & Hy & Efill).
  - simpl in Efill. injection Efill as ->. exact Hy.
  - discriminate.
Qed.

(** X10, on the example table as the viewer loads it: the null journal of
    the first row is charted under the empty name. *)
Lemma viewer_chart_names_example :
  exists viewed filtered,
    load_df (H := Example.pandas) Example.papers = Ok viewed
    /\ apply_filters (H := Example.pandas) viewed (2020, 2020)%Z "All" "" = Ok filtered
    /\ top_chart (H := ExampleTables.sorting) "journal" 10 filtered
       = Ok (Some [("", 1)])
    /\ exists t,
         top_chart (H := ExampleTables.sorting) "journal" 10 filtered = Ok (Some t)
         /\ (forall v c, In (v, c) t ->
               exists y, In y [None; Some "The Lancet"] /\ fill "" y = Some v)
         /\ (In "Unknown" (List.map fst t) ->
             In (Some "Unknown") [None; Some "The Lancet"]).
Proof.
  eexists _, _. split; [vm_compute; reflexivity|].
  split; [vm_compute; reflexivity|]. split; [reflexivity|].
  eapply (viewer_chart_names (H := Example.pandas) (H0 := ExampleTables.sorting)
            Example.papers _ _ (2020, 2020)%Z "All" "" 10).
  - vm_compute. reflexivity.
  - vm_compute. reflexivity.
  - reflexivity.
Defined.

Lemma insert_name_perm x l : Permutation (insert_name x l) (x :: l).
Proof.
  induction l as [|y l IH]; simpl; [reflexivity|].
  destruct (String.leb x y); [reflexivity|].
  rewrite IH. apply perm_swap.
Qed.

Lemma sorted_names_perm l : Permutation (sorted_names l) l.
Proof.
  induction l as [|x l IH]; simpl; [reflexivity|].
  rewrite insert_name_perm, IH. reflexivity.
Qed.

Lemma insert_name_sorted x l :
  Sorted (fun a b => String.leb a b = true) l ->
  Sorted (fun a b => String.leb a b = true) (insert_name x l).
Proof.
  induction 1 as [|y l Hl IH Hy]; simpl; [repeat constructor|].
  destruct (String.leb x y) eqn:E.
  - repeat constructor; assumption.
  - assert (Eyx : String.leb y x = true)
      by (destruct (String.leb_total x y); congruence).
    constructor; [exact IH|].
    destruct l as [|z l]; simpl; [constructor; exact Eyx|].
    destruct (String.leb x z); constructor; [exact Eyx|].
    inversion Hy; assumption.
Qed.

Lemma sorted_names_sorted l :
  Sorted (fun a b => String.leb a b = true) (sorted_names l).
Proof.
  induction l as [|x l IH]; simpl; [constructor | apply insert_name_sorted, IH].
Qed.

Lemma sources_listed (df : DataFrame) (xs : list (option string)) :
  getitem df "source_x" = One (Text xs) ->
  exists rest,
    sources df = Ok ("All" :: rest)
    /\ Sorted (fun a b => String.leb a b = true) rest
    /\ NoDup rest
    /\ (forall o, In o rest <-> exists x, In x xs /\ fill "Unknown" x = Some o).
Proof.
  intros Hg. unfold sources.
  assert (Hc : has_column df "source_x" = true).
  { apply has_column_true. apply getitem_one in Hg. congruence. }
  rewrite Hc, Hg, fillna_text. simpl.
  set (vals := dropna (List.map (fill "Unknown") xs)).
  pose proof (sorted_names_perm (unique String.eqb vals)) as Hp.
  eexists. split; [reflexivity|].
  split; [apply sorted_names_sorted|].
  split.
  { apply (Permutation_NoDup (Permutation_sym Hp)).
    apply (nodup_unique String.eqb String.eqb_eq). }
  intros o. split.
  - intros Ho. apply (Permutation_in _ Hp) in Ho.
    apply (in_unique String.eqb String.eqb_eq), in_dropna, in_map_iff in Ho.
    destruct Ho as (x & Hx & Hxs). eauto.
  - intros (x & Hx & Ex). apply (Permutation_in _ (Permutation_sym Hp)).
    apply (in_unique String.eqb String.eqb_eq), in_dropna. rewrite <- Ex.
    apply in_map, Hx.
Qed.

Lemma select_pairs_snd {A B} (d : A -> bool) (q : B -> bool) ys : forall xs,
  List.filter q (select (List.map d ys) xs)
  = List.map snd (List.filter (fun p => d (fst p) && q (snd p)) (combine ys xs)).
Proof.
  induction ys as [|y ys IH]; intros [|x xs]; simpl; try reflexivity.
  destruct (d y); simpl; [destruct (q x); simpl|]; rewrite IH; reflexivity.
Qed.

Lemma select_pairs_fst {A B} (d : A -> bool) (q : B -> bool) ys : forall xs,
  select (List.map q (select (List.map d ys) xs)) (select (List.map d ys) ys)
  = List.map fst (List.filter (fun p => d (fst p) && q (snd p)) (combine ys xs)).
Proof.
  induction ys as [|y ys IH]; intros [|x xs]; simpl; try reflexivity.
  destruct (d y); simpl; [destruct (q x); simpl|]; rewrite IH; reflexivity.
Qed.

Lemma select_all {A B} (d : A -> bool) (ys : list A) : forall xs : list B,
  (forall y, d y = true) -> length xs <= length ys ->
  select (List.map d ys) xs = xs.
Proof.
  induction ys as [|y ys IH]; intros [|x xs] Hd Hl; simpl in *;
    try reflexivity; try lia.
  rewrite Hd, IH; [reflexivity | exact Hd | lia].
Qed.

Lemma getitem_select_rows_ints mask df key ys :
  getitem df key = One (Ints ys) ->
  getitem (select_rows mask df) key = One (Ints (select mask ys)).
Proof.
  intros Hg. apply getitem_one in Hg. apply getitem_one.
  rewrite columns_named_select_rows, Hg. reflexivity.
Qed.

Lemma year_mask ys range :
  any (List.map present ys) = true ->
  mask_and
    (List.map (fun y => match y with Some z => Z.geb z (fst range) | None => false end) ys)
    (List.map (fun y => match y with Some z => Z.leb z (snd range) | None => false end) ys)
  = List.map (year_shown ys range) ys.
Proof.
  intros Ha. rewrite mask_and_map. apply List.map_ext. intros [z|].
  - unfold year_shown. rewrite Ha. reflexivity.
  - unfold year_shown. rewrite Ha. reflexivity.
Qed.

Section SourceFilter.

Context `{Pandas}.

Lemma source_filter_rows df xs ys range o query :
  well_formed df ->
  getitem df "source_x" = One (Text xs) ->
  getitem df "year" = One (Ints ys) ->
  Str.is_empty (Str.strip query) = true ->
  o <> "All"%string ->
  exists filtered,
    apply_filters df range o query = Ok filtered
    /\ getitem filtered "source_x" = One (Text (List.map snd (shown_rows ys xs range o)))
    /\ getitem filtered "year" = One (Ints (List.map fst (shown_rows ys xs range o)))
    /\ well_formed filtered.
Proof.
  intros Hw Hs Hy Hq Hne. apply String.eqb_neq in Hne.
  assert (Lx : length xs = nrows df).
  { apply (well_formed_named df "source_x" (Text xs) Hw).
    apply getitem_one in Hs. rewrite Hs. left. reflexivity. }
  assert (Ly : length ys = nrows df).
  { apply (well_formed_named df "year" (Ints ys) Hw).
    apply getitem_one in Hy. rewrite Hy. left. reflexivity. }
  unfold shown_rows.
  rewrite <- (select_pairs_snd (year_shown ys range) (reads_as o)).
  rewrite <- (select_pairs_fst (year_shown ys range) (reads_as o)).
  rewrite <- select_test.
  set (m := List.map (year_shown ys range) ys).
  assert (F1 : exists f1,
             filter_years df df range = Ok f1
             /\ getitem f1 "source_x" = One (Text (select m xs))
             /\ getitem f1 "year" = One (Ints (select m ys))
             /\ well_formed f1).
  { unfold filter_years, year_any. rewrite Hy. simpl.
    destruct (any (List.map present ys)) eqn:Ha; simpl.
    - rewrite (year_mask ys range Ha). fold m. eexists. split; [reflexivity|].
      split; [apply getitem_select_rows_text, Hs|].
      split; [apply getitem_select_rows_ints, Hy | apply well_formed_select_rows, Hw].
    - assert (Hd : forall y, year_shown ys range y = true)
        by (intros y; unfold year_shown; rewrite Ha; reflexivity).
      exists df. split; [reflexivity|]. unfold m.
      rewrite !(select_all _ _ _ Hd) by lia. auto. }
  destruct F1 as (f1 & H1 & Hs1 & Hy1 & Hw1).
  exists (select_rows (List.map (reads_as o) (select m xs)) f1).
  split.
  { unfold apply_filters. rewrite H1. simpl. unfold filter_source.
    rewrite Hne. simpl. rewrite Hs1. simpl. apply filter_title_blank, Hq. }
  split; [apply getitem_select_rows_text, Hs1|].
  split; [apply getitem_select_rows_ints, Hy1 | apply well_formed_select_rows, Hw1].
Qed.

End SourceFilter.

(** X11. For a loaded frame with one cell per row whose [source_x] is one
    text column and whose [year] is one numeric column, the source
    selector offers "All" and then the distinct sources, a null reading
    "Unknown", each once and in ascending order. The options come from
    the loaded frame, the source filter works on what the year filter
    has left: with an offered source other than "All" chosen and no title
    query, the filtered frame holds exactly the rows of that source
    whose year passes the year filter, in order. There is at least one
    such row when no year is known, the year filter then being skipped;
    otherwise there may be none. *)
Theorem source_selector_options `{Pandas} (df : DataFrame)
    (xs : list (option string)) (ys : list (option Z))
    (range : Z * Z) (query : string) :
  well_formed df ->
  getitem df "source_x" = One (Text xs) ->
  getitem df "year" = One (Ints ys) ->
  Str.is_empty (Str.strip query) = true ->
  exists rest,
    sources df = Ok ("All" :: rest)
    /\ Sorted (fun a b => String.leb a b = true) rest
    /\ NoDup rest
    /\ (forall o, In o rest <-> exists x, In x xs /\ fill "Unknown" x = Some o)
    /\ (forall o, In o rest -> o <> "All"%string ->
          exists filtered,
            apply_filters df range o query = Ok filtered
            /\ getitem filtered "source_x"
               = One (Text (List.map snd (shown_rows ys xs range o)))
            /\ getitem filtered "year"
               = One (Ints (List.map fst (shown_rows ys xs range o)))
            /\ nrows filtered = length (shown_rows ys xs range o)
            /\ (any (List.map present ys) = false -> 0 < nrows filtered)).
Proof.
  intros Hw Hs Hy Hq.
  destruct (sources_listed df xs Hs) as (rest & Hr & Hsorted & Hnodup & Hin).
  exists rest. split; [exact Hr|]. split; [exact Hsorted|].
  split; [exact Hnodup|]. split; [exact Hin|].
  intros o Ho Hne.
  destruct (source_filter_rows df xs ys range o query Hw Hs Hy Hq Hne)
    as (filtered & Hf & Hfs & Hfy & Hwf).
  assert (Hn : nrows filtered = length (shown_rows ys xs range o)).
  { pose proof (proj1 (getitem_one _ _ _) Hfs) as Hcols.
    assert (Hl : series_length (Text (List.map snd (shown_rows ys xs range o)))
                 = nrows filtered).
    { apply (well_formed_named filtered "source_x" _ Hwf). rewrite Hcols.
      left. reflexivity. }
    simpl in Hl. rewrite length_map in Hl. symmetry. exact Hl. }
  exists filtered. split; [exact Hf|]. split; [exact Hfs|]. split; [exact Hfy|].
  split; [exact Hn|].
  intros Ha. rewrite Hn.
  apply Hin in Ho. destruct Ho as (x & Hx & Ex).
  assert (Lx : length xs = nrows df).
  { apply (well_formed_named df "source_x" (Text xs) Hw).
    apply getitem_one in Hs. rewrite Hs. left. reflexivity. }
  assert (Ly : length ys = nrows df).
  { apply (well_formed_named df "year" (Ints ys) Hw).
    apply getitem_one in Hy. rewrite Hy. left. reflexivity. }
  assert (Hd : forall y, year_shown ys range y = true)
    by (intros y; unfold year_shown; rewrite Ha; reflexivity).
  assert (E : List.map snd (shown_rows ys xs range o) = List.filter (reads_as o) xs).
  { unfold shown_rows.
    rewrite <- (select_pairs_snd (year_shown ys range) (reads_as o)).
    rewrite (select_all _ _ _ Hd) by lia. reflexivity. }
  rewrite <- (length_map snd), E.
  assert (Hf' : In x (List.filter (reads_as o) xs)).
  { apply filter_In. split; [exact Hx|]. unfold reads_as. rewrite Ex.
    apply String.eqb_refl. }
  destruct (List.filter (reads_as o) xs); [destruct Hf' | simpl; lia].
Qed.

(** X11, on a loaded table whose only WHO row has no year: WHO is
    offered, and at the range the slider opens on choosing it leaves no
    row. *)
Lemma source_selector_example :
  sources ExampleTables.undated = Ok ["All"; "PMC"; "WHO"]
  /\ default_range ExampleTables.undated = Ok (2021, 2021)%Z
  /\ (exists filtered,
        apply_filters (H := Example.pandas) ExampleTables.undated
          (2021, 2021)%Z "WHO" "" = Ok filtered
        /\ nrows filtered = 0)
  /\ shown_rows [Some 2021%Z; None] [Some "PMC"; Some "WHO"] (2021, 2021)%Z "PMC"
     = [(Some 2021%Z, Some "PMC")]
  /\ exists rest,
       sources ExampleTables.undated = Ok ("All" :: rest)
       /\ Sorted (fun a b => String.leb a b = true) rest
       /\ NoDup rest
       /\ (forall o,
             In o rest <->
             exists x, In x [Some "PMC"; Some "WHO"] /\ fill "Unknown" x = Some o)
       /\ (forall o, In o rest -> o <> "All"%string ->
             exists filtered,
               apply_filters (H := Example.pandas) ExampleTables.undated
                 (2021, 2021)%Z o "" = Ok filtered
               /\ getitem filtered "source_x"
                  = One (Text (List.map snd
                                 (shown_rows [Some 2021%Z; None]
                                    [Some "PMC"; Some "WHO"] (2021, 2021)%Z o)))
               /\ getitem filtered "year"
                  = One (Ints (List.map fst
                                 (shown_rows [Some 2021%Z; None]
                                    [Some "PMC"; Some "WHO"] (2021, 2021)%Z o)))
               /\ nrows filtered
                  = length (shown_rows [Some 2021%Z; None]
                              [Some "PMC"; Some "WHO"] (2021, 2021)%Z o)
               /\ (any (List.map present [Some 2021%Z; None]) = false ->
                   0 < nrows filtered)).
Proof.
  split; [reflexivity|]. split; [reflexivity|].
  split; [eexists; split; [vm_compute; reflexivity | reflexivity]|].
  split; [reflexivity|].
  apply (source_selector_options (H := Example.pandas) ExampleTables.undated).
  - unfold well_formed. simpl. repeat constructor.
  - reflexivity.
  - reflexivity.
  - reflexivity.
Defined.

(* ------------------------------------------------------------------ *)
(** ** Aggregator: the title text *)

Lemma space_lowered c : Char.isspace (Char.lower c) = Char.isspace c.
Proof. each_char c. Qed.

Lemma space_is_no_word c :
  Char.isspace c = true -> Char.is_word (Char.lower c) = false.
Proof. each_char c. Qed.

Lemma lower_twice c : Char.lower (Char.lower c) = Char.lower c.
Proof. each_char c. Qed.

Lemma lstrip_blank s :
  Str.all Char.isspace (Str.lstrip s) = true -> Str.all Char.isspace s = true.
Proof.
  induction s as [|c s IH]; simpl; [reflexivity|].
  destruct (Char.isspace c) eqn:E; simpl; [exact IH|].
  rewrite E. simpl. auto.
Qed.

Lemma lstrip_of_blank s :
  Str.all Char.isspace s = true -> Str.lstrip s = EmptyString.
Proof.
  induction s as [|c s IH]; simpl; [reflexivity|].
  intros [Hc Hs]%andb_prop. rewrite Hc. apply IH, Hs.
Qed.

Lemma rstrip_of_blank s :
  Str.all Char.isspace s = true -> Str.rstrip s = EmptyString.
Proof.
  induction s as [|c s IH]; [reflexivity|].
  rewrite rstrip_cons. simpl. intros [Hc Hs]%andb_prop.
  rewrite (IH Hs), Hc. reflexivity.
Qed.

Lemma strip_blank s :
  Str.strip s = EmptyString <-> Str.all Char.isspace s = true.
Proof.
  unfold Str.strip. split.
  - intros E. apply lstrip_blank, rstrip_blank, E.
  - intros E. rewrite (lstrip_of_blank _ E). reflexivity.
Qed.

Lemma join_blank titles :
  Str.all Char.isspace (Str.join " " titles)
  = forallb (Str.all Char.isspace) titles.
Proof.
  induction titles as [|t [|t' rest] IH].
  - reflexivity.
  - simpl. rewrite andb_true_r. reflexivity.
  - change (Str.join " " (t :: t' :: rest))
      with (t ++ String " " (Str.join " " (t' :: rest)))%string.
    rewrite all_append. change (forallb (Str.all Char.isspace) (t :: t' :: rest))
      with (Str.all Char.isspace t && forallb (Str.all Char.isspace) (t' :: rest)).
    rewrite <- IH. reflexivity.
Qed.

Lemma wordcloud_due_blank titles :
  wordcloud_due titles = negb (forallb (Str.all Char.isspace) titles).
Proof.
  unfold wordcloud_due. rewrite <- join_blank.
  destruct (Str.all Char.isspace (Str.join " " titles)) eqn:E.
  - apply strip_blank in E. rewrite E. reflexivity.
  - destruct (Str.strip (Str.join " " titles)) eqn:Es; [|reflexivity].
    apply strip_blank in Es. congruence.
Qed.

Lemma blank_has_no_words s :
  Str.all Char.isspace s = true -> Re.findall_words (Str.lower s) = [].
Proof.
  unfold Re.findall_words, Str.lower.
  induction s as [|c s IH]; simpl; [reflexivity|].
  intros [Hc Hs]%andb_prop. rewrite (space_is_no_word _ Hc). simpl.
  apply IH, Hs.
Qed.

Lemma tokens_of_blank titles :
  forallb (Str.all Char.isspace) titles = true -> title_tokens titles = [].
Proof.
  rewrite title_tokens_as_worded, spec_tokens_per_title.
  induction titles as [|t titles IH]; simpl; [reflexivity|].
  intros [Ht Hs]%andb_prop. rewrite (blank_has_no_words _ Ht). simpl.
  apply IH, Hs.
Qed.

Lemma tokens_skip_null (ys : list (option string)) :
  title_tokens (List.map (fun y => match y with Some t => t | None => "" end) ys)
  = title_tokens (dropna ys).
Proof.
  rewrite !title_tokens_as_worded, !spec_tokens_per_title.
  induction ys as [|[t|] ys IH]; simpl; [reflexivity| |exact IH].
  rewrite IH. reflexivity.
Qed.

Lemma blank_skip_null (ys : list (option string)) :
  forallb (Str.all Char.isspace)
    (List.map (fun y => match y with Some t => t | None => "" end) ys)
  = forallb (Str.all Char.isspace) (dropna ys).
Proof.
  induction ys as [|[t|] ys IH]; simpl; [reflexivity| |exact IH].
  rewrite IH. reflexivity.
Qed.

Lemma filled_cells (ys : list (option string)) :
  List.map (fill "") ys
  = List.map Some (List.map (fun y => match y with Some t => t | None => "" end) ys).
Proof.
  rewrite List.map_map. apply List.map_ext. intros [t|]; reflexivity.
Qed.

Lemma some_injective {A} (l l' : list A) :
  List.map Some l = List.map Some l' -> l = l'.
Proof.
  revert l'. induction l as [|a l IH]; intros [|a' l']; simpl; try discriminate.
  - reflexivity.
  - intros [= -> E]. rewrite (IH _ E). reflexivity.
Qed.

(** X12. In the batch explorer the title text is read from the cleaned
    frame, whose [title] has no null left, so no row is dropped from it:
    the titles are those of the normalized input with "" for a null (all
    empty when the input has no [title] column). The filling changes
    neither whether a word cloud is drawn nor the word table: both are
    those of the input's non-null titles. Whenever no word cloud is drawn
    the word table is empty. *)
Theorem explorer_title_text `{Pandas} (df cleaned : DataFrame) (log : list string) :
  clean df = (log, Ok cleaned) ->
  exists titles,
    title_strings (getitem cleaned "title") = Ok titles
    /\ (wordcloud_due titles = false -> top_title_words titles = [])
    /\ (has_column (normalize_columns df) "title" = false ->
        titles = repeat ""%string (nrows df) /\ wordcloud_due titles = false)
    /\ (forall ys,
          getitem (normalize_columns df) "title" = One (Text ys) ->
          titles = List.map (fun y => match y with Some t => t | None => "" end) ys
          /\ wordcloud_due titles = wordcloud_due (dropna ys)
          /\ top_title_words titles = top_title_words (dropna ys)).
Proof.
  intros Hc.
  destruct (clean_text_fields _ _ _ Hc)
    as (xa & xt & _ & Ht & _ & _ & _ & Ft & _).
  pose proof (filled_from_cases _ _ _ xt Ht Ft) as Hf.
  destruct Hf as ((ts & Hts) & Habsent & Hpresent).
  exists ts. rewrite Hts. simpl. rewrite dropna_filled.
  split; [reflexivity|]. split.
  { intros Hw. rewrite wordcloud_due_blank in Hw. apply negb_false_iff in Hw.
    unfold top_title_words. rewrite (tokens_of_blank _ Hw). reflexivity. }
  split.
  - intros Hno. specialize (Habsent Hno). rewrite Hts in Habsent.
    assert (E : ts = repeat ""%string (nrows df)).
    { apply some_injective. injection Habsent as ->. simpl.
      clear. induction (nrows df); simpl; congruence. }
    split; [exact E|]. rewrite E, wordcloud_due_blank. apply negb_false_iff.
    clear. induction (nrows df); simpl; auto.
  - intros ys Hys. specialize (Hpresent ys Hys). rewrite Hts in Hpresent.
    assert (E : ts = List.map (fun y => match y with Some t => t | None => "" end) ys).
    { apply some_injective. rewrite <- filled_cells. congruence. }
    split; [exact E|]. rewrite E. split.
    + rewrite !wordcloud_due_blank, blank_skip_null. reflexivity.
    + unfold top_title_words. rewrite tokens_skip_null. reflexivity.
Qed.

(** X12, on the example table: the null title of the second row reads as
    the empty title and adds no word. *)
Lemma explorer_title_text_example :
  exists log cleaned,
    clean (H := Example.pandas) Example.papers = (log, Ok cleaned)
    /\ title_strings (getitem cleaned "title")
       = Ok ["COVID-19 vaccine trial results"; ""]
    /\ exists titles,
         title_strings (getitem cleaned "title") = Ok titles
         /\ (wordcloud_due titles = false -> top_title_words titles = [])
         /\ (has_column (normalize_columns Example.papers) "title" = false ->
             titles = repeat ""%string (nrows Example.papers)
             /\ wordcloud_due titles = false)
         /\ (forall ys,
               getitem (normalize_columns Example.papers) "title" = One (Text ys) ->
               titles = List.map (fun y => match y with Some t => t | None => "" end) ys
               /\ wordcloud_due titles = wordcloud_due (dropna ys)
               /\ top_title_words titles = top_title_words (dropna ys)).
Proof.
  eexists _, _. split; [vm_compute; reflexivity|]. split; [reflexivity|].
  eapply (explorer_title_text (H := Example.pandas) Example.papers).
  vm_compute. reflexivity.
Defined.

Lemma tally_counts ws : tally ws = counts String.eqb ws.
Proof. reflexivity. Qed.

Lemma sum_firstn n l : list_sum (firstn n l) <= list_sum l.
Proof.
  revert n. induction l as [|x l IH]; intros [|n]; simpl; try lia.
  specialize (IH n). lia.
Qed.

Lemma lower_lower s : Str.lower (Str.lower s) = Str.lower s.
Proof.
  unfold Str.lower. rewrite map_map. apply map_ext, lower_twice.
Qed.

(** X13. The word counter loses no token and invents none: its counts add
    up to the number of title tokens kept. The word table, its 200 most
    frequent entries, accounts for no more than that, and for all of it,
    being the whole counter reordered, when at most 200 distinct words
    were counted. Lower-casing the titles beforehand changes nothing in
    the table. *)
Theorem word_table_accounts_for_tokens (titles : list string) :
  list_sum (List.map snd (Counter (title_tokens titles)))
  = length (title_tokens titles)
  /\ list_sum (List.map snd (top_title_words titles)) <= length (title_tokens titles)
  /\ (length (distinct (title_tokens titles)) <= 200 ->
      Permutation (top_title_words titles) (Counter (title_tokens titles))
      /\ list_sum (List.map snd (top_title_words titles))
         = length (title_tokens titles))
  /\ top_title_words (List.map Str.lower titles) = top_title_words titles.
Proof.
  assert (Hsum : list_sum (List.map snd (Counter (title_tokens titles)))
                 = length (title_tokens titles)).
  { rewrite counter_is_tally, tally_counts.
    apply (sum_counts String.eqb String.eqb_eq). }
  split; [exact Hsum|]. split; [|split].
  - rewrite <- Hsum. unfold top_title_words, most_common.
    rewrite <- firstn_map.
    rewrite <- (list_sum_perm _ _ (Permutation_map snd (sorted_desc_perm _))).
    apply sum_firstn.
  - intros Hd.
    assert (E : top_title_words titles = sorted_desc (Counter (title_tokens titles))).
    { unfold top_title_words, most_common. apply firstn_all2.
      rewrite (Permutation_length (sorted_desc_perm _)).
      rewrite counter_is_tally. unfold tally. rewrite length_map. exact Hd. }
    split; [rewrite E; apply sorted_desc_perm|].
    rewrite E, <- Hsum.
    apply list_sum_perm, Permutation_map, sorted_desc_perm.
  - unfold top_title_words. do 2 f_equal.
    rewrite !title_tokens_as_worded. unfold spec_tokens.
    rewrite List.map_map.
    rewrite (List.map_ext _ Str.lower) by (intros t; apply lower_lower).
    reflexivity.
Qed.

(** X13, on two titles. *)
Lemma word_table_accounts_example :
  top_title_words ["Vaccine trial data"; "A vaccine study"]
  = [("vaccine", 2); ("trial", 1); ("data", 1)]
  /\ length (distinct (title_tokens ["Vaccine trial data"; "A vaccine study"])) <= 200
  /\ Permutation (top_title_words ["Vaccine trial data"; "A vaccine study"])
       (Counter (title_tokens ["Vaccine trial data"; "A vaccine study"]))
  /\ list_sum (List.map snd (top_title_words ["Vaccine trial data"; "A vaccine study"]))
     = length (title_tokens ["Vaccine trial data"; "A vaccine study"]).
Proof.
  split; [vm_compute; reflexivity|].
  split; [vm_compute; lia|].
  apply (proj1 (proj2 (proj2
    (word_table_accounts_for_tokens ["Vaccine trial data"; "A vaccine study"])))).
  vm_compute. lia.
Defined.

(* ------------------------------------------------------------------ *)
(** ** Column Normalizer: case and margins *)

Lemma lstrip_lower s : Str.lstrip (Str.lower s) = Str.lower (Str.lstrip s).
Proof.
  unfold Str.lower. induction s as [|c s IH]; simpl; [reflexivity|].
  rewrite space_lowered. destruct (Char.isspace c); [exact IH | reflexivity].
Qed.

Lemma rstrip_lower s : Str.rstrip (Str.lower s) = Str.lower (Str.rstrip s).
Proof.
  unfold Str.lower. induction s as [|c s IH]; [reflexivity|].
  change (Str.map Char.lower (String c s))
    with (String (Char.lower c) (Str.map Char.lower s)).
  rewrite !rstrip_cons, IH, space_lowered.
  destruct (Str.rstrip s); simpl; [destruct (Char.isspace c)|]; reflexivity.
Qed.

Lemma strip_lower s : Str.strip (Str.lower s) = Str.lower (Str.strip s).
Proof. unfold Str.strip. rewrite lstrip_lower, rstrip_lower. reflexivity. Qed.

Lemma rstrip_twice s : Str.rstrip (Str.rstrip s) = Str.rstrip s.
Proof.
  induction s as [|c s IH]; [reflexivity|].
  rewrite rstrip_cons. destruct (Str.rstrip s) as [|a r] eqn:E.
  - destruct (Char.isspace c) eqn:Ec; [reflexivity|].
    rewrite rstrip_cons. simpl. rewrite Ec. reflexivity.
  - rewrite rstrip_cons, IH. reflexivity.
Qed.

Lemma strip_twice s : Str.strip (Str.strip s) = Str.strip s.
Proof.
  unfold Str.strip. destruct (lstrip_head s) as [E|(c & t & E & Hc)]; rewrite E.
  - reflexivity.
  - destruct (rstrip_head c t Hc) as (r & Er). rewrite Er.
    change (Str.lstrip (String c r))
      with (if Char.isspace c then Str.lstrip r else String c r).
    rewrite Hc, <- Er. apply rstrip_twice.
Qed.

Lemma lstrip_margin a s :
  Str.all Char.isspace a = true -> Str.lstrip (a ++ s) = Str.lstrip s.
Proof.
  induction a as [|c a IH]; simpl; [reflexivity|].
  intros [Hc Ha]%andb_prop. rewrite Hc. apply IH, Ha.
Qed.

Lemma rstrip_margin s b :
  Str.all Char.isspace b = true -> Str.rstrip (s ++ b) = Str.rstrip s.
Proof.
  intros Hb. induction s as [|c s IH].
  - apply rstrip_of_blank, Hb.
  - change (String c s ++ b)%string with (String c (s ++ b)).
    rewrite !rstrip_cons, IH. reflexivity.
Qed.

Lemma lstrip_before c t b :
  Char.isspace c = false ->
  forall s, Str.lstrip s = String c t ->
    Str.lstrip (s ++ b) = (String c t ++ b)%string.
Proof.
  intros Hc. induction s as [|x s IH]; simpl; [discriminate|].
  destruct (Char.isspace x) eqn:Ex; [exact IH|].
  intros [= -> ->]. reflexivity.
Qed.

Lemma strip_margin a s b :
  Str.all Char.isspace a = true -> Str.all Char.isspace b = true ->
  Str.strip (a ++ s ++ b) = Str.strip s.
Proof.
  intros Ha Hb. unfold Str.strip. rewrite (lstrip_margin _ _ Ha).
  destruct (lstrip_head s) as [E|(c & t & E & Hc)].
  - assert (Hs : Str.all Char.isspace s = true)
      by (apply lstrip_blank; rewrite E; reflexivity).
    rewrite E, lstrip_of_blank; [reflexivity|].
    rewrite all_append, Hs, Hb. reflexivity.
  - rewrite (lstrip_before c t b Hc s E), E. apply rstrip_margin, Hb.
Qed.

(** X14. The column normalizer does not see the case of a header nor the
    whitespace around it: a header, its lower-cased form, its stripped
    form and the header with whitespace added before and after it all get
    the same name. Headers that differ only so are given one label. *)
Theorem normalize_name_ignores_case_and_margins (s : string) :
  normalize_name (Str.lower s) = normalize_name s
  /\ normalize_name (Str.strip s) = normalize_name s
  /\ (forall a b,
        Str.all Char.isspace a = true -> Str.all Char.isspace b = true ->
        normalize_name (a ++ s ++ b) = normalize_name s).
Proof.
  unfold normalize_name. split; [|split].
  - rewrite strip_lower, lower_lower. reflexivity.
  - rewrite strip_twice. reflexivity.
  - intros a b Ha Hb. rewrite (strip_margin _ _ _ Ha Hb). reflexivity.
Qed.

(** X14, on a header of the data set. *)
Lemma normalize_name_margins_example :
  normalize_name "  Publish Time " = "publish_time"%string
  /\ Str.all Char.isspace "  " = true
  /\ Str.all Char.isspace " " = true
  /\ normalize_name ("  " ++ "Publish Time" ++ " ") = normalize_name "Publish Time".
Proof.
  split; [reflexivity|]. split; [reflexivity|]. split; [reflexivity|].
  apply (proj2 (proj2 (normalize_name_ignores_case_and_margins "Publish Time"))
           "  "%string " "%string); reflexivity.
Defined.
